(** * JSXTransformer: a shallow embedding of src/transformers/JSXTransformer.ts

    The transformer rewrites JSX tags of a token stream into calls of
    [React.createElement].  This file embeds its pure text formatters, the
    lazy line counter and the token-driven tag/props/children routines, and
    proves the properties stated about them.

    Strings are [String.string]; a character is one code unit in the range
    U+0000..U+00FF, which is where every character the transformer inspects
    (space, tab, newline, hyphen, quotes, letters) lives. *)

From Stdlib Require Import String Ascii List Arith Bool Lia DecimalString.
Import ListNotations.

Local Open Scope list_scope.
Local Open Scope string_scope.
Local Open Scope nat_scope.



(* ================================================================= *)
(** ** Characters and elementary string operations *)

Module Chars.

Definition nl : ascii := ascii_of_nat 10.
Definition tab : ascii := ascii_of_nat 9.
Definition sp : ascii := ascii_of_nat 32.
Definition dquote : ascii := ascii_of_nat 34.
Definition squote : ascii := ascii_of_nat 39.
Definition backslash : ascii := ascii_of_nat 92.
Definition hyphen : ascii := ascii_of_nat 45.

(** The one-character string [c]. *)
Definition str (c : ascii) : string := String c EmptyString.

(** JavaScript [\s] restricted to code units below U+0100:
    TAB, LF, VT, FF, CR, SPACE and NBSP. *)
Definition isWhitespace (c : ascii) : bool :=
  let n := nat_of_ascii c in
  (9 <=? n) && (n <=? 13) || (n =? 32) || (n =? 160).

(** [String.prototype.toLowerCase] on one code unit below U+0100:
    A-Z and the Latin-1 capitals U+00C0..U+00DE (the multiplication sign
    U+00D7 apart) move up by 32; everything else is unchanged. *)
Definition isUpperCaseLetter (c : ascii) : bool :=
  let n := nat_of_ascii c in
  (65 <=? n) && (n <=? 90)
  || (192 <=? n) && (n <=? 222) && negb (n =? 215).

Definition toLowerCase (c : ascii) : ascii :=
  if isUpperCaseLetter c then ascii_of_nat (nat_of_ascii c + 32) else c.

End Chars.
Import Chars.

(** [for (const c of text)] with an accumulator. *)
Fixpoint forOf {A : Type} (body : A -> ascii -> A) (text : string) (acc : A) : A :=
  match text with
  | EmptyString => acc
  | String c rest => forOf body rest (body acc c)
  end.

(** [s.repeat(n)]. *)
Fixpoint repeat_string (s : string) (n : nat) : string :=
  match n with
  | 0 => EmptyString
  | S n' => s ++ repeat_string s n'
  end.

(** [s.includes(c)] for a one-character needle. *)
Fixpoint includes (c : ascii) (s : string) : bool :=
  match s with
  | EmptyString => false
  | String d rest => Ascii.eqb d c || includes c rest
  end.

(** Number of occurrences of [c] in [s]; the independent count the
    formatters and the line counter are compared with. *)
Fixpoint countChar (c : ascii) (s : string) : nat :=
  match s with
  | EmptyString => 0
  | String d rest => (if Ascii.eqb d c then 1 else 0) + countChar c rest
  end.

(** [code.slice(from, to)] for [from <= to]; empty otherwise. *)
Definition slice (from to : nat) (s : string) : string :=
  substring from (to - from) s.

(** Is the first character of [s] a whitespace character? *)
Definition headIsWhitespace (s : string) : bool :=
  match s with
  | EmptyString => false
  | String c _ => isWhitespace c
  end.

(* ================================================================= *)
(** ** JSON.stringify on strings *)

Module JSON.

Definition hexDigit (n : nat) : ascii :=
  if n <? 10 then ascii_of_nat (48 + n) else ascii_of_nat (87 + n).

(** QuoteJSONString, one code unit. *)
Definition escapeChar (c : ascii) : string :=
  let n := nat_of_ascii c in
  if n =? 34 then String backslash (str dquote)
  else if n =? 92 then String backslash (str backslash)
  else if n =? 8 then String backslash "b"
  else if n =? 12 then String backslash "f"
  else if n =? 10 then String backslash "n"
  else if n =? 13 then String backslash "r"
  else if n =? 9 then String backslash "t"
  else if n <? 32 then
    String backslash ("u00" ++ String (hexDigit (n / 16)) (str (hexDigit (n mod 16))))
  else str c.

Fixpoint escape (s : string) : string :=
  match s with
  | EmptyString => EmptyString
  | String c rest => escapeChar c ++ escape rest
  end.

Definition stringify (s : string) : string :=
  String dquote (escape s ++ str dquote).

End JSON.

(* ================================================================= *)
(** ** The pure formatters (JSXTransformer.ts, lines 202-273) *)

Definition charAt0 (s : string) : option ascii :=
  match s with
  | EmptyString => None
  | String c _ => Some c
  end.

(** [startsWithLowerCase(s)]: [s[0] === s[0].toLowerCase()].  On the empty
    string [s[0]] is [undefined] and the call of [toLowerCase] raises a
    TypeError, rendered as [None]. *)
Definition startsWithLowerCase (s : string) : option bool :=
  match charAt0 s with
  | None => None
  | Some c => Some (Ascii.eqb c (toLowerCase c))
  end.

Record TextLiteralState : Type := mkTextLiteralState {
  result : string;
  whitespace : string;
  isInInitialLineWhitespace : bool;
  seenNonWhitespace : bool
}.

Definition formatJSXTextLiteral_body (s : TextLiteralState) (c : ascii) : TextLiteralState :=
  if Ascii.eqb c sp || Ascii.eqb c tab then
    if negb (isInInitialLineWhitespace s) then
      mkTextLiteralState (result s) (whitespace s ++ str c)
        (isInInitialLineWhitespace s) (seenNonWhitespace s)
    else s
  else if Ascii.eqb c nl then
    mkTextLiteralState (result s) EmptyString true (seenNonWhitespace s)
  else
    let r1 :=
      if seenNonWhitespace s && isInInitialLineWhitespace s
      then result s ++ str sp else result s in
    mkTextLiteralState ((r1 ++ whitespace s) ++ str c) EmptyString false true.

Definition formatJSXTextLiteral_content (text : string) : string :=
  let s := forOf formatJSXTextLiteral_body text
             (mkTextLiteralState EmptyString EmptyString false false) in
  if negb (isInInitialLineWhitespace s) then result s ++ whitespace s else result s.

Definition formatJSXTextLiteral (text : string) : string :=
  JSON.stringify (formatJSXTextLiteral_content text).

(** The two counters of [formatJSXTextReplacement]: (numNewlines, numSpaces). *)
Definition formatJSXTextReplacement_body (s : nat * nat) (c : ascii) : nat * nat :=
  let '(numNewlines, numSpaces) := s in
  if Ascii.eqb c nl then (numNewlines + 1, 0)
  else if Ascii.eqb c sp then (numNewlines, numSpaces + 1)
  else (numNewlines, numSpaces).

Definition formatJSXTextReplacement (text : string) : string :=
  let '(numNewlines, numSpaces) := forOf formatJSXTextReplacement_body text (0, 0) in
  repeat_string (str nl) numNewlines ++ repeat_string (str sp) numSpaces.

(** [text.replace(/\n\s+/g, " ")]: a left-to-right scan.  [inRun] says that
    the scan is inside a match, whose replacement space has been written
    already; a match starts at a newline followed by a whitespace character
    and extends over every whitespace character that follows. *)
Fixpoint replaceNewlineRuns (inRun : bool) (text : string) : string :=
  match text with
  | EmptyString => EmptyString
  | String c rest =>
      if inRun && isWhitespace c then replaceNewlineRuns true rest
      else if Ascii.eqb c nl && headIsWhitespace rest
           then String sp (replaceNewlineRuns true rest)
           else String c (replaceNewlineRuns false rest)
  end.

Definition formatJSXStringValueLiteral (text : string) : string :=
  JSON.stringify (replaceNewlineRuns false text).

(* ================================================================= *)
(** ** Tokens and the token buffer *)

(** Modelled from the spec: the token kinds of sucrase-babylon/tokenizer/types
    (not among the sources).  A kind is identified by its label, the string
    [matchesAtIndex] is called with. *)
Record TokenType : Type := mkTokenType { label : string }.

Module tt.
Definition jsxTagStart := mkTokenType "jsxTagStart".
Definition jsxTagEnd := mkTokenType "jsxTagEnd".
Definition jsxName := mkTokenType "jsxName".
Definition jsxText := mkTokenType "jsxText".
Definition braceL := mkTokenType "{".
Definition braceR := mkTokenType "}".
Definition eq := mkTokenType "=".
Definition slash := mkTokenType "/".
Definition dot := mkTokenType ".".
Definition name := mkTokenType "name".
Definition string := mkTokenType "string".
Definition eof := mkTokenType "eof".
End tt.

(** Modelled from the spec: a token carries its kind, its source byte range
    and its literal text value (section 3, Token). *)
Record Token : Type := mkToken {
  type : TokenType;
  value : string;
  start : nat;
  end_ : nat
}.

(** Modelled from the spec: the token buffer of TokenProcessor (not among
    the sources): the source text, the tokens, the cursor and the text
    emitted so far. *)
Record TokenProcessor : Type := mkTokenProcessor {
  code : string;
  tokenList : list Token;
  tokenIndex : nat;
  resultCode : string
}.

(** Modelled from the spec: the state of the NameManager (not among the
    sources), the identifiers in use in the file. *)
Definition NameManager : Type := list string.

(** The mutable fields of a JSXTransformer together with the objects it
    holds a reference to and mutates (token buffer, name manager). *)
Record JSXTransformer : Type := mkJSXTransformer {
  tokens : TokenProcessor;
  nameManager : NameManager;
  filePath : option string;
  lastLineNumber : nat;
  lastIndex : nat;
  filenameVarName : option string
}.

(** A fresh transformer, as the field initialisers and the constructor
    leave it. *)
Definition newJSXTransformer (tp : TokenProcessor) (nm : NameManager)
    (path : option string) : JSXTransformer :=
  mkJSXTransformer tp nm path 1 0 None.

(* ================================================================= *)
(** ** Exceptions, completions and fuel *)

Inductive Exn : Type :=
| Error (message : string)
| TypeError.

Inductive Completion (A : Type) : Type :=
| Normal (a : A)
| Throw (e : Exn).
Arguments Normal {A} a.
Arguments Throw {A} e.

(** A computation with loops: [None] when the fuel ran out. *)
Definition M (A : Type) : Type := option (Completion A).

Definition ret {A} (a : A) : M A := Some (Normal a).
Definition throw {A} (e : Exn) : M A := Some (Throw e).
Definition bind {A B} (m : M A) (k : A -> M B) : M B :=
  match m with
  | None => None
  | Some (Throw e) => Some (Throw e)
  | Some (Normal a) => k a
  end.

Notation "x <- m ;; k" := (bind m (fun x => k))
  (at level 61, m at next level, right associativity).

(** Dereferencing a possibly-[undefined] value. *)
Definition deref {A} (o : option A) : M A :=
  match o with
  | Some a => ret a
  | None => throw TypeError
  end.

Definition ExpectedTagEnd : Exn :=
  Error "Expected either /> or > at the end of the tag.".
Definition UnexpectedChild : Exn :=
  Error "Unexpected token when processing JSX children.".

(* ================================================================= *)
(** ** Collaborators *)

(** The objects the transformer is constructed with and whose code is not
    part of JSXTransformer.ts, taken as parameters.  [processToken] and
    [processBalancedCode] may re-enter the transformer, so they act on its
    whole state. *)
Class Collaborators : Type := {
  (** TokenProcessor: the source text between the previous token and the
      current one, written out in front of the current token's text. *)
  previousWhitespace : TokenProcessor -> string;
  (** NameManager.claimFreeName *)
  claimFreeName : NameManager -> string -> string * NameManager;
  (** ImportProcessor.getIdentifierReplacement *)
  getIdentifierReplacement : string -> option string;
  (** RootTransformer.processToken *)
  processToken : JSXTransformer -> Completion JSXTransformer;
  (** RootTransformer.processBalancedCode *)
  processBalancedCode : JSXTransformer -> Completion JSXTransformer
}.

(* ================================================================= *)
(** ** Token buffer operations *)

Section Transformer.

Context {collab : Collaborators}.

(** TokenProcessor's operations are modelled from the specification's
    section 6 (token buffer / cursor): query the current token, test the
    kinds of the next tokens at the cursor or at a forward index, replace the
    current token's emitted text, append text after it, copy it unchanged. *)

(** Modelled from the spec: the token at an index of the buffer, if any. *)
Definition tokenAt (tp : TokenProcessor) (i : nat) : option Token :=
  nth_error (tokenList tp) i.

(** Modelled from the spec: TokenProcessor.currentIndex, the cursor. *)
Definition currentIndex (tp : TokenProcessor) : nat := tokenIndex tp.

(** Modelled from the spec: TokenProcessor.currentToken, the token at the
    cursor; [None] stands for [undefined], past the last token. *)
Definition currentToken (tp : TokenProcessor) : option Token :=
  tokenAt tp (tokenIndex tp).

(** Modelled from the spec: TokenProcessor.matchesAtIndex, whether the
    tokens from [index] on have the given kinds, in order; no token, no
    match. *)
Fixpoint matchesAtIndex (tp : TokenProcessor) (index : nat) (tagLabels : list string) : bool :=
  match tagLabels with
  | [] => true
  | l :: ls =>
      match tokenAt tp index with
      | Some t => String.eqb (label (type t)) l && matchesAtIndex tp (S index) ls
      | None => false
      end
  end.

(** Modelled from the spec: TokenProcessor.matches1, the same test at the
    cursor, for one kind. *)
Definition matches1 (tp : TokenProcessor) (t1 : TokenType) : bool :=
  matchesAtIndex tp (tokenIndex tp) [label t1].

(** Modelled from the spec: TokenProcessor.matches2. *)
Definition matches2 (tp : TokenProcessor) (t1 t2 : TokenType) : bool :=
  matchesAtIndex tp (tokenIndex tp) [label t1; label t2].

(** Modelled from the spec: TokenProcessor.appendCode, text added after
    what was emitted, the cursor staying where it is. *)
Definition appendCode (c : string) (tp : TokenProcessor) : TokenProcessor :=
  mkTokenProcessor (code tp) (tokenList tp) (tokenIndex tp) (resultCode tp ++ c).

(** Modelled from the spec: TokenProcessor.replaceToken, the current token
    emitted as [newCode] behind the source text that separates it from the
    previous token, and the cursor advanced. *)
Definition replaceToken (newCode : string) (tp : TokenProcessor) : TokenProcessor :=
  mkTokenProcessor (code tp) (tokenList tp) (S (tokenIndex tp))
    ((resultCode tp ++ previousWhitespace tp) ++ newCode).

(** Modelled from the spec: the source text of a token, the bytes of its
    range. *)
Definition tokenText (tp : TokenProcessor) (t : Token) : string :=
  slice (start t) (end_ t) (code tp).

(** Modelled from the spec: TokenProcessor.copyToken, the current token
    emitted as its own source text, and the cursor advanced. *)
Definition copyToken (tp : TokenProcessor) : TokenProcessor :=
  match currentToken tp with
  | Some t => replaceToken (tokenText tp t) tp
  | None => replaceToken EmptyString tp
  end.

(** The same operations through [this.tokens]. *)
Definition onTokens (f : TokenProcessor -> TokenProcessor) (st : JSXTransformer)
  : JSXTransformer :=
  mkJSXTransformer (f (tokens st)) (nameManager st) (filePath st)
    (lastLineNumber st) (lastIndex st) (filenameVarName st).

(** ['${s}'] *)
Definition quoted (s : string) : string := String squote (s ++ str squote).

(* =============================================================== *)
(** ** getPrefixCode, getLineNumberForIndex, getFilenameVarName *)

(** A string is truthy when it is not empty; [null] is falsy. *)
Definition truthy (o : option string) : option string :=
  match o with
  | Some EmptyString => None
  | other => other
  end.

Definition getPrefixCode (st : JSXTransformer) : string :=
  match truthy (filenameVarName st) with
  | Some v =>
      "const " ++ v ++ " = "
        ++ JSON.stringify (match truthy (filePath st) with Some p => p | None => EmptyString end)
        ++ ";"
  | None => EmptyString
  end.

Definition setLine (line index : nat) (st : JSXTransformer) : JSXTransformer :=
  mkJSXTransformer (tokens st) (nameManager st) (filePath st)
    line index (filenameVarName st).

(** The [while] loop of [getLineNumberForIndex]; every iteration advances
    [lastIndex], so [index - lastIndex] iterations are all it can make. *)
Fixpoint getLineNumberForIndex_loop (fuel index : nat) (st : JSXTransformer)
  : JSXTransformer :=
  match fuel with
  | 0 => st
  | S fuel' =>
      if (lastIndex st <? index) && (lastIndex st <? String.length (code (tokens st)))
      then
        let line :=
          match String.get (lastIndex st) (code (tokens st)) with
          | Some c => if Ascii.eqb c nl then lastLineNumber st + 1 else lastLineNumber st
          | None => lastLineNumber st
          end in
        getLineNumberForIndex_loop fuel' index (setLine line (lastIndex st + 1) st)
      else st
  end.

Definition getLineNumberForIndex (index : nat) (st : JSXTransformer)
  : nat * JSXTransformer :=
  let st' := getLineNumberForIndex_loop (index - lastIndex st) index st in
  (lastLineNumber st', st').

Definition getFilenameVarName (st : JSXTransformer) : string * JSXTransformer :=
  match truthy (filenameVarName st) with
  | Some v => (v, st)
  | None =>
      let '(v, nm) := claimFreeName (nameManager st) "_jsxFileName" in
      (v, mkJSXTransformer (tokens st) nm (filePath st)
            (lastLineNumber st) (lastIndex st) (Some v))
  end.

(** [`${lineNumber}`] *)
Definition decimal (n : nat) : string := NilZero.string_of_uint (Nat.to_uint n).

Definition devPropsCode (fileNameVar : string) (lineNumber : nat) : string :=
  "__self: this, __source: {fileName: " ++ fileNameVar
    ++ ", lineNumber: " ++ decimal lineNumber ++ "}".

(* =============================================================== *)
(** ** processProps and processStringPropValue *)

Definition liftC {A} (c : Completion A) : M A := Some c.

Definition processStringPropValue (st : JSXTransformer) : M JSXTransformer :=
  t <- deref (currentToken (tokens st)) ;;
  let replacementCode := formatJSXTextReplacement (value t) in
  let literalCode := formatJSXStringValueLiteral (value t) in
  ret (onTokens (replaceToken (literalCode ++ replacementCode)) st).

(** [{ expr }] in a prop position: both braces dropped, the interior left
    to the root transformer. *)
Definition processBracedExpression (st : JSXTransformer) : M JSXTransformer :=
  st1 <- liftC (processBalancedCode (onTokens (replaceToken EmptyString) st)) ;;
  ret (onTokens (replaceToken EmptyString) st1).

(** The [while (true)] loop of [processProps]. *)
Fixpoint processProps_loop (fuel : nat) (st : JSXTransformer) : M JSXTransformer :=
  match fuel with
  | 0 => None
  | S fuel' =>
      if matches2 (tokens st) tt.jsxName tt.eq then
        t <- deref (currentToken (tokens st)) ;;
        let st1 :=
          if includes hyphen (value t)
          then onTokens (replaceToken (quoted (value t))) st
          else onTokens copyToken st in
        let st2 := onTokens (replaceToken ": ") st1 in
        st3 <- (if matches1 (tokens st2) tt.braceL
                then processBracedExpression st2
                else processStringPropValue st2) ;;
        processProps_loop fuel' (onTokens (appendCode ",") st3)
      else if matches1 (tokens st) tt.jsxName then
        let st1 := onTokens copyToken st in
        let st2 := onTokens (appendCode ": true") st1 in
        processProps_loop fuel' (onTokens (appendCode ",") st2)
      else if matches1 (tokens st) tt.braceL then
        st3 <- processBracedExpression st ;;
        processProps_loop fuel' (onTokens (appendCode ",") st3)
      else ret st
  end.

Definition processProps (fuel : nat) (firstTokenStart : nat) (st : JSXTransformer)
  : M JSXTransformer :=
  let '(lineNumber, st1) := getLineNumberForIndex firstTokenStart st in
  let '(fileNameVar, st2) := getFilenameVarName st1 in
  let devProps := devPropsCode fileNameVar lineNumber in
  if negb (matches1 (tokens st2) tt.jsxName) && negb (matches1 (tokens st2) tt.braceL)
  then ret (onTokens (appendCode (", {" ++ devProps ++ "}")) st2)
  else
    st3 <- processProps_loop fuel (onTokens (appendCode ", {") st2) ;;
    ret (onTokens (appendCode (" " ++ devProps ++ "}")) st3).

(* =============================================================== *)
(** ** processTagIntro *)

(** The condition that stops the first [while] of [processTagIntro]. *)
Definition introEndsAt (tp : TokenProcessor) (introEnd : nat) : bool :=
  matchesAtIndex tp (introEnd - 1) ["jsxName"; "jsxName"]
  || matchesAtIndex tp introEnd ["{"]
  || matchesAtIndex tp introEnd ["jsxTagEnd"]
  || matchesAtIndex tp introEnd ["/"; "jsxTagEnd"].

Fixpoint findIntroEnd (fuel : nat) (tp : TokenProcessor) (introEnd : nat) : M nat :=
  match fuel with
  | 0 => None
  | S fuel' =>
      if negb (introEndsAt tp introEnd)
      then findIntroEnd fuel' tp (introEnd + 1)
      else ret introEnd
  end.

(** [while (this.tokens.currentIndex() < introEnd) processToken()] *)
Fixpoint processTokensUntil (fuel : nat) (introEnd : nat) (st : JSXTransformer)
  : M JSXTransformer :=
  match fuel with
  | 0 => None
  | S fuel' =>
      if currentIndex (tokens st) <? introEnd then
        st1 <- liftC (processToken st) ;;
        processTokensUntil fuel' introEnd st1
      else ret st
  end.

Definition processTagIntro (fuel : nat) (st : JSXTransformer) : M JSXTransformer :=
  introEnd <- findIntroEnd fuel (tokens st) (currentIndex (tokens st) + 1) ;;
  st1 <- (if introEnd =? currentIndex (tokens st) + 1 then
            t <- deref (currentToken (tokens st)) ;;
            lower <- deref (startsWithLowerCase (value t)) ;;
            if (lower : bool)
            then ret (onTokens (replaceToken (quoted (value t))) st)
            else ret st
          else ret st) ;;
  processTokensUntil fuel introEnd st1.

(* =============================================================== *)
(** ** processChildren, processChildTextElement, processJSXTag *)

Definition emptyLiteral : string := String dquote (str dquote).

Definition processChildTextElement (st : JSXTransformer) : M JSXTransformer :=
  t <- deref (currentToken (tokens st)) ;;
  let replacementCode := formatJSXTextReplacement (value t) in
  let literalCode := formatJSXTextLiteral (value t) in
  if String.eqb literalCode emptyLiteral
  then ret (onTokens (replaceToken replacementCode) st)
  else ret (onTokens (replaceToken (", " ++ literalCode ++ replacementCode)) st).

(** [while (!this.tokens.matches1(tt.jsxTagEnd)) this.tokens.replaceToken("")] *)
Fixpoint skipToTagEnd (fuel : nat) (st : JSXTransformer) : M JSXTransformer :=
  match fuel with
  | 0 => None
  | S fuel' =>
      if negb (matches1 (tokens st) tt.jsxTagEnd)
      then skipToTagEnd fuel' (onTokens (replaceToken EmptyString) st)
      else ret st
  end.

Definition resolvedReactName : string :=
  match truthy (getIdentifierReplacement "React") with
  | Some n => n
  | None => "React"
  end.

Fixpoint processChildren (fuel : nat) (st : JSXTransformer) {struct fuel} : M JSXTransformer :=
  match fuel with
  | 0 => None
  | S fuel' =>
      if matches2 (tokens st) tt.jsxTagStart tt.slash then ret st
      else if matches1 (tokens st) tt.braceL then
        if matches2 (tokens st) tt.braceL tt.braceR then
          processChildren fuel'
            (onTokens (replaceToken EmptyString) (onTokens (replaceToken EmptyString) st))
        else
          st1 <- liftC (processBalancedCode (onTokens (replaceToken ", ") st)) ;;
          processChildren fuel' (onTokens (replaceToken EmptyString) st1)
      else if matches1 (tokens st) tt.jsxTagStart then
        st1 <- processJSXTag fuel' (onTokens (appendCode ", ") st) ;;
        processChildren fuel' st1
      else if matches1 (tokens st) tt.jsxText then
        st1 <- processChildTextElement st ;;
        processChildren fuel' st1
      else throw UnexpectedChild
  end

with processJSXTag (fuel : nat) (st : JSXTransformer) {struct fuel} : M JSXTransformer :=
  match fuel with
  | 0 => None
  | S fuel' =>
      firstToken <- deref (currentToken (tokens st)) ;;
      let firstTokenStart := start firstToken in
      let st1 := onTokens (replaceToken (resolvedReactName ++ ".createElement(")) st in
      st2 <- processTagIntro fuel' st1 ;;
      st3 <- processProps fuel' firstTokenStart st2 ;;
      if matches2 (tokens st3) tt.slash tt.jsxTagEnd then
        ret (onTokens (replaceToken ")")
               (onTokens (replaceToken EmptyString) st3))
      else if matches1 (tokens st3) tt.jsxTagEnd then
        let st4 := onTokens (replaceToken EmptyString) st3 in
        st5 <- processChildren fuel' st4 ;;
        st6 <- skipToTagEnd fuel' st5 ;;
        ret (onTokens (replaceToken ")") st6)
      else throw ExpectedTagEnd
  end.

(** [process()]: the returned flag says whether a JSX tag was handled. *)
Definition process (fuel : nat) (st : JSXTransformer) : M (bool * JSXTransformer) :=
  if matches1 (tokens st) tt.jsxTagStart then
    st1 <- processJSXTag fuel st ;;
    ret (true, st1)
  else ret (false, st).

End Transformer.

(* ================================================================= *)
(** ** A stand-alone set of collaborators *)

(** One instance of the collaborators, for running the transformer on
    token streams: a root transformer with no transformer but this one at
    work, an import processor that renames nothing, a name manager that
    numbers the names in use. *)
Module PlainRoot.

(** Modelled from the spec: the text between two tokens is the source text
    from the end of the previous token (or the start of the file) to the
    start of the current one; past the last token there is none. *)
Definition previousWhitespace (tp : TokenProcessor) : string :=
  match nth_error (tokenList tp) (tokenIndex tp) with
  | None => EmptyString
  | Some t =>
      let from :=
        match tokenIndex tp with
        | 0 => 0
        | S i => match nth_error (tokenList tp) i with
                 | Some p => end_ p
                 | None => 0
                 end
        end in
      slice from (start t) (code tp)
  end.

(** Modelled from the spec: is the identifier in use in the file? *)
Definition isUsed (nm : NameManager) (n : string) : bool :=
  existsb (String.eqb n) nm.

(** Modelled from the spec: the first of [seed2], [seed3], ... that is not
    in use; one of the first [length nm + 1] candidates is free. *)
Fixpoint findFreeSuffix (fuel : nat) (nm : NameManager) (seed : string) (k : nat) : string :=
  match fuel with
  | 0 => seed ++ NilZero.string_of_uint (Nat.to_uint k)
  | S fuel' =>
      if isUsed nm (seed ++ NilZero.string_of_uint (Nat.to_uint k))
      then findFreeSuffix fuel' nm seed (S k)
      else seed ++ NilZero.string_of_uint (Nat.to_uint k)
  end.

(** Modelled from the spec: the name allocator returns, for a seed, an
    identifier not in use and records it as used. *)
Definition claimFreeName (nm : NameManager) (seed : string) : string * NameManager :=
  let n := if isUsed nm seed then findFreeSuffix (List.length nm) nm seed 2 else seed in
  (n, n :: nm).

(** Modelled from the spec: the current token copied unchanged, with the
    source text in front of it, and the cursor advanced. *)
Definition copyCurrent (st : JSXTransformer) : JSXTransformer :=
  let tp := tokens st in
  let text :=
    match nth_error (tokenList tp) (tokenIndex tp) with
    | Some t => slice (start t) (end_ t) (code tp)
    | None => EmptyString
    end in
  mkJSXTransformer
    (mkTokenProcessor (code tp) (tokenList tp) (S (tokenIndex tp))
       ((resultCode tp ++ previousWhitespace tp) ++ text))
    (nameManager st) (filePath st) (lastLineNumber st) (lastIndex st)
    (filenameVarName st).

(** Modelled from the spec: with no other rewrite applicable, processing
    one token copies it and advances. *)
Definition processToken (st : JSXTransformer) : Completion JSXTransformer :=
  Normal (copyCurrent st).

(** Modelled from the spec: the kind of the current token. *)
Definition currentLabel (st : JSXTransformer) : option string :=
  option_map (fun t => label (type t))
    (nth_error (tokenList (tokens st)) (tokenIndex (tokens st))).

(** Modelled from the spec: tokens are copied up to the brace that closes
    the region the cursor is in, inner braces being matched in pairs. *)
Fixpoint balanced (fuel braceDepth : nat) (st : JSXTransformer) : JSXTransformer :=
  match fuel with
  | 0 => st
  | S fuel' =>
      match currentLabel st with
      | None => st
      | Some l =>
          if String.eqb l "{" then balanced fuel' (S braceDepth) (copyCurrent st)
          else if String.eqb l "}" then
            match braceDepth with
            | 0 => st
            | S d => balanced fuel' d (copyCurrent st)
            end
          else balanced fuel' braceDepth (copyCurrent st)
      end
  end.

(** Modelled from the spec: a balanced region is consumed as a unit; the
    cursor stops at the closing brace, which the caller replaces. *)
Definition processBalancedCode (st : JSXTransformer) : Completion JSXTransformer :=
  Normal (balanced (List.length (tokenList (tokens st)) - tokenIndex (tokens st)) 0 st).

(** The instance; no import renames [React]. *)
Definition collaborators : Collaborators :=
  Build_Collaborators previousWhitespace claimFreeName (fun _ => None)
    processToken processBalancedCode.

End PlainRoot.

(** Example sources and their token streams. *)
Module Samples.

Definition tok (ty : TokenType) (v : string) (s len : nat) : Token :=
  mkToken ty v s (s + len).

Definition start_of (code : string) (toks : list Token) : JSXTransformer :=
  newJSXTransformer (mkTokenProcessor code toks 0 EmptyString) [] None.

(** [<_Foo/>] *)
Definition underscoreTag : JSXTransformer :=
  start_of "<_Foo/>"
    [ tok tt.jsxTagStart "<" 0 1; tok tt.jsxName "_Foo" 1 4;
      tok tt.slash "/" 5 1; tok tt.jsxTagEnd ">" 6 1; tok tt.eof EmptyString 7 0 ].

(** [<Foo data-x="a-b" bar="c" baz />] *)
Definition attributesTag : JSXTransformer :=
  start_of ("<Foo data-x=" ++ String dquote ("a-b" ++ String dquote (" bar="
              ++ String dquote ("c" ++ String dquote " baz />"))))
    [ tok tt.jsxTagStart "<" 0 1; tok tt.jsxName "Foo" 1 3;
      tok tt.jsxName "data-x" 5 6; tok tt.eq "=" 11 1; tok tt.string "a-b" 12 5;
      tok tt.jsxName "bar" 18 3; tok tt.eq "=" 21 1; tok tt.string "c" 22 3;
      tok tt.jsxName "baz" 26 3;
      tok tt.slash "/" 30 1; tok tt.jsxTagEnd ">" 31 1; tok tt.eof EmptyString 32 0 ].

(** [<div>{}{x}<a.b/> \n </div>], on a second line of the file *)
Definition childrenTag : JSXTransformer :=
  start_of (String nl ("<div>{}{x}<a.b/> " ++ String nl " </div>"))
    [ tok tt.jsxTagStart "<" 1 1; tok tt.jsxName "div" 2 3; tok tt.jsxTagEnd ">" 5 1;
      tok tt.braceL "{" 6 1; tok tt.braceR "}" 7 1;
      tok tt.braceL "{" 8 1; tok tt.name "x" 9 1; tok tt.braceR "}" 10 1;
      tok tt.jsxTagStart "<" 11 1; tok tt.jsxName "a" 12 1; tok tt.dot "." 13 1;
      tok tt.jsxName "b" 14 1; tok tt.slash "/" 15 1; tok tt.jsxTagEnd ">" 16 1;
      tok tt.jsxText (" " ++ String nl " ") 17 3;
      tok tt.jsxTagStart "<" 20 1; tok tt.slash "/" 21 1; tok tt.jsxName "div" 22 3;
      tok tt.jsxTagEnd ">" 25 1; tok tt.eof EmptyString 26 0 ].

(** [<a></a>] *)
Definition emptyTag : JSXTransformer :=
  start_of "<a></a>"
    [ tok tt.jsxTagStart "<" 0 1; tok tt.jsxName "a" 1 1; tok tt.jsxTagEnd ">" 2 1;
      tok tt.jsxTagStart "<" 3 1; tok tt.slash "/" 4 1; tok tt.jsxName "a" 5 1;
      tok tt.jsxTagEnd ">" 6 1; tok tt.eof EmptyString 7 0 ].

(** [<a> \n </a>] *)
Definition whitespaceTag : JSXTransformer :=
  start_of ("<a> " ++ String nl " </a>")
    [ tok tt.jsxTagStart "<" 0 1; tok tt.jsxName "a" 1 1; tok tt.jsxTagEnd ">" 2 1;
      tok tt.jsxText (" " ++ String nl " ") 3 3;
      tok tt.jsxTagStart "<" 6 1; tok tt.slash "/" 7 1; tok tt.jsxName "a" 8 1;
      tok tt.jsxTagEnd ">" 9 1; tok tt.eof EmptyString 10 0 ].

(** [<a><b><c/></b></a>] *)
Definition nestedTag : JSXTransformer :=
  start_of "<a><b><c/></b></a>"
    [ tok tt.jsxTagStart "<" 0 1; tok tt.jsxName "a" 1 1; tok tt.jsxTagEnd ">" 2 1;
      tok tt.jsxTagStart "<" 3 1; tok tt.jsxName "b" 4 1; tok tt.jsxTagEnd ">" 5 1;
      tok tt.jsxTagStart "<" 6 1; tok tt.jsxName "c" 7 1; tok tt.slash "/" 8 1;
      tok tt.jsxTagEnd ">" 9 1;
      tok tt.jsxTagStart "<" 10 1; tok tt.slash "/" 11 1; tok tt.jsxName "b" 12 1;
      tok tt.jsxTagEnd ">" 13 1;
      tok tt.jsxTagStart "<" 14 1; tok tt.slash "/" 15 1; tok tt.jsxName "a" 16 1;
      tok tt.jsxTagEnd ">" 17 1; tok tt.eof EmptyString 18 0 ].

(** [<Foo.Bar baz/>] *)
Definition dottedTag : JSXTransformer :=
  start_of "<Foo.Bar baz/>"
    [ tok tt.jsxTagStart "<" 0 1; tok tt.jsxName "Foo" 1 3; tok tt.dot "." 4 1;
      tok tt.jsxName "Bar" 5 3; tok tt.jsxName "baz" 9 3; tok tt.slash "/" 12 1;
      tok tt.jsxTagEnd ">" 13 1; tok tt.eof EmptyString 14 0 ].

(** A stream that stops inside an opening tag: [<a b], then the end. *)
Definition unterminatedTag : JSXTransformer :=
  start_of "<a b"
    [ tok tt.jsxTagStart "<" 0 1; tok tt.jsxName "a" 1 1; tok tt.jsxName "b" 3 1;
      tok tt.eof EmptyString 4 0 ].

(** A stream that stops among the children: [<a>], then the end. *)
Definition unclosedTag : JSXTransformer :=
  start_of "<a>"
    [ tok tt.jsxTagStart "<" 0 1; tok tt.jsxName "a" 1 1; tok tt.jsxTagEnd ">" 2 1;
      tok tt.eof EmptyString 3 0 ].

(** A stream cut right after a tag's name: [<a], then the end. *)
Definition cutTag : JSXTransformer :=
  start_of "<a"
    [ tok tt.jsxTagStart "<" 0 1; tok tt.jsxName "a" 1 1; tok tt.eof EmptyString 2 0 ].

(** [<a {...p} b={q}/>] *)
Definition spreadTag : JSXTransformer :=
  start_of "<a {...p} b={q}/>"
    [ tok tt.jsxTagStart "<" 0 1; tok tt.jsxName "a" 1 1;
      tok tt.braceL "{" 3 1; tok (mkTokenType "...") "..." 4 3; tok tt.name "p" 7 1;
      tok tt.braceR "}" 8 1;
      tok tt.jsxName "b" 10 1; tok tt.eq "=" 11 1;
      tok tt.braceL "{" 12 1; tok tt.name "q" 13 1; tok tt.braceR "}" 14 1;
      tok tt.slash "/" 15 1; tok tt.jsxTagEnd ">" 16 1; tok tt.eof EmptyString 17 0 ].

(** The cursor moved to token [i], nothing else changed. *)
Definition at_token (i : nat) (st : JSXTransformer) : JSXTransformer :=
  mkJSXTransformer
    (mkTokenProcessor (code (tokens st)) (tokenList (tokens st)) i
       (resultCode (tokens st)))
    (nameManager st) (filePath st) (lastLineNumber st) (lastIndex st)
    (filenameVarName st).

(** The emitted text of a run, or the exception it ended with. *)
Definition output (r : M JSXTransformer) : M string :=
  match r with
  | Some (Normal s) => Some (Normal (resultCode (tokens s)))
  | Some (Throw e) => Some (Throw e)
  | None => None
  end.

(** The state a run ended in, or [st] when it did not end normally. *)
Definition stateOf (r : M JSXTransformer) (st : JSXTransformer) : JSXTransformer :=
  match r with
  | Some (Normal s) => s
  | _ => st
  end.

(** Did the run end normally? *)
Definition completes {A} (r : M A) : bool :=
  match r with
  | Some (Normal _) => true
  | _ => false
  end.

End Samples.

(* ================================================================= *)
(** ** Reference notions the formatters are compared with *)

(** The part of [s] after its last newline; all of [s] when it has none. *)
Fixpoint afterLastNewline (s : string) : string :=
  match s with
  | EmptyString => EmptyString
  | String c rest =>
      if 0 <? countChar nl rest then afterLastNewline rest
      else if Ascii.eqb c nl then rest
      else s
  end.

Fixpoint allWhitespace (s : string) : bool :=
  match s with
  | EmptyString => true
  | String c rest => isWhitespace c && allWhitespace rest
  end.

(** The longest whitespace prefix of [s] and what follows it. *)
Fixpoint takeWhitespace (s : string) : string :=
  match s with
  | EmptyString => EmptyString
  | String c rest => if isWhitespace c then String c (takeWhitespace rest) else EmptyString
  end.

Fixpoint dropWhitespace (s : string) : string :=
  match s with
  | EmptyString => EmptyString
  | String c rest => if isWhitespace c then dropWhitespace rest else s
  end.

(** The rule of the attribute value formatter as the specification words it:
    scanning from the left, every run made of a newline followed by one or
    more whitespace characters (as many as there are) becomes one space, and
    every other character is kept. *)
Inductive NewlineRunsReplaced : string -> string -> Prop :=
| NRR_done : NewlineRunsReplaced EmptyString EmptyString
| NRR_run (ws rest out : string) :
    ws <> EmptyString ->
    allWhitespace ws = true ->
    headIsWhitespace rest = false ->
    NewlineRunsReplaced rest out ->
    NewlineRunsReplaced (String nl (ws ++ rest)) (String sp out)
| NRR_keep (c : ascii) (rest out : string) :
    Ascii.eqb c nl && headIsWhitespace rest = false ->
    NewlineRunsReplaced rest out ->
    NewlineRunsReplaced (String c rest) (String c out).

(** Does the unbroken stretch of whitespace at the end of [pre] contain a
    newline?  ([flag] is the answer for what came before [pre].) *)
Fixpoint trailingBlockHasNewline (flag : bool) (pre : string) : bool :=
  match pre with
  | EmptyString => flag
  | String c rest =>
      trailingBlockHasNewline (isWhitespace c && (flag || Ascii.eqb c nl)) rest
  end.

(** The line counter is in step with the source text: [lastLineNumber] is
    one more than the number of newlines before [lastIndex]. *)
Definition lineInvariant (st : JSXTransformer) : Prop :=
  lastLineNumber st
  = 1 + countChar nl (substring 0 (lastIndex st) (code (tokens st))).

(** A series of line queries on one transformer, each from the state the
    previous one left. *)
Fixpoint queryLines (offsets : list nat) (st : JSXTransformer) : list nat :=
  match offsets with
  | [] => []
  | o :: rest =>
      let '(line, st') := getLineNumberForIndex o st in
      line :: queryLines rest st'
  end.

(** The offsets never go back, starting from [from]. *)
Fixpoint nondecreasing (from : nat) (offsets : list nat) : Prop :=
  match offsets with
  | [] => True
  | o :: rest => from <= o /\ nondecreasing o rest
  end.

(** Line number of an offset by a direct count over the source text. *)
Definition lineOf (source : string) (offset : nat) : nat :=
  1 + countChar nl (substring 0 offset source).

(** [s'] continues [s]: the source text and the tokens are the same, the
    cursor has not moved back and the output has only grown at its end. *)
Definition continues (s s' : JSXTransformer) : Prop :=
  code (tokens s') = code (tokens s)
  /\ tokenList (tokens s') = tokenList (tokens s)
  /\ tokenIndex (tokens s) <= tokenIndex (tokens s')
  /\ exists out, resultCode (tokens s') = resultCode (tokens s) ++ out.

(** The root transformer works on the shared token buffer the way the
    transformer itself does: forward, appending to the output. *)
Definition wellBehaved (collab : Collaborators) : Prop :=
  (forall s s', processToken s = Normal s' -> continues s s')
  /\ (forall s s', processBalancedCode s = Normal s' -> continues s s').

(** Every exception the root transformer lets through satisfies [P]. *)
Definition raisesOnly (collab : Collaborators) (P : Exn -> Prop) : Prop :=
  (forall s e, processToken s = Throw e -> P e)
  /\ (forall s e, processBalancedCode s = Throw e -> P e).

(** What the tokenizer guarantees of a token stream and the transformer
    relies on without checking: the token after a tag start carries a
    non-empty text value, and an [=] is never the last token. *)
Definition tokenizerInvariant (toks : list Token) : Prop :=
  (forall i t t',
      nth_error toks i = Some t -> label (type t) = label tt.jsxTagStart ->
      nth_error toks (S i) = Some t' -> value t' <> EmptyString)
  /\ (forall i t,
      nth_error toks i = Some t -> label (type t) = label tt.eq ->
      S i < List.length toks).

(** Remaining tokens, the bound of the cursor-driven loops. *)
Definition remaining (st : JSXTransformer) : nat :=
  List.length (tokenList (tokens st)) - tokenIndex (tokens st).

(** Lower-case letters among the code units below U+0100: a-z, and U+00DF
    to U+00FF without the division sign U+00F7. *)
Definition isLowerCaseLetter (c : ascii) : bool :=
  let n := nat_of_ascii c in
  (97 <=? n) && (n <=? 122)
  || (223 <=? n) && (n <=? 255) && negb (n =? 247).

Definition isDigit (c : ascii) : bool :=
  let n := nat_of_ascii c in (48 <=? n) && (n <=? 57).

Definition underscore : ascii := ascii_of_nat 95.
Definition dollar : ascii := ascii_of_nat 36.

(** The cursor stands right after a tag-start token. *)
Definition afterTagStart (st : JSXTransformer) : Prop :=
  exists i t,
    tokenIndex (tokens st) = S i
    /\ nth_error (tokenList (tokens st)) i = Some t
    /\ label (type t) = label tt.jsxTagStart.

(** The text [" hello \n world "]. *)
Definition sampleText : string := " hello " ++ String nl " world ".

(** Two newlines, then [a]. *)
Definition doubledNewline : string := String nl (String nl "a").

(** *** The line rule of [formatJSXTextLiteral], as its comment words it *)

(** Space or tab, the two characters the text formatter treats as blank. *)
Definition isSpaceOrTab (c : ascii) : bool := Ascii.eqb c sp || Ascii.eqb c tab.

Definition nonEmpty (s : string) : bool :=
  match s with
  | EmptyString => false
  | String _ _ => true
  end.

(** [s] without its leading spaces and tabs. *)
Fixpoint trimStart (s : string) : string :=
  match s with
  | EmptyString => EmptyString
  | String c rest => if isSpaceOrTab c then trimStart rest else s
  end.

(** [s] without its trailing spaces and tabs. *)
Fixpoint trimEnd (s : string) : string :=
  match s with
  | EmptyString => EmptyString
  | String c rest =>
      match trimEnd rest with
      | EmptyString => if isSpaceOrTab c then EmptyString else str c
      | kept => String c kept
      end
  end.

(** The lines of a text: what stands between its newlines. *)
Fixpoint splitLines (s : string) : list string :=
  match s with
  | EmptyString => [EmptyString]
  | String c rest =>
      if Ascii.eqb c nl then EmptyString :: splitLines rest
      else match splitLines rest with
           | l :: ls => String c l :: ls
           | [] => [str c]
           end
  end.

(** The lines after the first: trimmed at their start, and at their end
    unless they are the last. *)
Fixpoint trimLaterLines (ls : list string) : list string :=
  match ls with
  | [] => []
  | [l] => [trimStart l]
  | l :: rest => trimEnd (trimStart l) :: trimLaterLines rest
  end.

(** All lines: the first keeps its start, the last keeps its end. *)
Definition trimLines (ls : list string) : list string :=
  match ls with
  | [] => []
  | [l] => [l]
  | l :: rest => trimEnd l :: trimLaterLines rest
  end.

(** Lines trimmed, empty ones dropped, the others joined by one space. *)
Definition joinedLines (text : string) : string :=
  String.concat " " (filter nonEmpty (trimLines (splitLines text))).

(** The text put back together from lines. *)
Fixpoint joinNewline (ls : list string) : string :=
  match ls with
  | [] => EmptyString
  | [l] => l
  | l :: rest => l ++ String nl (joinNewline rest)
  end.

(** What the loop of [formatJSXTextLiteral] returns from a state. *)
Definition textLiteralFinish (s : TextLiteralState) : string :=
  if negb (isInInitialLineWhitespace s) then result s ++ whitespace s else result s.

(** Only spaces, tabs and newlines. *)
Fixpoint allBlank (s : string) : bool :=
  match s with
  | EmptyString => true
  | String c rest => (isSpaceOrTab c || Ascii.eqb c nl) && allBlank rest
  end.

(** Is there a newline followed by a whitespace character in [s]? *)
Fixpoint hasNewlineRun (s : string) : bool :=
  match s with
  | EmptyString => false
  | String c rest => Ascii.eqb c nl && headIsWhitespace rest || hasNewlineRun rest
  end.

(* ================================================================= *)
(** ** Strings: basic facts *)

Lemma append_nil_r (s : string) : s ++ EmptyString = s.
Proof. induction s as [|c s IH]; simpl; [reflexivity | now rewrite IH]. Qed.

Lemma append_assoc (a b c : string) : (a ++ b) ++ c = a ++ (b ++ c).
Proof. induction a as [|x a IH]; simpl; [reflexivity | now rewrite IH]. Qed.

Lemma forOf_app {A} (body : A -> ascii -> A) (a b : string) (acc : A) :
  forOf body (a ++ b) acc = forOf body b (forOf body a acc).
Proof. revert acc; induction a as [|x a IH]; intros acc; simpl; [reflexivity | apply IH]. Qed.

Lemma countChar_app (c : ascii) (a b : string) :
  countChar c (a ++ b) = countChar c a + countChar c b.
Proof. induction a as [|x a IH]; simpl; [reflexivity | rewrite IH; lia]. Qed.

Lemma countChar_repeat_same (c : ascii) (n : nat) :
  countChar c (repeat_string (str c) n) = n.
Proof.
  induction n as [|n IH]; simpl; [reflexivity|].
  rewrite Ascii.eqb_refl, IH. reflexivity.
Qed.

Lemma countChar_repeat_other (c d : ascii) (n : nat) :
  Ascii.eqb d c = false -> countChar c (repeat_string (str d) n) = 0.
Proof.
  intros Hd; induction n as [|n IH]; simpl; [reflexivity|].
  rewrite Hd, IH. reflexivity.
Qed.

Lemma length_append (a b : string) :
  String.length (a ++ b) = String.length a + String.length b.
Proof. induction a as [|x a IH]; simpl; [reflexivity | now rewrite IH]. Qed.

Lemma take_drop_whitespace (s : string) : takeWhitespace s ++ dropWhitespace s = s.
Proof.
  induction s as [|c s IH]; simpl; [reflexivity|].
  destruct (isWhitespace c); simpl; [now rewrite IH | reflexivity].
Qed.

Lemma allWhitespace_take (s : string) : allWhitespace (takeWhitespace s) = true.
Proof.
  induction s as [|c s IH]; simpl; [reflexivity|].
  destruct (isWhitespace c) eqn:E; simpl; [now rewrite E | reflexivity].
Qed.

Lemma head_dropWhitespace (s : string) : headIsWhitespace (dropWhitespace s) = false.
Proof.
  induction s as [|c s IH]; simpl; [reflexivity|].
  destruct (isWhitespace c) eqn:E; simpl; [exact IH | exact E].
Qed.

Lemma length_dropWhitespace (s : string) :
  String.length (dropWhitespace s) <= String.length s.
Proof.
  induction s as [|c s IH]; simpl; [lia|].
  destruct (isWhitespace c); simpl; lia.
Qed.

Lemma takeWhitespace_head (s : string) :
  headIsWhitespace s = true -> takeWhitespace s <> EmptyString.
Proof. destruct s as [|c s]; simpl; [discriminate|]. intros ->. discriminate. Qed.

Lemma isWhitespace_nl : isWhitespace nl = true.
Proof. reflexivity. Qed.

(** A whitespace run followed by a non-whitespace rest splits in one way. *)
Lemma whitespace_split_unique (ws rest : string) :
  allWhitespace ws = true -> headIsWhitespace rest = false ->
  takeWhitespace (ws ++ rest) = ws /\ dropWhitespace (ws ++ rest) = rest.
Proof.
  intros Hws Hrest. induction ws as [|c ws IH]; simpl in *.
  - destruct rest as [|d rest]; simpl in *; [auto|]. rewrite Hrest. auto.
  - apply andb_true_iff in Hws as [Hc Hws]. rewrite Hc.
    destruct (IH Hws) as [-> ->]. auto.
Qed.

(* ================================================================= *)
(** ** formatJSXTextLiteral *)

Lemma textLiteral_single_line (s r w : string) (seen : bool) :
  countChar nl s = 0 ->
  isInInitialLineWhitespace
    (forOf formatJSXTextLiteral_body s (mkTextLiteralState r w false seen)) = false
  /\ result (forOf formatJSXTextLiteral_body s (mkTextLiteralState r w false seen))
     ++ whitespace (forOf formatJSXTextLiteral_body s (mkTextLiteralState r w false seen))
     = (r ++ w) ++ s.
Proof.
  revert r w seen. induction s as [|c s IH]; intros r w seen Hnl.
  - simpl. split; [reflexivity | now rewrite append_nil_r].
  - simpl in Hnl. destruct (Ascii.eqb c nl) eqn:Ecnl; [discriminate|]. simpl in Hnl.
    cbn [forOf]. unfold formatJSXTextLiteral_body at 2 4 6.
    cbn [isInInitialLineWhitespace negb result whitespace seenNonWhitespace].
    rewrite Ecnl.
    destruct (Ascii.eqb c sp || Ascii.eqb c tab) eqn:Esp.
    + destruct (IH r (w ++ str c) seen Hnl) as [H1 H2]. split; [exact H1|].
      rewrite H2. unfold str. rewrite !append_assoc. reflexivity.
    + rewrite andb_false_r.
      destruct (IH ((r ++ w) ++ str c) EmptyString true Hnl) as [H1 H2].
      split; [exact H1|]. rewrite H2. unfold str.
      rewrite append_nil_r, !append_assoc. reflexivity.
Qed.

(** C1 (as stated, refuted): on the text [" hello \n world "] the formatter
    does not return the literal ["hello world"]. *)
Lemma C1_counterexample :
  formatJSXTextLiteral sampleText <> JSON.stringify "hello world".
Proof. vm_compute. discriminate. Qed.

(** C1 (amended): on the text [" hello \n world "] the formatter returns the
    literal [" hello world "]: the newline and the whitespace around it
    collapse to one joining space, while the leading space of the first line
    and the trailing space of the last line are kept, the line-start flag
    being false at the beginning of the text; a text without any newline is
    returned whole. *)
Theorem C1_formatJSXTextLiteral_sample :
  formatJSXTextLiteral sampleText = JSON.stringify " hello world "
  /\ formatJSXTextLiteral_content sampleText = " hello world "
  /\ forall text, countChar nl text = 0 -> formatJSXTextLiteral_content text = text.
Proof.
  split; [reflexivity | split; [reflexivity|]].
  intros text Hnl. unfold formatJSXTextLiteral_content.
  destruct (textLiteral_single_line text EmptyString EmptyString false Hnl) as [H1 H2].
  cbv zeta. rewrite H1. simpl. exact H2.
Qed.

Lemma C1_formatJSXTextLiteral_sample_witness :
  formatJSXTextLiteral_content " a b " = " a b ".
Proof.
  apply (proj2 (proj2 C1_formatJSXTextLiteral_sample)). reflexivity.
Defined.

(* ================================================================= *)
(** ** formatJSXTextReplacement *)

Lemma textReplacement_counters (s : string) (n k : nat) :
  forOf formatJSXTextReplacement_body s (n, k) =
  (n + countChar nl s,
   if countChar nl s =? 0 then k + countChar sp s
   else countChar sp (afterLastNewline s)).
Proof.
  revert n k. induction s as [|c s IH]; intros n k; simpl.
  - f_equal; lia.
  - destruct (Ascii.eqb c nl) eqn:Enl.
    + rewrite IH. apply Ascii.eqb_eq in Enl. subst c.
      change (Ascii.eqb nl sp) with false. simpl.
      f_equal; [lia|].
      destruct (countChar nl s) as [|m]; simpl; reflexivity.
    + destruct (Ascii.eqb c sp) eqn:Esp; rewrite IH; simpl;
        (f_equal;
         destruct (countChar nl s) as [|m]; simpl; try rewrite Enl; simpl;
         try rewrite Esp; simpl; try reflexivity; lia).
Qed.

Lemma afterLastNewline_none (s : string) :
  countChar nl s = 0 -> afterLastNewline s = s.
Proof.
  induction s as [|c s IH]; simpl; [reflexivity|].
  destruct (Ascii.eqb c nl) eqn:Enl; [discriminate|]. simpl. intros E.
  rewrite E. reflexivity.
Qed.

Lemma afterLastNewline_split (pre suf : string) :
  countChar nl suf = 0 -> afterLastNewline (pre ++ String nl suf) = suf.
Proof.
  intros Hsuf. induction pre as [|c pre IH]; simpl.
  - rewrite Hsuf. simpl. change (Ascii.eqb nl nl) with true. reflexivity.
  - rewrite countChar_app. simpl. change (Ascii.eqb nl nl) with true.
    assert (Hpos : (0 <? countChar nl pre + S (countChar nl suf)) = true)
      by (apply Nat.ltb_lt; lia).
    rewrite Hpos. exact IH.
Qed.

(** C3: [formatJSXTextReplacement] returns one newline per newline of the
    input, then as many spaces as the input has literal spaces (tabs do not
    count) after its last newline, or in the whole input when it has no
    newline; its output has exactly as many newlines as the input. *)
Theorem C3_formatJSXTextReplacement_shape (text : string) :
  formatJSXTextReplacement text =
    repeat_string (str nl) (countChar nl text)
    ++ repeat_string (str sp) (countChar sp (afterLastNewline text))
  /\ countChar nl (formatJSXTextReplacement text) = countChar nl text
  /\ countChar tab (formatJSXTextReplacement text) = 0
  /\ (countChar nl text = 0 -> afterLastNewline text = text)
  /\ (forall pre suf,
        text = pre ++ String nl suf -> countChar nl suf = 0 ->
        afterLastNewline text = suf).
Proof.
  assert (Hshape : formatJSXTextReplacement text =
    repeat_string (str nl) (countChar nl text)
    ++ repeat_string (str sp) (countChar sp (afterLastNewline text))).
  { unfold formatJSXTextReplacement. rewrite textReplacement_counters. simpl.
    destruct (countChar nl text =? 0) eqn:E; [|reflexivity].
    apply Nat.eqb_eq in E. now rewrite (afterLastNewline_none text E). }
  split; [exact Hshape|]. rewrite Hshape, !countChar_app.
  rewrite countChar_repeat_same.
  rewrite !countChar_repeat_other by reflexivity.
  split; [lia|]. split; [lia|]. split.
  - apply afterLastNewline_none.
  - intros pre suf -> Hsuf. now apply afterLastNewline_split.
Qed.

Lemma C3_formatJSXTextReplacement_shape_witness :
  afterLastNewline (" a" ++ String nl (String tab " b c ")) = String tab " b c "
  /\ formatJSXTextReplacement (" a" ++ String nl (String tab " b c "))
     = String nl "   ".
Proof.
  split.
  - apply (proj2 (proj2 (proj2 (proj2
            (C3_formatJSXTextReplacement_shape (" a" ++ String nl (String tab " b c "))))))
            " a" (String tab " b c ")); reflexivity.
  - rewrite (proj1 (C3_formatJSXTextReplacement_shape _)). reflexivity.
Defined.

(* ================================================================= *)
(** ** formatJSXStringValueLiteral *)

Lemma replaceNewlineRuns_in_run (s : string) :
  replaceNewlineRuns true s = replaceNewlineRuns false (dropWhitespace s).
Proof.
  induction s as [|c s IH]; simpl; [reflexivity|].
  destruct (isWhitespace c) eqn:E; simpl; [exact IH | reflexivity].
Qed.

Lemma head_whitespace_app (ws rest : string) :
  ws <> EmptyString -> allWhitespace ws = true -> headIsWhitespace (ws ++ rest) = true.
Proof.
  destruct ws as [|c ws]; [congruence|]. simpl. intros _ H.
  now apply andb_true_iff in H.
Qed.

Lemma replaceNewlineRuns_sound_aux (n : nat) :
  forall text, String.length text <= n ->
  NewlineRunsReplaced text (replaceNewlineRuns false text).
Proof.
  induction n as [|n IH]; intros text Hlen.
  - destruct text; [constructor | simpl in Hlen; lia].
  - destruct text as [|c rest]; [constructor|]. simpl in Hlen. simpl.
    destruct (Ascii.eqb c nl && headIsWhitespace rest) eqn:E.
    + apply andb_true_iff in E as [Ec Eh]. apply Ascii.eqb_eq in Ec. subst c.
      rewrite replaceNewlineRuns_in_run.
      rewrite <- (take_drop_whitespace rest) at 1.
      apply NRR_run.
      * now apply takeWhitespace_head.
      * apply allWhitespace_take.
      * apply head_dropWhitespace.
      * apply IH. pose proof (length_dropWhitespace rest). lia.
    + apply NRR_keep; [exact E|]. apply IH. lia.
Qed.

Lemma replaceNewlineRuns_sound (text : string) :
  NewlineRunsReplaced text (replaceNewlineRuns false text).
Proof. apply (replaceNewlineRuns_sound_aux (String.length text)). lia. Qed.

Lemma NewlineRunsReplaced_functional (text out : string) :
  NewlineRunsReplaced text out -> out = replaceNewlineRuns false text.
Proof.
  induction 1 as [| ws rest out Hne Hws Hrest _ IH | c rest out Hc _ IH].
  - reflexivity.
  - simpl. rewrite (head_whitespace_app ws rest Hne Hws).
    change (Ascii.eqb nl nl) with true. simpl.
    rewrite replaceNewlineRuns_in_run.
    destruct (whitespace_split_unique ws rest Hws Hrest) as [_ ->].
    now rewrite IH.
  - simpl. rewrite Hc. now rewrite IH.
Qed.

Lemma trailingBlock_monotone (pre : string) :
  trailingBlockHasNewline true pre = false -> trailingBlockHasNewline false pre = false.
Proof.
  destruct pre as [|c pre]; simpl; [discriminate|].
  destruct (isWhitespace c) eqn:Ews; simpl; [|auto].
  destruct (Ascii.eqb c nl) eqn:Enl; simpl; [auto|].
  revert Ews Enl. generalize c. clear c.
  induction pre as [|d pre IH]; intros c Ews Enl; simpl; [discriminate|].
  destruct (isWhitespace d) eqn:Ed; simpl; [|auto].
  destruct (Ascii.eqb d nl) eqn:Edn; simpl; [auto|].
  apply (IH d Ed Edn).
Qed.

(** A newline that no earlier run reaches and that no whitespace follows
    splits the scan in two independent halves. *)
Lemma replaceNewlineRuns_kept_newline (pre post : string) (inRun : bool) :
  headIsWhitespace post = false ->
  trailingBlockHasNewline inRun pre = false ->
  replaceNewlineRuns inRun (pre ++ String nl post)
  = replaceNewlineRuns inRun pre ++ String nl (replaceNewlineRuns false post).
Proof.
  intros Hpost. revert inRun.
  induction pre as [|c pre IH]; intros inRun Hblock.
  - simpl in Hblock. subst inRun. simpl. rewrite Hpost.
    change (Ascii.eqb nl nl) with true. simpl. reflexivity.
  - simpl in Hblock. cbn [append replaceNewlineRuns].
    destruct (inRun && isWhitespace c) eqn:Erun.
    + apply andb_true_iff in Erun as [-> Ews]. rewrite Ews in Hblock. simpl in Hblock.
      apply IH. exact Hblock.
    + assert (Hhead : headIsWhitespace (pre ++ String nl post)
                      = match pre with EmptyString => true | _ => headIsWhitespace pre end).
      { destruct pre; reflexivity. }
      destruct (Ascii.eqb c nl) eqn:Enl; cbn [andb].
      * apply Ascii.eqb_eq in Enl. subst c. rewrite isWhitespace_nl in Hblock.
        rewrite orb_true_r in Hblock. cbn [andb] in Hblock.
        rewrite Hhead. destruct pre as [|d pre']; [simpl in Hblock; discriminate|].
        destruct (headIsWhitespace (String d pre')) eqn:Ed.
        -- rewrite (IH true Hblock). reflexivity.
        -- rewrite (IH false (trailingBlock_monotone _ Hblock)). reflexivity.
      * rewrite orb_false_r in Hblock.
        assert (Hfalse : trailingBlockHasNewline false pre = false).
        { destruct (isWhitespace c && inRun) eqn:E; [|exact Hblock].
          now apply trailingBlock_monotone. }
        rewrite (IH false Hfalse). reflexivity.
Qed.

(** C8 (as stated, refuted): in the value made of two newlines and [a] the
    second newline is not followed by a whitespace character, yet it is not
    preserved: the first newline's run absorbs it and the literal holds no
    newline at all. *)
Lemma C8_counterexample :
  doubledNewline = str nl ++ String nl "a"
  /\ headIsWhitespace "a" = false
  /\ formatJSXStringValueLiteral doubledNewline = JSON.stringify " a"
  /\ countChar nl (replaceNewlineRuns false doubledNewline) = 0.
Proof. repeat split. Qed.

(** C8 (amended): [formatJSXStringValueLiteral] returns the escaped
    string-literal form of the text in which every run made of a newline
    followed by one or more whitespace characters is replaced by one space; a
    newline that is not followed by a whitespace character and that does not
    itself belong to such a run (the unbroken whitespace in front of it holds
    no newline) is preserved, with the text on either side rewritten by the
    same rule. *)
Theorem C8_formatJSXStringValueLiteral_rule (text : string) :
  (forall out, NewlineRunsReplaced text out <->
               out = replaceNewlineRuns false text)
  /\ (exists out, NewlineRunsReplaced text out
                  /\ formatJSXStringValueLiteral text = JSON.stringify out)
  /\ (forall pre post,
        text = pre ++ String nl post ->
        headIsWhitespace post = false ->
        trailingBlockHasNewline false pre = false ->
        exists outPre outPost,
          NewlineRunsReplaced pre outPre /\ NewlineRunsReplaced post outPost
          /\ formatJSXStringValueLiteral text
             = JSON.stringify (outPre ++ String nl outPost)).
Proof.
  split; [|split].
  - intros out; split.
    + apply NewlineRunsReplaced_functional.
    + intros ->. apply replaceNewlineRuns_sound.
  - exists (replaceNewlineRuns false text). split; [apply replaceNewlineRuns_sound | reflexivity].
  - intros pre post -> Hpost Hblock.
    exists (replaceNewlineRuns false pre), (replaceNewlineRuns false post).
    split; [apply replaceNewlineRuns_sound|]. split; [apply replaceNewlineRuns_sound|].
    unfold formatJSXStringValueLiteral.
    now rewrite replaceNewlineRuns_kept_newline.
Qed.

Lemma C8_formatJSXStringValueLiteral_rule_witness :
  exists outPre outPost,
    NewlineRunsReplaced ("a" ++ String nl " b") outPre
    /\ NewlineRunsReplaced "c" outPost
    /\ formatJSXStringValueLiteral (("a" ++ String nl " b") ++ String nl "c")
       = JSON.stringify (outPre ++ String nl outPost).
Proof.
  apply (proj2 (proj2 (C8_formatJSXStringValueLiteral_rule
           (("a" ++ String nl " b") ++ String nl "c")))); reflexivity.
Defined.

(* ================================================================= *)
(** ** getLineNumberForIndex *)

Lemma substring_0_0 (s : string) : substring 0 0 s = EmptyString.
Proof. destruct s; reflexivity. Qed.

Lemma substring_all (s : string) (n : nat) :
  String.length s <= n -> substring 0 n s = s.
Proof.
  revert n. induction s as [|c s IH]; intros n Hn.
  - destruct n; reflexivity.
  - destruct n as [|n]; simpl in *; [lia|]. rewrite IH by lia. reflexivity.
Qed.

Lemma countChar_prefix_step (c : ascii) (s : string) (i : nat) :
  i < String.length s ->
  countChar c (substring 0 (S i) s)
  = countChar c (substring 0 i s)
    + match String.get i s with
      | Some d => if Ascii.eqb d c then 1 else 0
      | None => 0
      end.
Proof.
  revert i. induction s as [|d s IH]; intros i Hi; simpl in Hi; [lia|].
  destruct i as [|i].
  - simpl. rewrite substring_0_0. simpl. lia.
  - change (substring 0 (S (S i)) (String d s)) with (String d (substring 0 (S i) s)).
    change (substring 0 (S i) (String d s)) with (String d (substring 0 i s)).
    change (String.get (S i) (String d s)) with (String.get i s).
    simpl countChar. rewrite IH by lia. lia.
Qed.

Lemma lineLoop_spec (fuel index : nat) (st : JSXTransformer) :
  lineInvariant st ->
  index - lastIndex st <= fuel ->
  let st' := getLineNumberForIndex_loop fuel index st in
  lineInvariant st'
  /\ lastIndex st'
     = Nat.max (lastIndex st) (Nat.min index (String.length (code (tokens st))))
  /\ tokens st' = tokens st /\ nameManager st' = nameManager st
  /\ filePath st' = filePath st /\ filenameVarName st' = filenameVarName st.
Proof.
  revert st. induction fuel as [|fuel IH]; intros st Hinv Hfuel; cbn zeta.
  - simpl. repeat split; auto. lia.
  - cbn [getLineNumberForIndex_loop].
    destruct (lastIndex st <? index) eqn:E1; cbn [andb].
    2:{ apply Nat.ltb_ge in E1. repeat split; auto. lia. }
    destruct (lastIndex st <? String.length (code (tokens st))) eqn:E2.
    2:{ apply Nat.ltb_ge in E2. repeat split; auto. lia. }
    apply Nat.ltb_lt in E1, E2.
    match goal with |- context [getLineNumberForIndex_loop fuel index ?s] =>
      specialize (IH s) end.
    cbn zeta in IH.
    destruct IH as (I1 & I2 & I3 & I4 & I5 & I6).
    + unfold lineInvariant in *. cbn [lastLineNumber lastIndex tokens setLine].
      replace (lastIndex st + 1) with (S (lastIndex st)) by lia.
      rewrite countChar_prefix_step by exact E2.
      rewrite Hinv.
      destruct (String.get (lastIndex st) (code (tokens st))) as [d|];
        [destruct (Ascii.eqb d nl)|]; lia.
    + cbn [lastIndex setLine]. lia.
    + cbn [lastIndex setLine tokens nameManager filePath filenameVarName] in *.
      repeat split; auto. lia.
Qed.

(** One query: the answer is the direct count, the invariant is kept and
    only the line counter's two fields change. *)
Lemma getLineNumberForIndex_spec (index : nat) (st : JSXTransformer) :
  lineInvariant st ->
  lastIndex st <= index ->
  fst (getLineNumberForIndex index st) = lineOf (code (tokens st)) index
  /\ lineInvariant (snd (getLineNumberForIndex index st))
  /\ lastIndex (snd (getLineNumberForIndex index st))
     = Nat.max (lastIndex st) (Nat.min index (String.length (code (tokens st))))
  /\ tokens (snd (getLineNumberForIndex index st)) = tokens st.
Proof.
  intros Hinv Hle. unfold getLineNumberForIndex. cbn [fst snd].
  destruct (lineLoop_spec (index - lastIndex st) index st Hinv (Nat.le_refl _))
    as (I1 & I2 & I3 & _).
  repeat split; auto.
  unfold lineInvariant in I1. rewrite I1, I2, I3. unfold lineOf. f_equal. f_equal.
  destruct (Nat.le_gt_cases index (String.length (code (tokens st)))) as [H|H].
  - f_equal. lia.
  - rewrite !substring_all by lia. reflexivity.
Qed.

(** The loop stops by itself: fuel beyond the distance to scan is unused. *)
Lemma lineLoop_fuel (fuel index : nat) (st : JSXTransformer) :
  Nat.min index (String.length (code (tokens st))) - lastIndex st <= fuel ->
  getLineNumberForIndex_loop fuel index st
  = getLineNumberForIndex_loop
      (Nat.min index (String.length (code (tokens st))) - lastIndex st) index st.
Proof.
  revert st. induction fuel as [|fuel IH]; intros st Hfuel.
  - replace (Nat.min index (String.length (code (tokens st))) - lastIndex st) with 0 by lia.
    reflexivity.
  - cbn [getLineNumberForIndex_loop].
    destruct (lastIndex st <? index) eqn:E1; cbn [andb].
    2:{ apply Nat.ltb_ge in E1.
        replace (Nat.min index (String.length (code (tokens st))) - lastIndex st) with 0 by lia.
        reflexivity. }
    destruct (lastIndex st <? String.length (code (tokens st))) eqn:E2.
    2:{ apply Nat.ltb_ge in E2.
        replace (Nat.min index (String.length (code (tokens st))) - lastIndex st) with 0 by lia.
        reflexivity. }
    apply Nat.ltb_lt in E1, E2.
    destruct (Nat.min index (String.length (code (tokens st))) - lastIndex st)
      as [|d] eqn:Ed; [lia|].
    cbn [getLineNumberForIndex_loop].
    apply Nat.ltb_lt in E1, E2. rewrite E1, E2. cbn [andb].
    apply Nat.ltb_lt in E1, E2.
    rewrite IH by (cbn [lastIndex setLine tokens]; lia).
    f_equal. cbn [lastIndex setLine tokens]. lia.
Qed.

(** C9: when the offsets of successive queries never decrease,
    [getLineNumberForIndex] answers each with one plus the number of
    newlines of the source text before the offset, as a direct count
    finds it; a query scans only from the previous position to the
    new one. *)
Theorem C9_getLineNumberForIndex_counts (offsets : list nat) (st : JSXTransformer) :
  lineInvariant st ->
  nondecreasing (lastIndex st) offsets ->
  queryLines offsets st = map (lineOf (code (tokens st))) offsets
  /\ forall index, lastIndex st <= index ->
       fst (getLineNumberForIndex index st)
       = 1 + countChar nl (substring 0 index (code (tokens st)))
       /\ snd (getLineNumberForIndex index st)
          = getLineNumberForIndex_loop
              (Nat.min index (String.length (code (tokens st))) - lastIndex st) index st
       /\ lastIndex (snd (getLineNumberForIndex index st))
          = Nat.max (lastIndex st) (Nat.min index (String.length (code (tokens st)))).
Proof.
  intros Hinv Hsorted. split.
  - revert st Hinv Hsorted. induction offsets as [|o rest IH]; intros st Hinv Hsorted.
    + reflexivity.
    + destruct Hsorted as [Hle Hrest]. cbn [queryLines map].
      destruct (getLineNumberForIndex_spec o st Hinv Hle) as (H1 & H2 & H3 & H4).
      destruct (getLineNumberForIndex o st) as [line st'] eqn:Eq. cbn [fst snd] in *.
      rewrite H1. f_equal. rewrite <- H4. apply IH; [exact H2|].
      destruct rest as [|o' rest']; [exact I|]. destruct Hrest as [Hoo' Hr].
      split; [|exact Hr]. rewrite H3. lia.
  - intros index Hle.
    destruct (getLineNumberForIndex_spec index st Hinv Hle) as (H1 & _ & H3 & _).
    split; [exact H1|]. split; [|exact H3].
    unfold getLineNumberForIndex. cbn [snd]. apply lineLoop_fuel. lia.
Qed.

(* ================================================================= *)
(** ** The token buffer: matching and emitting *)

Section BufferFacts.

Context {collab : Collaborators}.

Lemma matches1_true (tp : TokenProcessor) (ty : TokenType) :
  matches1 tp ty = true ->
  exists t, currentToken tp = Some t /\ label (type t) = label ty.
Proof.
  unfold matches1, currentToken. cbn [matchesAtIndex].
  destruct (tokenAt tp (tokenIndex tp)) as [t|]; [|discriminate].
  rewrite andb_true_r. intros H. apply String.eqb_eq in H. eauto.
Qed.

Lemma matches2_true (tp : TokenProcessor) (t1 t2 : TokenType) :
  matches2 tp t1 t2 = true ->
  exists a b, currentToken tp = Some a /\ label (type a) = label t1
              /\ tokenAt tp (S (tokenIndex tp)) = Some b /\ label (type b) = label t2.
Proof.
  unfold matches2, currentToken. cbn [matchesAtIndex].
  destruct (tokenAt tp (tokenIndex tp)) as [a|]; [|discriminate].
  destruct (tokenAt tp (S (tokenIndex tp))) as [b|];
    [|rewrite andb_false_r; discriminate].
  rewrite andb_true_r. intros H. apply andb_true_iff in H as [Ha Hb].
  apply String.eqb_eq in Ha, Hb. eauto 8.
Qed.

Lemma matches2_matches1 (tp : TokenProcessor) (t1 t2 : TokenType) :
  matches2 tp t1 t2 = true -> matches1 tp t1 = true.
Proof.
  unfold matches2, matches1. cbn [matchesAtIndex].
  destruct (tokenAt tp (tokenIndex tp)) as [a|]; [|discriminate].
  intros H. apply andb_true_iff in H as [-> _]. reflexivity.
Qed.

Lemma currentToken_in_range (tp : TokenProcessor) (t : Token) :
  currentToken tp = Some t -> tokenIndex tp < List.length (tokenList tp).
Proof.
  unfold currentToken, tokenAt. intros H.
  apply nth_error_Some. congruence.
Qed.

Lemma continues_refl (s : JSXTransformer) : continues s s.
Proof.
  repeat split; auto. exists EmptyString. now rewrite append_nil_r.
Qed.

Lemma continues_trans (a b c : JSXTransformer) :
  continues a b -> continues b c -> continues a c.
Proof.
  intros (A1 & A2 & A3 & o1 & A4) (B1 & B2 & B3 & o2 & B4).
  repeat split; try congruence; [lia|].
  exists (o1 ++ o2). rewrite B4, A4. apply append_assoc.
Qed.

Lemma continues_replaceToken (c : string) (s : JSXTransformer) :
  continues s (onTokens (replaceToken c) s).
Proof.
  repeat split; simpl; auto.
  exists (previousWhitespace (tokens s) ++ c). now rewrite append_assoc.
Qed.

Lemma continues_appendCode (c : string) (s : JSXTransformer) :
  continues s (onTokens (appendCode c) s).
Proof. repeat split; simpl; auto. eauto. Qed.

Lemma continues_copyToken (s : JSXTransformer) :
  continues s (onTokens copyToken s).
Proof.
  unfold onTokens, copyToken.
  destruct (currentToken (tokens s)); apply continues_replaceToken.
Qed.

Lemma index_replaceToken (c : string) (s : JSXTransformer) :
  tokenIndex (tokens (onTokens (replaceToken c) s)) = S (tokenIndex (tokens s)).
Proof. reflexivity. Qed.

Lemma index_copyToken (s : JSXTransformer) :
  tokenIndex (tokens (onTokens copyToken s)) = S (tokenIndex (tokens s)).
Proof. unfold onTokens, copyToken. destruct (currentToken (tokens s)); reflexivity. Qed.

Lemma index_appendCode (c : string) (s : JSXTransformer) :
  tokenIndex (tokens (onTokens (appendCode c) s)) = tokenIndex (tokens s).
Proof. reflexivity. Qed.

Lemma resultCode_replaceToken (c : string) (s : JSXTransformer) :
  resultCode (tokens (onTokens (replaceToken c) s))
  = (resultCode (tokens s) ++ previousWhitespace (tokens s)) ++ c.
Proof. reflexivity. Qed.

Lemma resultCode_appendCode (c : string) (s : JSXTransformer) :
  resultCode (tokens (onTokens (appendCode c) s)) = resultCode (tokens s) ++ c.
Proof. reflexivity. Qed.

Lemma remaining_continues (s s' : JSXTransformer) :
  continues s s' -> remaining s' <= remaining s.
Proof. intros (_ & H2 & H3 & _). unfold remaining. rewrite H2. lia. Qed.

End BufferFacts.

Create HintDb jsx.

#[local] Hint Resolve continues_refl continues_replaceToken continues_appendCode
  continues_copyToken : jsx.

(* ================================================================= *)
(** ** Completions *)

Lemma bind_normal {A B} (m : M A) (k : A -> M B) (b : B) :
  bind m k = Some (Normal b) ->
  exists a, m = Some (Normal a) /\ k a = Some (Normal b).
Proof. destruct m as [[a|e]|]; simpl; [eauto | discriminate | discriminate]. Qed.

Lemma bind_throw {A B} (m : M A) (k : A -> M B) (e : Exn) :
  bind m k = Some (Throw e) ->
  m = Some (Throw e) \/ exists a, m = Some (Normal a) /\ k a = Some (Throw e).
Proof. destruct m as [[a|e']|]; simpl; [eauto | intros [= ->]; auto | discriminate]. Qed.

Lemma bind_terminates {A B} (m : M A) (k : A -> M B) :
  m <> None -> (forall a, m = Some (Normal a) -> k a <> None) -> bind m k <> None.
Proof. destruct m as [[a|e]|]; simpl; intros H1 H2; [auto | discriminate | congruence]. Qed.

Lemma deref_normal {A} (o : option A) (a : A) :
  deref o = Some (Normal a) -> o = Some a.
Proof. destruct o; simpl; [intros [= ->]; reflexivity | discriminate]. Qed.

Lemma deref_terminates {A} (o : option A) : deref o <> None.
Proof. destruct o; discriminate. Qed.

Lemma liftC_terminates {A} (c : Completion A) : liftC c <> None.
Proof. discriminate. Qed.

(** Take a successful monadic computation apart, step by step. *)
Ltac bind_inv H :=
  let a := fresh "s" in
  let H1 := fresh "Hstep" in
  apply bind_normal in H; destruct H as (a & H1 & H).

(* ================================================================= *)
(** ** processProps: the attribute loop *)

Section PropsFacts.

Context {collab : Collaborators}.
Hypothesis behaved : wellBehaved collab.

Lemma processBracedExpression_continues (s s' : JSXTransformer) :
  processBracedExpression s = Some (Normal s') -> continues s s'.
Proof.
  unfold processBracedExpression. intros H. bind_inv H.
  injection H as <-. unfold liftC in Hstep. injection Hstep as Hstep.
  apply (proj2 behaved) in Hstep.
  eapply continues_trans; [apply continues_replaceToken|].
  eapply continues_trans; [exact Hstep | apply continues_replaceToken].
Qed.

Lemma processBracedExpression_advances (s s' : JSXTransformer) :
  processBracedExpression s = Some (Normal s') ->
  tokenIndex (tokens s) < tokenIndex (tokens s').
Proof.
  unfold processBracedExpression. intros H. bind_inv H.
  injection H as <-. unfold liftC in Hstep. injection Hstep as Hstep.
  apply (proj2 behaved) in Hstep. destruct Hstep as (_ & _ & Hi & _).
  rewrite index_replaceToken in *. lia.
Qed.

Lemma processBracedExpression_terminates (s : JSXTransformer) :
  processBracedExpression s <> None.
Proof.
  unfold processBracedExpression. apply bind_terminates; [apply liftC_terminates|].
  discriminate.
Qed.

Lemma processStringPropValue_continues (s s' : JSXTransformer) :
  processStringPropValue s = Some (Normal s') ->
  continues s s' /\ tokenIndex (tokens s') = S (tokenIndex (tokens s)).
Proof.
  unfold processStringPropValue. intros H. bind_inv H. injection H as <-.
  split; [apply continues_replaceToken | reflexivity].
Qed.

Lemma processStringPropValue_terminates (s : JSXTransformer) :
  processStringPropValue s <> None.
Proof.
  unfold processStringPropValue. apply bind_terminates; [apply deref_terminates|].
  discriminate.
Qed.

Lemma processProps_loop_continues (fuel : nat) :
  forall s s', processProps_loop fuel s = Some (Normal s') -> continues s s'.
Proof.
  induction fuel as [|fuel IH]; intros s s' H; [discriminate|].
  cbn [processProps_loop] in H.
  destruct (matches2 (tokens s) tt.jsxName tt.eq).
  - bind_inv H. bind_inv H. apply IH in H.
    eapply continues_trans; [|eapply continues_trans; [|exact H]];
      [|apply continues_appendCode].
    assert (Hkey : continues s
              (onTokens (replaceToken ": ")
                 (if includes hyphen (value s0)
                  then onTokens (replaceToken (quoted (value s0))) s
                  else onTokens copyToken s))).
    { eapply continues_trans; [|apply continues_replaceToken].
      destruct (includes hyphen (value s0)); auto with jsx. }
    eapply continues_trans; [exact Hkey|].
    match type of Hstep0 with (if ?c then _ else _) = _ => destruct c end.
    + now apply processBracedExpression_continues.
    + now apply processStringPropValue_continues.
  - destruct (matches1 (tokens s) tt.jsxName).
    + apply IH in H.
      eapply continues_trans; [|exact H].
      eapply continues_trans; [apply continues_copyToken|].
      eapply continues_trans; apply continues_appendCode.
    + destruct (matches1 (tokens s) tt.braceL).
      * bind_inv H. apply IH in H.
        eapply continues_trans; [apply processBracedExpression_continues; eassumption|].
        eapply continues_trans; [apply continues_appendCode | exact H].
      * injection H as <-. apply continues_refl.
Qed.

(** Every turn of the loop consumes a token, so the loop stops within as
    many turns as tokens remain, plus the one that breaks. *)
Lemma processProps_loop_terminates (fuel : nat) :
  forall s, remaining s < fuel -> processProps_loop fuel s <> None.
Proof.
  induction fuel as [|fuel IH]; intros s Hfuel; [lia|].
  cbn [processProps_loop].
  destruct (matches2 (tokens s) tt.jsxName tt.eq) eqn:E2.
  - apply matches2_true in E2 as (a & b & Ha & _ & _ & _).
    pose proof (currentToken_in_range _ _ Ha) as Hrange.
    rewrite Ha. cbn [deref ret bind].
    set (s2 := onTokens (replaceToken ": ") _).
    assert (Hs2 : continues s s2 /\ tokenIndex (tokens s2) = S (S (tokenIndex (tokens s)))).
    { subst s2. split.
      - eapply continues_trans; [|apply continues_replaceToken].
        destruct (includes hyphen (value a)); auto with jsx.
      - rewrite index_replaceToken.
        destruct (includes hyphen (value a));
          [rewrite index_replaceToken | rewrite index_copyToken]; reflexivity. }
    destruct Hs2 as [(_ & Hl & _) Hi].
    apply bind_terminates.
    + destruct (matches1 (tokens s2) tt.braceL);
        [apply processBracedExpression_terminates | apply processStringPropValue_terminates].
    + intros s3 H3. apply IH.
      assert (H : continues s2 s3).
      { destruct (matches1 (tokens s2) tt.braceL);
          [now apply processBracedExpression_continues
          | now apply processStringPropValue_continues]. }
      destruct H as (_ & Hl3 & Hi3 & _).
      unfold remaining in *. cbn [onTokens tokens appendCode tokenList tokenIndex].
      rewrite Hl3, Hl. lia.
  - destruct (matches1 (tokens s) tt.jsxName) eqn:E1.
    + apply matches1_true in E1 as (a & Ha & _).
      pose proof (currentToken_in_range _ _ Ha) as Hrange.
      apply IH. unfold remaining in *.
      pose proof (index_copyToken s) as Hi.
      destruct (continues_copyToken s) as (_ & Hl & _).
      cbn [onTokens tokens appendCode tokenList tokenIndex] in *.
      rewrite Hl, Hi. lia.
    + destruct (matches1 (tokens s) tt.braceL) eqn:E3; [|discriminate].
      apply matches1_true in E3 as (a & Ha & _).
      pose proof (currentToken_in_range _ _ Ha) as Hrange.
      apply bind_terminates; [apply processBracedExpression_terminates|].
      intros s3 H3. apply IH.
      pose proof (processBracedExpression_advances _ _ H3) as Hadv.
      destruct (processBracedExpression_continues _ _ H3) as (_ & Hl & _).
      unfold remaining in *. cbn [onTokens tokens appendCode tokenList tokenIndex].
      rewrite Hl. lia.
Qed.

End PropsFacts.

(* ================================================================= *)
(** ** processProps: the frame of its two getters *)

Lemma lineLoop_frame (fuel index : nat) (st : JSXTransformer) :
  tokens (getLineNumberForIndex_loop fuel index st) = tokens st
  /\ nameManager (getLineNumberForIndex_loop fuel index st) = nameManager st
  /\ filenameVarName (getLineNumberForIndex_loop fuel index st) = filenameVarName st.
Proof.
  revert st. induction fuel as [|fuel IH]; intros st; [auto|].
  cbn [getLineNumberForIndex_loop].
  destruct ((lastIndex st <? index) && (lastIndex st <? String.length (code (tokens st))));
    [|auto].
  match goal with |- context [getLineNumberForIndex_loop fuel index ?s] =>
    destruct (IH s) as (H1 & H2 & H3) end.
  rewrite H1, H2, H3. auto.
Qed.

Section PropsObject.

Context {collab : Collaborators}.

Lemma getFilenameVarName_tokens (s : JSXTransformer) :
  tokens (snd (getFilenameVarName s)) = tokens s.
Proof.
  unfold getFilenameVarName. destruct (truthy (filenameVarName s)); [reflexivity|].
  destruct (claimFreeName (nameManager s) "_jsxFileName"). reflexivity.
Qed.

Lemma getFilenameVarName_fst (s1 s : JSXTransformer) :
  filenameVarName s1 = filenameVarName s -> nameManager s1 = nameManager s ->
  fst (getFilenameVarName s1) = fst (getFilenameVarName s).
Proof.
  unfold getFilenameVarName. intros -> ->.
  destruct (truthy (filenameVarName s)); [reflexivity|].
  destruct (claimFreeName (nameManager s) "_jsxFileName"). reflexivity.
Qed.

Lemma getFilenameVarName_stored (s : JSXTransformer) :
  filenameVarName (snd (getFilenameVarName s)) = Some (fst (getFilenameVarName s)).
Proof.
  unfold getFilenameVarName.
  destruct (filenameVarName s) as [[|c v]|] eqn:E;
    cbn [truthy]; try (destruct (claimFreeName _ _); reflexivity).
  cbn [snd fst]. exact E.
Qed.

(** The text [processProps] adds when it completes. *)
Lemma processProps_shape (fuel start : nat) (st st' : JSXTransformer) :
  wellBehaved collab ->
  processProps fuel start st = Some (Normal st') ->
  (matches1 (tokens st) tt.jsxName = false ->
   matches1 (tokens st) tt.braceL = false ->
   resultCode (tokens st')
   = resultCode (tokens st) ++ ", {"
     ++ devPropsCode (fst (getFilenameVarName st)) (fst (getLineNumberForIndex start st))
     ++ "}"
   /\ tokenIndex (tokens st') = tokenIndex (tokens st)
   /\ filenameVarName st' = Some (fst (getFilenameVarName st)))
  /\ exists attrs,
       resultCode (tokens st')
       = resultCode (tokens st) ++ ", {" ++ attrs
         ++ devPropsCode (fst (getFilenameVarName st)) (fst (getLineNumberForIndex start st))
         ++ "}".
Proof.
  intros behaved.
  destruct (lineLoop_frame (start - lastIndex st) start st) as (Ft & Fn & Ff).
  unfold processProps, getLineNumberForIndex. cbn [fst].
  set (st1 := getLineNumberForIndex_loop _ _ _) in *.
  pose proof (getFilenameVarName_tokens st1) as Ht2.
  pose proof (getFilenameVarName_fst st1 st Ff Fn) as Hv.
  pose proof (getFilenameVarName_stored st1) as Hst.
  destruct (getFilenameVarName st1) as [v st2]. cbn [fst snd] in *.
  rewrite Ht2, Ft, <- Hv.
  generalize (devPropsCode v (lastLineNumber st1)). intros debug.
  destruct (negb (matches1 (tokens st) tt.jsxName)
            && negb (matches1 (tokens st) tt.braceL)) eqn:E.
  - intros [= <-]. rewrite resultCode_appendCode, index_appendCode.
    rewrite Ht2, Ft. split.
    + intros _ _. split; [reflexivity|]. split; [reflexivity|].
      unfold onTokens. cbn [filenameVarName]. exact Hst.
    + exists EmptyString. reflexivity.
  - intros H. split.
    + intros H1 H2. rewrite H1, H2 in E. discriminate.
    + bind_inv H. injection H as <-.
      apply (processProps_loop_continues behaved) in Hstep.
      destruct Hstep as (_ & _ & _ & out & Hout).
      rewrite resultCode_appendCode in *.
      rewrite Ht2, Ft in Hout. rewrite Hout.
      exists (out ++ " "). rewrite !append_assoc. reflexivity.
Qed.

End PropsObject.

(* ================================================================= *)
(** ** processTagIntro: which names are quoted *)

Lemma startsWithLowerCase_head (c : ascii) (rest : string) :
  startsWithLowerCase (String c rest) = Some (negb (isUpperCaseLetter c)).
Proof.
  unfold startsWithLowerCase. cbn [charAt0]. f_equal.
  destruct c as [[] [] [] [] [] [] [] []]; reflexivity.
Qed.

Lemma lowerCase_not_upperCase (c : ascii) :
  isLowerCaseLetter c = true -> isUpperCaseLetter c = false.
Proof. destruct c as [[] [] [] [] [] [] [] []]; (reflexivity || discriminate). Qed.

Section TagIntroFacts.

Context {collab : Collaborators}.

Lemma findIntroEnd_stop (fuel : nat) (tp : TokenProcessor) (k : nat) :
  introEndsAt tp k = true -> findIntroEnd (S fuel) tp k = Some (Normal k).
Proof. intros H. cbn [findIntroEnd]. rewrite H. reflexivity. Qed.

Lemma findIntroEnd_found (fuel : nat) :
  forall (tp : TokenProcessor) (k e : nat),
  findIntroEnd fuel tp k = Some (Normal e) ->
  k <= e /\ introEndsAt tp e = true /\ (introEndsAt tp k = false -> k < e).
Proof.
  induction fuel as [|fuel IH]; intros tp k e H; [discriminate|].
  cbn [findIntroEnd] in H. destruct (introEndsAt tp k) eqn:E; cbn [negb] in H.
  - injection H as <-. repeat split; auto. discriminate.
  - apply IH in H as (H1 & H2 & _). repeat split; auto; lia.
Qed.

(** A name of one token: quoted when [startsWithLowerCase] says so,
    otherwise handed to [processToken] as it is. *)
Lemma processTagIntro_single (fuel : nat) (st : JSXTransformer) (t : Token) (lower : bool) :
  currentToken (tokens st) = Some t ->
  introEndsAt (tokens st) (currentIndex (tokens st) + 1) = true ->
  startsWithLowerCase (value t) = Some lower ->
  processTagIntro (S fuel) st
  = if lower
    then Some (Normal (onTokens (replaceToken (quoted (value t))) st))
    else processTokensUntil (S fuel) (currentIndex (tokens st) + 1) st.
Proof.
  intros Ht Hend Hlow. unfold processTagIntro.
  rewrite (findIntroEnd_stop fuel _ _ Hend). cbn [bind].
  rewrite Nat.eqb_refl, Ht. cbn [deref ret bind]. rewrite Hlow. cbn [deref ret bind].
  destruct lower; cbn [bind ret]; [|reflexivity].
  cbn [processTokensUntil]. unfold currentIndex. rewrite index_replaceToken.
  replace (S (tokenIndex (tokens st)) <? tokenIndex (tokens st) + 1) with false;
    [reflexivity|]. symmetry. apply Nat.ltb_ge. lia.
Qed.

(** A name of several tokens is never touched by [processTagIntro]. *)
Lemma processTagIntro_multi (fuel : nat) (st : JSXTransformer) :
  introEndsAt (tokens st) (currentIndex (tokens st) + 1) = false ->
  processTagIntro fuel st
  = (introEnd <- findIntroEnd fuel (tokens st) (currentIndex (tokens st) + 1) ;;
     processTokensUntil fuel introEnd st).
Proof.
  intros Hend. unfold processTagIntro.
  destruct (findIntroEnd fuel (tokens st) (currentIndex (tokens st) + 1))
    as [[e|x]|] eqn:E; cbn [bind]; try reflexivity.
  apply findIntroEnd_found in E as (_ & _ & Hlt). specialize (Hlt Hend).
  replace (e =? currentIndex (tokens st) + 1) with false; [reflexivity|].
  symmetry. apply Nat.eqb_neq. lia.
Qed.

(** C5: a tag name made of one token whose first character is a
    lower-case letter is rewritten as a quoted string literal; a one-token
    name with an upper-case initial and a name of several tokens (a dotted
    name) are given to the generic token processor as they stand,
    unquoted. *)
Theorem C5_processTagIntro_quotes_lower_case
    (fuel : nat) (st : JSXTransformer) (t : Token) (c : ascii) (rest : string) :
  currentToken (tokens st) = Some t ->
  value t = String c rest ->
  (introEndsAt (tokens st) (currentIndex (tokens st) + 1) = true ->
   isLowerCaseLetter c = true ->
   exists st',
     processTagIntro (S fuel) st = Some (Normal st')
     /\ resultCode (tokens st')
        = (resultCode (tokens st) ++ previousWhitespace (tokens st))
          ++ String squote (value t ++ str squote)
     /\ tokenIndex (tokens st') = S (tokenIndex (tokens st)))
  /\ (introEndsAt (tokens st) (currentIndex (tokens st) + 1) = true ->
      isUpperCaseLetter c = true ->
      processTagIntro (S fuel) st
      = (st1 <- liftC (processToken st) ;;
         processTokensUntil fuel (currentIndex (tokens st) + 1) st1))
  /\ (introEndsAt (tokens st) (currentIndex (tokens st) + 1) = false ->
      processTagIntro fuel st
      = (introEnd <- findIntroEnd fuel (tokens st) (currentIndex (tokens st) + 1) ;;
         processTokensUntil fuel introEnd st)
      /\ forall introEnd,
           findIntroEnd fuel (tokens st) (currentIndex (tokens st) + 1)
           = Some (Normal introEnd) ->
           currentIndex (tokens st) + 1 < introEnd).
Proof.
  intros Ht Hv. split; [|split].
  - intros Hend Hlow. eexists. split.
    { rewrite (processTagIntro_single fuel st t true Ht Hend); [reflexivity|].
      rewrite Hv, startsWithLowerCase_head.
      now rewrite (lowerCase_not_upperCase c Hlow). }
    split; reflexivity.
  - intros Hend Hup.
    rewrite (processTagIntro_single fuel st t false Ht Hend).
    + cbn [processTokensUntil]. unfold currentIndex.
      replace (tokenIndex (tokens st) <? tokenIndex (tokens st) + 1) with true;
        [reflexivity|]. symmetry. apply Nat.ltb_lt. lia.
    + rewrite Hv, startsWithLowerCase_head. now rewrite Hup.
  - intros Hend. split; [now apply processTagIntro_multi|].
    intros e He. now apply findIntroEnd_found in He as (_ & _ & Hlt); auto.
Qed.

End TagIntroFacts.

(* ================================================================= *)
(** ** processProps: attribute keys *)

Section AttributeFacts.

Context {collab : Collaborators}.

(** C6: in the props object an attribute [name=value] has its name
    written as a quoted string key when the name contains a hyphen and
    copied as a bare identifier key when it does not, the [=] becoming
    [: ]; an attribute name with no [=] after it is written [name: true].
    Each attribute is followed by a comma. *)
Theorem C6_processProps_attribute_keys
    (fuel : nat) (st : JSXTransformer) (t : Token) :
  currentToken (tokens st) = Some t ->
  (matches2 (tokens st) tt.jsxName tt.eq = true ->
   exists st1 st2,
     (includes hyphen (value t) = true ->
      resultCode (tokens st1)
      = (resultCode (tokens st) ++ previousWhitespace (tokens st))
        ++ String squote (value t ++ str squote))
     /\ (includes hyphen (value t) = false ->
         resultCode (tokens st1)
         = (resultCode (tokens st) ++ previousWhitespace (tokens st))
           ++ tokenText (tokens st) t)
     /\ tokenIndex (tokens st1) = S (tokenIndex (tokens st))
     /\ resultCode (tokens st2)
        = (resultCode (tokens st1) ++ previousWhitespace (tokens st1)) ++ ": "
     /\ tokenIndex (tokens st2) = S (S (tokenIndex (tokens st)))
     /\ processProps_loop (S fuel) st
        = (st3 <- (if matches1 (tokens st2) tt.braceL
                   then processBracedExpression st2
                   else processStringPropValue st2) ;;
           processProps_loop fuel (onTokens (appendCode ",") st3))
     /\ forall v, currentToken (tokens st2) = Some v ->
          matches1 (tokens st2) tt.braceL = false ->
          exists st3,
            processProps_loop (S fuel) st
            = processProps_loop fuel (onTokens (appendCode ",") st3)
            /\ resultCode (tokens (onTokens (appendCode ",") st3))
               = (((resultCode (tokens st2) ++ previousWhitespace (tokens st2))
                   ++ formatJSXStringValueLiteral (value v))
                   ++ formatJSXTextReplacement (value v)) ++ ",")
  /\ (matches2 (tokens st) tt.jsxName tt.eq = false ->
      matches1 (tokens st) tt.jsxName = true ->
      exists st',
        processProps_loop (S fuel) st = processProps_loop fuel st'
        /\ resultCode (tokens st')
           = (((resultCode (tokens st) ++ previousWhitespace (tokens st))
               ++ tokenText (tokens st) t) ++ ": true") ++ ","
        /\ tokenIndex (tokens st') = S (tokenIndex (tokens st))).
Proof.
  intros Ht. split.
  - intros Hm.
    exists (if includes hyphen (value t)
            then onTokens (replaceToken (quoted (value t))) st
            else onTokens copyToken st).
    exists (onTokens (replaceToken ": ")
              (if includes hyphen (value t)
               then onTokens (replaceToken (quoted (value t))) st
               else onTokens copyToken st)).
    split; [|split; [|split; [|split; [reflexivity|split; [|split]]]]].
    + intros ->. reflexivity.
    + intros ->. unfold onTokens, copyToken. rewrite Ht. reflexivity.
    + destruct (includes hyphen (value t));
        [apply index_replaceToken | apply index_copyToken].
    + rewrite index_replaceToken. f_equal.
      destruct (includes hyphen (value t));
        [apply index_replaceToken | apply index_copyToken].
    + cbn [processProps_loop]. rewrite Hm, Ht. reflexivity.
    + intros v Hv Hnb. eexists. split.
      * cbn [processProps_loop]. rewrite Hm, Ht. cbn [deref ret bind].
        rewrite Hnb. unfold processStringPropValue. rewrite Hv.
        cbn [deref ret bind]. reflexivity.
      * rewrite resultCode_appendCode, resultCode_replaceToken.
        rewrite <- !append_assoc. reflexivity.
  - intros Hm2 Hm1. eexists. split; [|split].
    + cbn [processProps_loop]. rewrite Hm2, Hm1. reflexivity.
    + rewrite !resultCode_appendCode. unfold onTokens at 1, copyToken. rewrite Ht.
      reflexivity.
    + rewrite !index_appendCode. apply index_copyToken.
Qed.

End AttributeFacts.

(* ================================================================= *)
(** ** processChildren: interpolations *)

Section ChildrenFacts.

Context {collab : Collaborators}.

Lemma braceL_not_closing_tag (tp : TokenProcessor) :
  matches1 tp tt.braceL = true -> matches2 tp tt.jsxTagStart tt.slash = false.
Proof.
  intros H. apply matches1_true in H as (t & Ht & Hl).
  destruct (matches2 tp tt.jsxTagStart tt.slash) eqn:E; [|reflexivity].
  apply matches2_true in E as (a & _ & Ha & Hla & _).
  rewrite Ht in Ha. injection Ha as ->. rewrite Hl in Hla. discriminate.
Qed.

(** C7: among the children, an interpolation whose braces enclose no
    token is dropped, both braces replaced by nothing, so that no argument
    is added to the call; any other interpolation adds one argument: its
    opening brace becomes [, ], its interior is processed by
    [processBalancedCode], and its closing brace is replaced by nothing. *)
Theorem C7_processChildren_interpolation (fuel : nat) (st : JSXTransformer) :
  (matches2 (tokens st) tt.braceL tt.braceR = true ->
   exists st',
     processChildren (S fuel) st = processChildren fuel st'
     /\ st' = onTokens (replaceToken EmptyString)
                (onTokens (replaceToken EmptyString) st)
     /\ tokenIndex (tokens st') = S (S (tokenIndex (tokens st)))
     /\ resultCode (tokens st')
        = (resultCode (tokens st) ++ previousWhitespace (tokens st))
          ++ previousWhitespace (tokens (onTokens (replaceToken EmptyString) st)))
  /\ (matches1 (tokens st) tt.braceL = true ->
      matches2 (tokens st) tt.braceL tt.braceR = false ->
      exists st1,
        resultCode (tokens st1)
        = (resultCode (tokens st) ++ previousWhitespace (tokens st)) ++ ", "
        /\ tokenIndex (tokens st1) = S (tokenIndex (tokens st))
        /\ processChildren (S fuel) st
           = (st2 <- liftC (processBalancedCode st1) ;;
              processChildren fuel (onTokens (replaceToken EmptyString) st2))
        /\ forall st2, processBalancedCode st1 = Normal st2 ->
             processChildren (S fuel) st
             = processChildren fuel (onTokens (replaceToken EmptyString) st2)
             /\ resultCode (tokens (onTokens (replaceToken EmptyString) st2))
                = resultCode (tokens st2) ++ previousWhitespace (tokens st2)
             /\ tokenIndex (tokens (onTokens (replaceToken EmptyString) st2))
                = S (tokenIndex (tokens st2))).
Proof.
  split.
  - intros Hm. eexists. split; [|split; [reflexivity|split]].
    + cbn [processChildren].
      rewrite (braceL_not_closing_tag _ (matches2_matches1 _ _ _ Hm)).
      rewrite (matches2_matches1 _ _ _ Hm), Hm. reflexivity.
    + reflexivity.
    + rewrite !resultCode_replaceToken, !append_nil_r. reflexivity.
  - intros Hm1 Hm2. exists (onTokens (replaceToken ", ") st).
    assert (Hstep : processChildren (S fuel) st
              = (st2 <- liftC (processBalancedCode (onTokens (replaceToken ", ") st)) ;;
                 processChildren fuel (onTokens (replaceToken EmptyString) st2))).
    { cbn [processChildren].
      rewrite (braceL_not_closing_tag _ Hm1), Hm1, Hm2. reflexivity. }
    split; [reflexivity|]. split; [reflexivity|]. split; [exact Hstep|].
    intros st2 Hbal. split; [|split].
    + rewrite Hstep, Hbal. reflexivity.
    + rewrite resultCode_replaceToken, append_nil_r. reflexivity.
    + reflexivity.
Qed.

End ChildrenFacts.

(* ================================================================= *)
(** ** The whole tag: what is kept and what can be raised *)

Section TagFacts.

Context {collab : Collaborators}.
Variable P : Exn -> Prop.
Hypothesis behaved : wellBehaved collab.
Hypothesis raising : raisesOnly collab P.

Lemma processTokensUntil_continues (fuel : nat) :
  forall e s s', processTokensUntil fuel e s = Some (Normal s') -> continues s s'.
Proof.
  induction fuel as [|fuel IH]; intros e s s' H; [discriminate|].
  cbn [processTokensUntil] in H.
  destruct (currentIndex (tokens s) <? e).
  - bind_inv H. unfold liftC in Hstep. injection Hstep as Hstep.
    apply (proj1 behaved) in Hstep. apply IH in H.
    eapply continues_trans; eassumption.
  - injection H as <-. apply continues_refl.
Qed.

Lemma processTokensUntil_throw (fuel : nat) :
  forall e s x, processTokensUntil fuel e s = Some (Throw x) -> P x.
Proof.
  induction fuel as [|fuel IH]; intros e s x H; [discriminate|].
  cbn [processTokensUntil] in H.
  destruct (currentIndex (tokens s) <? e); [|discriminate].
  apply bind_throw in H as [H | (s1 & _ & H)].
  - unfold liftC in H. injection H as H. now apply (proj1 raising) in H.
  - now apply IH in H.
Qed.

Lemma findIntroEnd_no_throw (fuel : nat) :
  forall tp k x, findIntroEnd fuel tp k <> Some (Throw x).
Proof.
  induction fuel as [|fuel IH]; intros tp k x; [discriminate|].
  cbn [findIntroEnd]. destruct (negb (introEndsAt tp k)); [apply IH | discriminate].
Qed.

Lemma matchesAtIndex_in_range (tp : TokenProcessor) (k : nat) (l : string) (ls : list string) :
  matchesAtIndex tp k (l :: ls) = true -> exists t, tokenAt tp k = Some t.
Proof.
  cbn [matchesAtIndex]. destruct (tokenAt tp k) as [t|]; [eauto | discriminate].
Qed.

Lemma introEndsAt_in_range (tp : TokenProcessor) (k : nat) :
  introEndsAt tp (k + 1) = true -> exists t, tokenAt tp k = Some t.
Proof.
  unfold introEndsAt. replace (k + 1 - 1) with k by lia. intros H.
  assert (Hnext : forall l ls, matchesAtIndex tp (k + 1) (l :: ls) = true ->
                               exists t, tokenAt tp k = Some t).
  { intros l ls Hm. apply matchesAtIndex_in_range in Hm as [t Ht].
    unfold tokenAt in *.
    assert (Hlt : k < List.length (tokenList tp)).
    { assert (k + 1 < List.length (tokenList tp)) by (apply nth_error_Some; congruence).
      lia. }
    apply nth_error_Some in Hlt.
    destruct (nth_error (tokenList tp) k) as [u|]; [eauto | congruence]. }
  apply orb_true_iff in H as [H|H]; [|eapply Hnext; exact H].
  apply orb_true_iff in H as [H|H]; [|eapply Hnext; exact H].
  apply orb_true_iff in H as [H|H]; [|eapply Hnext; exact H].
  eapply matchesAtIndex_in_range; exact H.
Qed.

Lemma processTagIntro_continues (fuel : nat) (s s' : JSXTransformer) :
  processTagIntro fuel s = Some (Normal s') -> continues s s'.
Proof.
  unfold processTagIntro. intros H. bind_inv H. bind_inv H.
  apply processTokensUntil_continues in H.
  eapply continues_trans; [|exact H].
  destruct (s0 =? currentIndex (tokens s) + 1).
  - bind_inv Hstep0. bind_inv Hstep0.
    destruct s3; injection Hstep0 as <-; auto with jsx.
  - injection Hstep0 as <-. apply continues_refl.
Qed.

(** The guarantees carry over to every later state of the same buffer. *)
Lemma guard_continues (s s' : JSXTransformer) :
  continues s s' ->
  tokenizerInvariant (tokenList (tokens s)) \/ P TypeError ->
  tokenizerInvariant (tokenList (tokens s')) \/ P TypeError.
Proof. intros (_ & -> & _). auto. Qed.

Lemma deref_throw {A} (o : option A) (x : Exn) :
  deref o = Some (Throw x) -> o = None /\ x = TypeError.
Proof. destruct o; [discriminate | intros [= <-]; auto]. Qed.

Lemma processTagIntro_throw (fuel : nat) (s : JSXTransformer) (x : Exn) :
  tokenizerInvariant (tokenList (tokens s)) \/ P TypeError ->
  afterTagStart s ->
  processTagIntro fuel s = Some (Throw x) -> P x.
Proof.
  intros Hguard (i & t0 & Hi & Ht0 & Hl0). unfold processTagIntro. intros H.
  apply bind_throw in H as [H | (e & He & H)];
    [now apply findIntroEnd_no_throw in H|].
  apply bind_throw in H as [H | (s1 & _ & H)];
    [|now apply processTokensUntil_throw in H].
  destruct (e =? currentIndex (tokens s) + 1) eqn:Ee; [|discriminate].
  assert (Hx : x = TypeError).
  { apply bind_throw in H as [H | (t & _ & H)]; [now apply deref_throw in H|].
    apply bind_throw in H as [H | (lower & _ & H)]; [now apply deref_throw in H|].
    destruct lower; discriminate. }
  subst x. destruct Hguard as [[Hnames _] | HP]; [exfalso | exact HP].
  apply Nat.eqb_eq in Ee. subst e.
  apply findIntroEnd_found in He as (_ & Hend & _).
  apply introEndsAt_in_range in Hend as [t Ht].
  unfold currentToken in H. unfold currentIndex in Ht. rewrite Ht in H.
  cbn [deref ret bind] in H.
  assert (Hv : value t <> EmptyString).
  { unfold tokenAt in Ht. rewrite Hi in Ht. exact (Hnames i t0 t Ht0 Hl0 Ht). }
  unfold startsWithLowerCase in H.
  destruct (value t) as [|c r]; [congruence|]. cbn [charAt0 deref ret bind] in H.
  destruct (Ascii.eqb c (toLowerCase c)); discriminate.
Qed.

Lemma processProps_loop_throw (fuel : nat) :
  forall s x,
    tokenizerInvariant (tokenList (tokens s)) \/ P TypeError ->
    processProps_loop fuel s = Some (Throw x) -> P x.
Proof.
  induction fuel as [|fuel IH]; intros s x Hguard H; [discriminate|].
  assert (Hbraced : forall s0 y, processBracedExpression s0 = Some (Throw y) -> P y).
  { intros s0 y Hy. unfold processBracedExpression in Hy.
    apply bind_throw in Hy as [Hy | (? & _ & Hy)]; [|discriminate].
    unfold liftC in Hy. injection Hy as Hy. now apply (proj2 raising) in Hy. }
  assert (Hnext : forall s3, continues s s3 -> forall y,
             processProps_loop fuel (onTokens (appendCode ",") s3) = Some (Throw y) -> P y).
  { intros s3 H3 y Hy. apply IH in Hy; [exact Hy|].
    apply (guard_continues s); [|exact Hguard].
    eapply continues_trans; [exact H3 | apply continues_appendCode]. }
  cbn [processProps_loop] in H.
  destruct (matches2 (tokens s) tt.jsxName tt.eq) eqn:E2.
  - apply matches2_true in E2 as (a & b & Ha & _ & Hb & Hlb).
    rewrite Ha in H. cbn [deref ret bind] in H.
    set (s2 := onTokens (replaceToken ": ") _) in H.
    assert (Hs2 : continues s s2 /\ tokenIndex (tokens s2) = S (S (tokenIndex (tokens s)))).
    { subst s2. split.
      - eapply continues_trans; [|apply continues_replaceToken].
        destruct (includes hyphen (value a)); auto with jsx.
      - rewrite index_replaceToken.
        destruct (includes hyphen (value a));
          [rewrite index_replaceToken | rewrite index_copyToken]; reflexivity. }
    destruct Hs2 as [Hc2 Hi2].
    apply bind_throw in H as [H | (s3 & H3 & H)].
    + destruct (matches1 (tokens s2) tt.braceL); [now apply Hbraced in H|].
      unfold processStringPropValue in H.
      apply bind_throw in H as [H | (? & _ & H)]; [|discriminate].
      apply deref_throw in H as [Hnone ->].
      destruct Hguard as [[_ Heq] | HP]; [exfalso | exact HP].
      unfold tokenAt in Hb. specialize (Heq _ _ Hb Hlb).
      destruct Hc2 as (_ & Hl & _). unfold currentToken, tokenAt in Hnone.
      rewrite Hi2, Hl in Hnone. apply nth_error_Some in Heq. congruence.
    + apply (Hnext s3); [|exact H].
      eapply continues_trans; [exact Hc2|].
      destruct (matches1 (tokens s2) tt.braceL);
        [now apply (processBracedExpression_continues behaved)
        | now apply (processStringPropValue_continues) in H3 as [H3 _]].
  - destruct (matches1 (tokens s) tt.jsxName).
    + apply IH in H; [exact H|].
      apply (guard_continues s); [|exact Hguard].
      eapply continues_trans; [apply continues_copyToken|].
      eapply continues_trans; apply continues_appendCode.
    + destruct (matches1 (tokens s) tt.braceL); [|discriminate].
      apply bind_throw in H as [H | (s3 & H3 & H)]; [now apply Hbraced in H|].
      apply (Hnext s3); [|exact H].
      now apply (processBracedExpression_continues behaved).
Qed.

Lemma processProps_continues (fuel start : nat) (s s' : JSXTransformer) :
  processProps fuel start s = Some (Normal s') -> continues s s'.
Proof.
  unfold processProps, getLineNumberForIndex.
  destruct (lineLoop_frame (start - lastIndex s) start s) as (Ft & _ & _).
  set (s1 := getLineNumberForIndex_loop _ _ _) in *.
  pose proof (getFilenameVarName_tokens s1) as Ht2.
  destruct (getFilenameVarName s1) as [v s2]. cbn [snd] in Ht2.
  assert (Hs2 : continues s s2).
  { unfold continues. rewrite Ht2, Ft. repeat split; auto.
    exists EmptyString. now rewrite append_nil_r. }
  destruct (negb (matches1 (tokens s2) tt.jsxName) && negb (matches1 (tokens s2) tt.braceL)).
  - intros [= <-]. eapply continues_trans; [exact Hs2 | apply continues_appendCode].
  - intros H. bind_inv H. injection H as <-.
    apply (processProps_loop_continues behaved) in Hstep.
    eapply continues_trans; [exact Hs2|].
    eapply continues_trans; [apply continues_appendCode|].
    eapply continues_trans; [exact Hstep | apply continues_appendCode].
Qed.

Lemma processProps_throw (fuel start : nat) (s : JSXTransformer) (x : Exn) :
  tokenizerInvariant (tokenList (tokens s)) \/ P TypeError ->
  processProps fuel start s = Some (Throw x) -> P x.
Proof.
  intros Hguard. unfold processProps, getLineNumberForIndex.
  destruct (lineLoop_frame (start - lastIndex s) start s) as (Ft & _ & _).
  set (s1 := getLineNumberForIndex_loop _ _ _) in *.
  pose proof (getFilenameVarName_tokens s1) as Ht2.
  destruct (getFilenameVarName s1) as [v s2]. cbn [snd] in Ht2.
  destruct (negb (matches1 (tokens s2) tt.jsxName) && negb (matches1 (tokens s2) tt.braceL));
    [discriminate|].
  intros H. apply bind_throw in H as [H | (? & _ & H)]; [|discriminate].
  apply processProps_loop_throw in H; [exact H|].
  cbn [onTokens tokens appendCode tokenList]. now rewrite Ht2, Ft.
Qed.

Lemma skipToTagEnd_continues (fuel : nat) :
  forall s s', skipToTagEnd fuel s = Some (Normal s') -> continues s s'.
Proof.
  induction fuel as [|fuel IH]; intros s s' H; [discriminate|].
  cbn [skipToTagEnd] in H. destruct (negb (matches1 (tokens s) tt.jsxTagEnd)).
  - apply IH in H. eapply continues_trans; [apply continues_replaceToken | exact H].
  - injection H as <-. apply continues_refl.
Qed.

Lemma skipToTagEnd_no_throw (fuel : nat) :
  forall s x, skipToTagEnd fuel s <> Some (Throw x).
Proof.
  induction fuel as [|fuel IH]; intros s x; [discriminate|].
  cbn [skipToTagEnd]. destruct (negb (matches1 (tokens s) tt.jsxTagEnd));
    [apply IH | discriminate].
Qed.

Lemma processChildTextElement_continues (s s' : JSXTransformer) :
  processChildTextElement s = Some (Normal s') -> continues s s'.
Proof.
  unfold processChildTextElement. intros H. bind_inv H.
  destruct (String.eqb _ _); injection H as <-; apply continues_replaceToken.
Qed.

Lemma processChildTextElement_no_throw (s : JSXTransformer) (x : Exn) :
  matches1 (tokens s) tt.jsxText = true ->
  processChildTextElement s <> Some (Throw x).
Proof.
  intros Hm. apply matches1_true in Hm as (t & Ht & _).
  unfold processChildTextElement. rewrite Ht. cbn [deref ret bind].
  destruct (String.eqb _ _); discriminate.
Qed.

Lemma tag_and_children_continue (fuel : nat) :
  (forall s s', processChildren fuel s = Some (Normal s') -> continues s s')
  /\ (forall s s', processJSXTag fuel s = Some (Normal s') -> continues s s').
Proof.
  induction fuel as [|fuel [IHc IHt]]; [split; discriminate|]. split.
  - intros s s' H. cbn [processChildren] in H.
    destruct (matches2 (tokens s) tt.jsxTagStart tt.slash).
    { injection H as <-. apply continues_refl. }
    destruct (matches1 (tokens s) tt.braceL).
    { destruct (matches2 (tokens s) tt.braceL tt.braceR).
      - apply IHc in H.
        eapply continues_trans; [apply continues_replaceToken|].
        eapply continues_trans; [apply continues_replaceToken | exact H].
      - bind_inv H. unfold liftC in Hstep. injection Hstep as Hstep.
        apply (proj2 behaved) in Hstep. apply IHc in H.
        eapply continues_trans; [apply continues_replaceToken|].
        eapply continues_trans; [exact Hstep|].
        eapply continues_trans; [apply continues_replaceToken | exact H]. }
    destruct (matches1 (tokens s) tt.jsxTagStart).
    { bind_inv H. apply IHt in Hstep. apply IHc in H.
      eapply continues_trans; [apply continues_appendCode|].
      eapply continues_trans; eassumption. }
    destruct (matches1 (tokens s) tt.jsxText); [|discriminate].
    bind_inv H. apply processChildTextElement_continues in Hstep. apply IHc in H.
    eapply continues_trans; eassumption.
  - intros s s' H. cbn [processJSXTag] in H.
    bind_inv H. bind_inv H. bind_inv H.
    apply processTagIntro_continues in Hstep0.
    apply processProps_continues in Hstep1.
    assert (H03 : continues s s2).
    { eapply continues_trans; [apply continues_replaceToken|].
      eapply continues_trans; eassumption. }
    destruct (matches2 (tokens s2) tt.slash tt.jsxTagEnd).
    { injection H as <-. eapply continues_trans; [exact H03|].
      eapply continues_trans; apply continues_replaceToken. }
    destruct (matches1 (tokens s2) tt.jsxTagEnd); [|discriminate].
    bind_inv H. bind_inv H. injection H as <-.
    apply IHc in Hstep2. apply skipToTagEnd_continues in Hstep3.
    eapply continues_trans; [exact H03|].
    eapply continues_trans; [apply continues_replaceToken|].
    eapply continues_trans; [exact Hstep2|].
    eapply continues_trans; [exact Hstep3 | apply continues_replaceToken].
Qed.

(** Whatever a tag or its children raise is one of the transformer's two
    errors or comes from the root transformer; a TypeError needs a stream
    without the tokenizer's guarantees. *)
Lemma tag_and_children_throw (fuel : nat) :
  (forall s x,
      tokenizerInvariant (tokenList (tokens s)) \/ P TypeError ->
      processChildren fuel s = Some (Throw x) ->
      x = ExpectedTagEnd \/ x = UnexpectedChild \/ P x)
  /\ (forall s x,
      tokenizerInvariant (tokenList (tokens s)) \/ P TypeError ->
      matches1 (tokens s) tt.jsxTagStart = true ->
      processJSXTag fuel s = Some (Throw x) ->
      x = ExpectedTagEnd \/ x = UnexpectedChild \/ P x).
Proof.
  induction fuel as [|fuel [IHc IHt]]; [split; discriminate|].
  destruct (tag_and_children_continue fuel) as [Cc Ct].
  split.
  - intros s x Hguard H. cbn [processChildren] in H.
    destruct (matches2 (tokens s) tt.jsxTagStart tt.slash); [discriminate|].
    destruct (matches1 (tokens s) tt.braceL).
    { destruct (matches2 (tokens s) tt.braceL tt.braceR).
      - apply IHc in H; [exact H|].
        apply (guard_continues s); [|exact Hguard].
        eapply continues_trans; apply continues_replaceToken.
      - apply bind_throw in H as [H | (s1 & H1 & H)].
        + unfold liftC in H. injection H as H. apply (proj2 raising) in H. auto.
        + unfold liftC in H1. injection H1 as H1. apply (proj2 behaved) in H1.
          apply IHc in H; [exact H|].
          apply (guard_continues s); [|exact Hguard].
          eapply continues_trans; [apply continues_replaceToken|].
          eapply continues_trans; [exact H1 | apply continues_replaceToken]. }
    destruct (matches1 (tokens s) tt.jsxTagStart) eqn:Etag.
    { apply bind_throw in H as [H | (s1 & H1 & H)].
      - apply IHt in H; auto.
      - apply Ct in H1. apply IHc in H; [exact H|].
        apply (guard_continues s); [|exact Hguard].
        eapply continues_trans; [apply continues_appendCode | exact H1]. }
    destruct (matches1 (tokens s) tt.jsxText) eqn:Etext.
    { apply bind_throw in H as [H | (s1 & H1 & H)].
      - now apply processChildTextElement_no_throw in H.
      - apply processChildTextElement_continues in H1.
        apply IHc in H; [exact H|]. now apply (guard_continues s). }
    injection H as <-. auto.
  - intros s x Hguard Hm H. cbn [processJSXTag] in H.
    apply matches1_true in Hm as (t & Ht & Hl).
    rewrite Ht in H. cbn [deref ret bind] in H.
    set (s1 := onTokens (replaceToken _) s) in H.
    assert (Hafter : afterTagStart s1).
    { exists (tokenIndex (tokens s)), t. repeat split; auto. }
    assert (Hguard1 : tokenizerInvariant (tokenList (tokens s1)) \/ P TypeError).
    { apply (guard_continues s); [apply continues_replaceToken | exact Hguard]. }
    apply bind_throw in H as [H | (s2 & H2 & H)].
    { apply processTagIntro_throw in H; auto. }
    apply processTagIntro_continues in H2.
    assert (Hguard2 : tokenizerInvariant (tokenList (tokens s2)) \/ P TypeError).
    { now apply (guard_continues s1). }
    apply bind_throw in H as [H | (s3 & H3 & H)].
    { apply processProps_throw in H; auto. }
    apply processProps_continues in H3.
    assert (Hguard3 : tokenizerInvariant (tokenList (tokens s3)) \/ P TypeError).
    { now apply (guard_continues s2). }
    destruct (matches2 (tokens s3) tt.slash tt.jsxTagEnd); [discriminate|].
    destruct (matches1 (tokens s3) tt.jsxTagEnd); [|injection H as <-; auto].
    apply bind_throw in H as [H | (s5 & H5 & H)].
    { apply IHc in H; [exact H|].
      apply (guard_continues s3); [apply continues_replaceToken | exact Hguard3]. }
    apply bind_throw in H as [H | (s6 & H6 & H)]; [|discriminate].
    now apply skipToTagEnd_no_throw in H.
Qed.

(** A tag that completes went through its intro and its props, called with
    the offset of the tag's first token; what follows only adds output. *)
Lemma processJSXTag_inv (fuel : nat) (s s' : JSXTransformer) :
  processJSXTag (S fuel) s = Some (Normal s') ->
  exists first s2 s3,
    currentToken (tokens s) = Some first
    /\ processTagIntro fuel
         (onTokens (replaceToken (resolvedReactName ++ ".createElement(")) s)
       = Some (Normal s2)
    /\ processProps fuel (start first) s2 = Some (Normal s3)
    /\ continues s3 s'.
Proof.
  intros H. cbn [processJSXTag] in H.
  bind_inv H. bind_inv H. bind_inv H.
  apply deref_normal in Hstep.
  exists s0, s1, s2. split; [exact Hstep|]. split; [exact Hstep0|].
  split; [exact Hstep1|].
  destruct (matches2 (tokens s2) tt.slash tt.jsxTagEnd).
  { injection H as <-. eapply continues_trans; apply continues_replaceToken. }
  destruct (matches1 (tokens s2) tt.jsxTagEnd); [|discriminate].
  bind_inv H. bind_inv H. injection H as <-.
  apply (proj1 (tag_and_children_continue fuel)) in Hstep2.
  apply skipToTagEnd_continues in Hstep3.
  eapply continues_trans; [apply continues_replaceToken|].
  eapply continues_trans; [exact Hstep2|].
  eapply continues_trans; [exact Hstep3 | apply continues_replaceToken].
Qed.

End TagFacts.

(* ================================================================= *)
(** ** processProps: the emitted object literal *)

Section PropsObjectLiteral.

Context {collab : Collaborators}.

(** C2: [processProps] appends an object-literal argument [, {...}] whose
    last entries are the debug props
    [__self: this, __source: {fileName: F, lineNumber: N}], also for a tag
    without attributes, where the literal holds nothing else.  [N] is the
    line number, counted from 1, of the offset [processProps] is called
    with, which for every element is the offset of its first token; [F] is
    the file-name identifier, claimed from the name manager when no element
    asked for it before and kept for the elements to come.  The attribute
    loop ends within the tokens that remain. *)
Theorem C2_processProps_object (fuel firstTokenStart : nat) (st : JSXTransformer) :
  wellBehaved collab ->
  let lineNumber := fst (getLineNumberForIndex firstTokenStart st) in
  let fileNameVar := fst (getFilenameVarName st) in
  let debug :=
    "__self: this, __source: {fileName: " ++ fileNameVar
      ++ ", lineNumber: " ++ decimal lineNumber ++ "}" in
  (matches1 (tokens st) tt.jsxName = false ->
   matches1 (tokens st) tt.braceL = false ->
   exists st',
     processProps fuel firstTokenStart st = Some (Normal st')
     /\ resultCode (tokens st') = resultCode (tokens st) ++ ", {" ++ debug ++ "}"
     /\ tokenIndex (tokens st') = tokenIndex (tokens st)
     /\ filenameVarName st' = Some fileNameVar)
  /\ (forall st',
        processProps fuel firstTokenStart st = Some (Normal st') ->
        exists attrs,
          resultCode (tokens st')
          = resultCode (tokens st) ++ ", {" ++ attrs ++ debug ++ "}")
  /\ (remaining st < fuel -> processProps fuel firstTokenStart st <> None)
  /\ (lineInvariant st -> lastIndex st <= firstTokenStart ->
      lineNumber = 1 + countChar nl (substring 0 firstTokenStart (code (tokens st))))
  /\ fileNameVar
     = match truthy (filenameVarName st) with
       | Some v => v
       | None => fst (claimFreeName (nameManager st) "_jsxFileName")
       end
  /\ filenameVarName (snd (getFilenameVarName st)) = Some fileNameVar
  /\ (forall tag tag',
        processJSXTag (S fuel) tag = Some (Normal tag') ->
        exists first intro attrs rest,
          currentToken (tokens tag) = Some first
          /\ processTagIntro fuel
               (onTokens (replaceToken (resolvedReactName ++ ".createElement(")) tag)
             = Some (Normal intro)
          /\ resultCode (tokens tag')
             = resultCode (tokens intro) ++ ", {" ++ attrs
               ++ devPropsCode (fst (getFilenameVarName intro))
                    (fst (getLineNumberForIndex (start first) intro))
               ++ "}" ++ rest).
Proof.
  intros behaved lineNumber fileNameVar debug.
  change debug with (devPropsCode fileNameVar lineNumber).
  subst lineNumber fileNameVar. clear debug.
  destruct (lineLoop_frame (firstTokenStart - lastIndex st) firstTokenStart st)
    as (Ft & Fn & Ff).
  assert (Htokens : forall n st1,
            getLineNumberForIndex firstTokenStart st = (n, st1) -> tokens st1 = tokens st).
  { intros n st1 E1. unfold getLineNumberForIndex in E1. injection E1 as _ <-. exact Ft. }
  split; [|split; [|split; [|split; [|split; [|split]]]]].
  - intros H1 H2.
    assert (Hrun : exists st', processProps fuel firstTokenStart st = Some (Normal st')).
    { unfold processProps.
      destruct (getLineNumberForIndex firstTokenStart st) as [n st1] eqn:E1.
      pose proof (Htokens n st1 eq_refl) as H.
      pose proof (getFilenameVarName_tokens st1) as Ht2.
      destruct (getFilenameVarName st1) as [v st2]. cbn [snd] in Ht2.
      rewrite Ht2, H, H1, H2. cbn [negb andb]. eexists. reflexivity. }
    destruct Hrun as [st' Hrun]. exists st'. split; [exact Hrun|].
    apply (proj1 (processProps_shape fuel firstTokenStart st st' behaved Hrun)); assumption.
  - intros st' Hrun.
    apply (proj2 (processProps_shape fuel firstTokenStart st st' behaved Hrun)).
  - intros Hfuel. unfold processProps.
    destruct (getLineNumberForIndex firstTokenStart st) as [n st1] eqn:E1.
    pose proof (Htokens n st1 eq_refl) as H.
    pose proof (getFilenameVarName_tokens st1) as Ht2.
    destruct (getFilenameVarName st1) as [v st2]. cbn [snd] in Ht2.
    match goal with |- (if ?c then _ else _) <> _ => destruct c end; [discriminate|].
    apply bind_terminates; [|discriminate].
    apply (processProps_loop_terminates behaved).
    unfold remaining in *. cbn [onTokens tokens appendCode tokenList tokenIndex].
    rewrite Ht2, H. exact Hfuel.
  - intros Hinv Hle.
    apply (getLineNumberForIndex_spec firstTokenStart st Hinv Hle).
  - unfold getFilenameVarName.
    destruct (truthy (filenameVarName st)); [reflexivity|].
    destruct (claimFreeName (nameManager st) "_jsxFileName"). reflexivity.
  - apply getFilenameVarName_stored.
  - intros tag tag' Htag.
    apply (processJSXTag_inv behaved) in Htag
      as (first & intro & props & Hfirst & Hintro & Hprops & Hrest).
    destruct (proj2 (processProps_shape fuel (start first) intro props behaved Hprops))
      as [attrs Hattrs].
    destruct Hrest as (_ & _ & _ & rest & Hrest).
    exists first, intro, attrs, rest.
    split; [exact Hfirst|]. split; [exact Hintro|].
    rewrite Hrest, Hattrs. rewrite !append_assoc. reflexivity.
Qed.

End PropsObjectLiteral.

(* ================================================================= *)
(** ** The stand-alone collaborators are well behaved *)

Lemma plainRoot_copyCurrent_continues (s : JSXTransformer) :
  continues s (PlainRoot.copyCurrent s).
Proof.
  unfold PlainRoot.copyCurrent. repeat split; cbn; auto.
  eexists. rewrite append_assoc. reflexivity.
Qed.

Lemma plainRoot_balanced_continues (fuel : nat) :
  forall depth s, continues s (PlainRoot.balanced fuel depth s).
Proof.
  induction fuel as [|fuel IH]; intros depth s; [apply continues_refl|].
  cbn [PlainRoot.balanced].
  destruct (PlainRoot.currentLabel s) as [l|]; [|apply continues_refl].
  destruct (String.eqb l "{").
  { eapply continues_trans; [apply plainRoot_copyCurrent_continues | apply IH]. }
  destruct (String.eqb l "}").
  { destruct depth; [apply continues_refl|].
    eapply continues_trans; [apply plainRoot_copyCurrent_continues | apply IH]. }
  eapply continues_trans; [apply plainRoot_copyCurrent_continues | apply IH].
Qed.

Lemma plainRoot_wellBehaved : wellBehaved PlainRoot.collaborators.
Proof.
  split; intros s s' H; injection H as <-.
  - apply plainRoot_copyCurrent_continues.
  - apply plainRoot_balanced_continues.
Defined.

Lemma plainRoot_raises_nothing : raisesOnly PlainRoot.collaborators (fun _ => False).
Proof. split; intros s e H; discriminate H. Defined.

(** Decide the tokenizer's guarantees on a given stream. *)
Ltac check_tokenizerInvariant :=
  split;
  [ intros i t t' Hi Hl Hi';
    repeat (destruct i as [|i];
            [cbn in Hi, Hi'; injection Hi as <-; first [discriminate Hl | injection Hi' as <-; discriminate]|]);
    destruct i; discriminate Hi
  | intros i t Hi Hl;
    repeat (destruct i as [|i];
            [cbn in Hi; injection Hi as <-; first [discriminate Hl | cbn; lia]|]);
    destruct i; discriminate Hi ].

(* ================================================================= *)
(** ** The two fatal errors *)



(* ================================================================= *)
(** ** The lower-case test on characters that are not letters *)

(** C10: [startsWithLowerCase] compares the first character with its
    lower-case form, so it holds of every first character that is not an
    upper-case letter, digits, the underscore and the dollar sign included;
    a tag name of one token with such a first character is rewritten as a
    quoted string, and [<_Foo/>] becomes a call whose first argument is the
    string ['_Foo']. *)
Theorem C10_non_upper_case_names_quoted (collab : Collaborators) :
  (forall c rest,
      isUpperCaseLetter c = false -> startsWithLowerCase (String c rest) = Some true)
  /\ (forall c rest,
      isUpperCaseLetter c = true -> startsWithLowerCase (String c rest) = Some false)
  /\ (forall c,
      isDigit c = true \/ c = underscore \/ c = dollar -> isUpperCaseLetter c = false)
  /\ (forall fuel st t c rest,
      currentToken (tokens st) = Some t ->
      value t = String c rest ->
      introEndsAt (tokens st) (currentIndex (tokens st) + 1) = true ->
      isUpperCaseLetter c = false ->
      processTagIntro (S fuel) st
      = Some (Normal (onTokens (replaceToken (String squote (value t ++ str squote))) st)))
  /\ Samples.output (processJSXTag (collab := PlainRoot.collaborators) 6 Samples.underscoreTag)
     = Some (Normal
         "React.createElement('_Foo', {__self: this, __source: {fileName: _jsxFileName, lineNumber: 1}})").
Proof.
  split; [|split; [|split; [|split]]].
  - intros c rest H. now rewrite startsWithLowerCase_head, H.
  - intros c rest H. now rewrite startsWithLowerCase_head, H.
  - intros c [H | [-> | ->]]; [|reflexivity|reflexivity].
    destruct c as [[] [] [] [] [] [] [] []]; (reflexivity || discriminate).
  - intros fuel st t c rest Ht Hv Hend Hup.
    rewrite (processTagIntro_single fuel st t true Ht Hend); [reflexivity|].
    now rewrite Hv, startsWithLowerCase_head, Hup.
  - vm_compute. reflexivity.
Qed.

Lemma C10_non_upper_case_names_quoted_witness :
  processTagIntro (collab := PlainRoot.collaborators) 3
    (Samples.at_token 1 Samples.underscoreTag)
  = Some (Normal (onTokens
                    (replaceToken (collab := PlainRoot.collaborators)
                       (String squote ("_Foo" ++ str squote)))
                    (Samples.at_token 1 Samples.underscoreTag))).
Proof.
  refine (proj1 (proj2 (proj2 (proj2
            (C10_non_upper_case_names_quoted PlainRoot.collaborators))))
            2 (Samples.at_token 1 Samples.underscoreTag)
            (Samples.tok tt.jsxName "_Foo" 1 4) underscore "Foo" _ _ _ _);
    reflexivity.
Defined.

(* ================================================================= *)
(** ** The statements at work on the sample streams *)

Lemma C9_getLineNumberForIndex_counts_witness :
  queryLines [1; 11; 20] Samples.childrenTag
  = map (lineOf (code (tokens Samples.childrenTag))) [1; 11; 20].
Proof.
  refine (proj1 (C9_getLineNumberForIndex_counts [1; 11; 20] Samples.childrenTag _ _)).
  - reflexivity.
  - cbn. lia.
Defined.

Lemma C2_processProps_object_witness :
  exists st',
    processProps (collab := PlainRoot.collaborators) 12 0
      (Samples.at_token 2 Samples.attributesTag) = Some (Normal st')
    /\ exists attrs,
         resultCode (tokens st')
         = ", {" ++ attrs
           ++ "__self: this, __source: {fileName: _jsxFileName, lineNumber: 1}" ++ "}".
Proof.
  eexists. split; [vm_compute; reflexivity|].
  refine (proj1 (proj2 (C2_processProps_object (collab := PlainRoot.collaborators) 12 0
            (Samples.at_token 2 Samples.attributesTag) plainRoot_wellBehaved)) _ _).
  vm_compute. reflexivity.
Defined.

Lemma C5_processTagIntro_quotes_lower_case_witness :
  (exists st',
      processTagIntro (collab := PlainRoot.collaborators) 3
        (Samples.at_token 1 Samples.emptyTag) = Some (Normal st')
      /\ resultCode (tokens st') = "'a'"
      /\ tokenIndex (tokens st') = 2)
  /\ Samples.output
       (processTagIntro (collab := PlainRoot.collaborators) 3
          (Samples.at_token 1 Samples.attributesTag))
     = Some (Normal "Foo")
  /\ Samples.output
       (processTagIntro (collab := PlainRoot.collaborators) 5
          (Samples.at_token 1 Samples.dottedTag))
     = Some (Normal "Foo.Bar").
Proof.
  split; [|split].
  - refine (proj1 (C5_processTagIntro_quotes_lower_case (collab := PlainRoot.collaborators)
              2 (Samples.at_token 1 Samples.emptyTag)
              (Samples.tok tt.jsxName "a" 1 1) "a"%char EmptyString _ _) _ _);
      reflexivity.
  - rewrite (proj1 (proj2 (C5_processTagIntro_quotes_lower_case
              (collab := PlainRoot.collaborators)
              2 (Samples.at_token 1 Samples.attributesTag)
              (Samples.tok tt.jsxName "Foo" 1 3) "F"%char "oo" eq_refl eq_refl))
              eq_refl eq_refl).
    reflexivity.
  - rewrite (proj1 (proj2 (proj2 (C5_processTagIntro_quotes_lower_case
              (collab := PlainRoot.collaborators)
              5 (Samples.at_token 1 Samples.dottedTag)
              (Samples.tok tt.jsxName "Foo" 1 3) "F"%char "oo" eq_refl eq_refl))
              eq_refl)).
    reflexivity.
Defined.

Lemma C6_processProps_attribute_keys_witness :
  (exists st1,
      resultCode (tokens st1) = " 'data-x'" /\ tokenIndex (tokens st1) = 3)
  /\ (exists st1,
      resultCode (tokens st1) = " bar" /\ tokenIndex (tokens st1) = 6)
  /\ (exists st',
      processProps_loop (collab := PlainRoot.collaborators) 3
        (Samples.at_token 8 Samples.attributesTag)
      = processProps_loop (collab := PlainRoot.collaborators) 2 st'
      /\ resultCode (tokens st') = " baz: true,"
      /\ tokenIndex (tokens st') = 9).
Proof.
  split; [|split].
  - destruct (proj1 (C6_processProps_attribute_keys (collab := PlainRoot.collaborators)
                2 (Samples.at_token 2 Samples.attributesTag)
                (Samples.tok tt.jsxName "data-x" 5 6) eq_refl) eq_refl)
      as (st1 & _ & Hquoted & _ & Hindex & _).
    exists st1. split; [exact (Hquoted eq_refl) | exact Hindex].
  - destruct (proj1 (C6_processProps_attribute_keys (collab := PlainRoot.collaborators)
                2 (Samples.at_token 5 Samples.attributesTag)
                (Samples.tok tt.jsxName "bar" 18 3) eq_refl) eq_refl)
      as (st1 & _ & _ & Hbare & Hindex & _).
    exists st1. split; [exact (Hbare eq_refl) | exact Hindex].
  - refine (proj2 (C6_processProps_attribute_keys (collab := PlainRoot.collaborators)
              2 (Samples.at_token 8 Samples.attributesTag)
              (Samples.tok tt.jsxName "baz" 26 3) _) _ _);
      reflexivity.
Defined.

Lemma C7_processChildren_interpolation_witness :
  (exists st',
      processChildren (collab := PlainRoot.collaborators) 9
        (Samples.at_token 3 Samples.childrenTag)
      = processChildren (collab := PlainRoot.collaborators) 8 st'
      /\ st' = onTokens (replaceToken (collab := PlainRoot.collaborators) EmptyString)
                 (onTokens (replaceToken (collab := PlainRoot.collaborators) EmptyString)
                    (Samples.at_token 3 Samples.childrenTag))
      /\ tokenIndex (tokens st') = 5
      /\ resultCode (tokens st') = EmptyString)
  /\ (exists st1,
      resultCode (tokens st1) = ", " /\ tokenIndex (tokens st1) = 6).
Proof.
  split.
  - refine (proj1 (C7_processChildren_interpolation (collab := PlainRoot.collaborators)
              8 (Samples.at_token 3 Samples.childrenTag)) _).
    reflexivity.
  - destruct (proj2 (C7_processChildren_interpolation (collab := PlainRoot.collaborators)
                8 (Samples.at_token 5 Samples.childrenTag)) eq_refl eq_refl)
      as (st1 & Hout & Hindex & _).
    exists st1. split; [exact Hout | exact Hindex].
Defined.

(* ================================================================= *)
(** ** Whole tags, start to end *)

Example dottedTag_output :
  Samples.output (processJSXTag (collab := PlainRoot.collaborators) 8 Samples.dottedTag)
  = Some (Normal
      "React.createElement(Foo.Bar, { baz: true, __self: this, __source: {fileName: _jsxFileName, lineNumber: 1}})").
Proof. vm_compute. reflexivity. Qed.

Example nestedTag_output :
  Samples.output (processJSXTag (collab := PlainRoot.collaborators) 12 Samples.nestedTag)
  = Some (Normal
      ("React.createElement('a', {__self: this, __source: {fileName: _jsxFileName, lineNumber: 1}}, "
       ++ "React.createElement('b', {__self: this, __source: {fileName: _jsxFileName, lineNumber: 1}}, "
       ++ "React.createElement('c', {__self: this, __source: {fileName: _jsxFileName, lineNumber: 1}})))")).
Proof. vm_compute. reflexivity. Qed.

Example childrenTag_output :
  Samples.output (processJSXTag (collab := PlainRoot.collaborators) 12 Samples.childrenTag)
  = Some (Normal
      (String nl
         ("React.createElement('div', {__self: this, __source: {fileName: _jsxFileName, lineNumber: 2}}, x, "
          ++ "React.createElement(a.b, {__self: this, __source: {fileName: _jsxFileName, lineNumber: 2}})"
          ++ String nl " )"))).
Proof. vm_compute. reflexivity. Qed.

Example unterminatedTag_raises :
  processJSXTag (collab := PlainRoot.collaborators) 8 Samples.unterminatedTag
  = Some (Throw ExpectedTagEnd).
Proof. vm_compute. reflexivity. Qed.

Example unclosedTag_raises :
  processJSXTag (collab := PlainRoot.collaborators) 8 Samples.unclosedTag
  = Some (Throw UnexpectedChild).
Proof. vm_compute. reflexivity. Qed.

Example prefixCode_after_first_element :
  option_map
    (fun c => match c with Normal s => getPrefixCode s | Throw _ => EmptyString end)
    (processJSXTag (collab := PlainRoot.collaborators) 8 Samples.emptyTag)
  = Some ("const _jsxFileName = " ++ String dquote (String dquote ";")).
Proof. vm_compute. reflexivity. Qed.

(* ================================================================= *)
(** * Further properties of the code *)

(* ================================================================= *)
(** ** formatJSXTextLiteral: lines trimmed and joined *)

Lemma trimEnd_cons_kept (c : ascii) (rest : string) :
  isSpaceOrTab c = false -> trimEnd (String c rest) = String c (trimEnd rest).
Proof. intros H. cbn [trimEnd]. rewrite H. destruct (trimEnd rest); reflexivity. Qed.

Lemma trimEnd_cons_blank (c : ascii) (rest : string) :
  isSpaceOrTab c = true ->
  trimEnd (String c rest)
  = if nonEmpty (trimEnd rest) then String c (trimEnd rest) else EmptyString.
Proof. intros H. cbn [trimEnd]. rewrite H. destruct (trimEnd rest); reflexivity. Qed.

Lemma textLiteral_body_newline (s : TextLiteralState) :
  formatJSXTextLiteral_body s nl
  = mkTextLiteralState (result s) EmptyString true (seenNonWhitespace s).
Proof. reflexivity. Qed.

Lemma textLiteral_body_blank (s : TextLiteralState) (c : ascii) :
  isSpaceOrTab c = true ->
  formatJSXTextLiteral_body s c
  = if negb (isInInitialLineWhitespace s)
    then mkTextLiteralState (result s) (whitespace s ++ str c)
           (isInInitialLineWhitespace s) (seenNonWhitespace s)
    else s.
Proof. unfold formatJSXTextLiteral_body, isSpaceOrTab. intros ->. reflexivity. Qed.

Lemma textLiteral_body_kept (s : TextLiteralState) (c : ascii) :
  isSpaceOrTab c = false -> Ascii.eqb c nl = false ->
  formatJSXTextLiteral_body s c
  = mkTextLiteralState
      (((if seenNonWhitespace s && isInInitialLineWhitespace s
         then result s ++ str sp else result s) ++ whitespace s) ++ str c)
      EmptyString false true.
Proof. unfold formatJSXTextLiteral_body, isSpaceOrTab. intros -> ->. reflexivity. Qed.

(** Inside a line, past its leading blanks: what is in [result] at its end. *)
Lemma textLiteral_line_result (l : string) :
  countChar nl l = 0 ->
  forall r w seen,
    result (forOf formatJSXTextLiteral_body l (mkTextLiteralState r w false seen))
    = (if nonEmpty (trimEnd l) then (r ++ w) ++ trimEnd l else r)
    /\ seenNonWhitespace
         (forOf formatJSXTextLiteral_body l (mkTextLiteralState r w false seen))
       = seen || nonEmpty (trimEnd l).
Proof.
  induction l as [|c l IH]; intros Hnl r w seen.
  - cbn. now rewrite orb_false_r.
  - simpl in Hnl. destruct (Ascii.eqb c nl) eqn:Ecnl; [discriminate|]. simpl in Hnl.
    cbn [forOf]. destruct (isSpaceOrTab c) eqn:Eblank.
    + rewrite (textLiteral_body_blank _ c Eblank). cbn [isInInitialLineWhitespace negb
        result whitespace seenNonWhitespace].
      destruct (IH Hnl r (w ++ str c) seen) as [H1 H2]. rewrite H1, H2.
      rewrite (trimEnd_cons_blank c l Eblank).
      destruct (nonEmpty (trimEnd l)); cbn [nonEmpty]; split; try reflexivity.
      unfold str. rewrite !append_assoc. reflexivity.
    + rewrite (textLiteral_body_kept _ c Eblank Ecnl). cbn [isInInitialLineWhitespace
        result whitespace seenNonWhitespace]. rewrite andb_false_r.
      destruct (IH Hnl ((r ++ w) ++ str c) EmptyString true) as [H1 H2]. rewrite H1, H2.
      rewrite (trimEnd_cons_kept c l Eblank). cbn [nonEmpty]. rewrite orb_true_r.
      split; [|reflexivity].
      destruct (nonEmpty (trimEnd l)) eqn:E.
      * unfold str. rewrite append_nil_r, !append_assoc. reflexivity.
      * destruct (trimEnd l); [|discriminate]. reflexivity.
Qed.

(** A line after a newline: its leading blanks are skipped; if anything is
    left, a joining space goes in front of it when text came before. *)
Lemma textLiteral_later_line (l : string) :
  countChar nl l = 0 ->
  forall r seen,
    let s' := forOf formatJSXTextLiteral_body l (mkTextLiteralState r EmptyString true seen) in
    if nonEmpty (trimStart l)
    then isInInitialLineWhitespace s' = false
         /\ seenNonWhitespace s' = true
         /\ result s' = (if seen then r ++ str sp else r) ++ trimEnd (trimStart l)
         /\ result s' ++ whitespace s' = (if seen then r ++ str sp else r) ++ trimStart l
         /\ nonEmpty (trimEnd (trimStart l)) = true
    else s' = mkTextLiteralState r EmptyString true seen.
Proof.
  induction l as [|c l IH]; intros Hnl r seen; [reflexivity|].
  simpl in Hnl. destruct (Ascii.eqb c nl) eqn:Ecnl; [discriminate|]. simpl in Hnl.
  cbn [forOf trimStart]. destruct (isSpaceOrTab c) eqn:Eblank.
  - rewrite (textLiteral_body_blank _ c Eblank). cbn [isInInitialLineWhitespace negb].
    apply (IH Hnl).
  - cbn [nonEmpty]. rewrite (textLiteral_body_kept _ c Eblank Ecnl).
    cbn [isInInitialLineWhitespace result whitespace seenNonWhitespace].
    rewrite andb_true_r, append_nil_r.
    set (front := if seen then r ++ str sp else r).
    destruct (textLiteral_line_result l Hnl (front ++ str c) EmptyString true) as [H1 H2].
    destruct (textLiteral_single_line l (front ++ str c) EmptyString true Hnl) as [H3 H4].
    rewrite (trimEnd_cons_kept c l Eblank). cbn [nonEmpty].
    split; [exact H3|]. split; [now rewrite H2|]. split; [|split; [|reflexivity]].
    + rewrite H1. destruct (nonEmpty (trimEnd l)) eqn:E.
      * unfold str. rewrite append_nil_r, !append_assoc. reflexivity.
      * destruct (trimEnd l); [|discriminate]. reflexivity.
    + rewrite H4. unfold str. rewrite append_nil_r, !append_assoc. reflexivity.
Qed.

Lemma concat_filter_merge (r x : string) (items : list string) :
  nonEmpty x = true ->
  String.concat " " (filter nonEmpty (((if nonEmpty r then r ++ str sp else r) ++ x) :: items))
  = String.concat " " (filter nonEmpty (r :: x :: items)).
Proof.
  intros Hx. cbn [filter]. rewrite Hx.
  assert (Hhead : nonEmpty ((if nonEmpty r then r ++ str sp else r) ++ x) = true).
  { destruct r; cbn; [exact Hx | reflexivity]. }
  rewrite Hhead. destruct r as [|a r]; cbn [nonEmpty]; [reflexivity|].
  destruct (filter nonEmpty items) as [|y ys].
  - cbn [String.concat]. destruct x; [discriminate|].
    unfold str. rewrite !append_assoc. reflexivity.
  - change (String.concat " " (String a r :: x :: y :: ys))
      with (String a r ++ " " ++ (x ++ " " ++ String.concat " " (y :: ys))).
    change (String.concat " " (((String a r ++ str sp) ++ x) :: y :: ys))
      with (((String a r ++ str sp) ++ x) ++ " " ++ String.concat " " (y :: ys)).
    unfold str. rewrite !append_assoc. reflexivity.
Qed.

Lemma nonEmpty_true_iff (s : string) : nonEmpty s = false -> s = EmptyString.
Proof. destruct s; [reflexivity | discriminate]. Qed.

(** The lines after the first, from the state a newline leaves. *)
Lemma textLiteral_later_lines (ls : list string) :
  ls <> [] ->
  Forall (fun l => countChar nl l = 0) ls ->
  forall r,
    textLiteralFinish
      (forOf formatJSXTextLiteral_body (joinNewline ls)
         (mkTextLiteralState r EmptyString true (nonEmpty r)))
    = String.concat " " (filter nonEmpty (r :: trimLaterLines ls)).
Proof.
  induction ls as [|l rest IH]; intros Hne Hall r; [congruence|].
  inversion Hall as [|? ? Hl Hrest]; subst.
  pose proof (textLiteral_later_line l Hl r (nonEmpty r)) as Hline. cbn zeta in Hline.
  destruct rest as [|l2 rest].
  - cbn [joinNewline trimLaterLines].
    destruct (nonEmpty (trimStart l)) eqn:E.
    + destruct Hline as (H1 & _ & _ & H4 & _).
      unfold textLiteralFinish. rewrite H1. cbn [negb]. rewrite H4.
      cbn [filter]. rewrite E.
      destruct r as [|a r]; cbn [nonEmpty String.concat]; [|].
      * destruct (trimStart l); [discriminate | reflexivity].
      * destruct (trimStart l) eqn:Et; [discriminate|].
        unfold str. rewrite !append_assoc. reflexivity.
    + rewrite Hline. unfold textLiteralFinish. cbn [isInInitialLineWhitespace negb result].
      cbn [filter]. rewrite E. destruct r; reflexivity.
  - change (joinNewline (l :: l2 :: rest)) with (l ++ String nl (joinNewline (l2 :: rest))).
    change (trimLaterLines (l :: l2 :: rest))
      with (trimEnd (trimStart l) :: trimLaterLines (l2 :: rest)).
    rewrite forOf_app. cbn [forOf]. rewrite textLiteral_body_newline.
    destruct (nonEmpty (trimStart l)) eqn:E.
    + destruct Hline as (_ & H2 & H3 & _ & H5).
      rewrite H2, H3.
      pose proof (IH ltac:(discriminate) Hrest
                    ((if nonEmpty r then r ++ str sp else r) ++ trimEnd (trimStart l)))
        as Hlater.
      assert (Hfull : nonEmpty ((if nonEmpty r then r ++ str sp else r)
                                ++ trimEnd (trimStart l)) = true)
        by (destruct r; cbn; [exact H5 | reflexivity]).
      rewrite Hfull in Hlater. rewrite Hlater.
      apply concat_filter_merge. exact H5.
    + rewrite Hline. cbn [result seenNonWhitespace].
      rewrite (IH ltac:(discriminate) Hrest).
      apply nonEmpty_true_iff in E. rewrite E. cbn [trimEnd].
      cbn [filter nonEmpty]. destruct (nonEmpty r); reflexivity.
Qed.

Lemma splitLines_spec (text : string) :
  splitLines text <> []
  /\ Forall (fun l => countChar nl l = 0) (splitLines text)
  /\ joinNewline (splitLines text) = text.
Proof.
  induction text as [|c text IH].
  - cbn. repeat split; [discriminate | repeat constructor].
  - destruct IH as (Hne & Hall & Hjoin). cbn [splitLines]. destruct (Ascii.eqb c nl) eqn:Ecnl.
    + apply Ascii.eqb_eq in Ecnl. subst c. split; [discriminate|]. split.
      * constructor; [reflexivity | exact Hall].
      * destruct (splitLines text) as [|l ls] eqn:E; [congruence|].
        change (joinNewline (EmptyString :: l :: ls))
          with (EmptyString ++ String nl (joinNewline (l :: ls))).
        rewrite Hjoin. reflexivity.
    + destruct (splitLines text) as [|l ls] eqn:E; [congruence|].
      split; [discriminate|]. inversion Hall as [|? ? Hl Hls]; subst. split.
      * constructor; [|exact Hls]. simpl. rewrite Ecnl. exact Hl.
      * destruct ls as [|l2 ls]; reflexivity.
Qed.

(** X1: [formatJSXTextLiteral] does what its comment says.  The text is cut
    at its newlines; spaces and tabs are taken off the end of every line
    but the last and off the start of every line but the first; lines left
    empty are dropped and the others joined by one space; the result is
    JSON-quoted. *)
Theorem X1_formatJSXTextLiteral_lines (text : string) :
  formatJSXTextLiteral_content text = joinedLines text
  /\ formatJSXTextLiteral text
     = JSON.stringify
         (String.concat " " (filter nonEmpty (trimLines (splitLines text)))).
Proof.
  assert (Hcontent : formatJSXTextLiteral_content text = joinedLines text).
  { destruct (splitLines_spec text) as (Hne & Hall & Hjoin).
    unfold joinedLines.
    change (formatJSXTextLiteral_content text)
      with (textLiteralFinish (forOf formatJSXTextLiteral_body text
              (mkTextLiteralState EmptyString EmptyString false false))).
    rewrite <- Hjoin at 1.
    destruct (splitLines text) as [|l [|l2 rest]]; [congruence| |].
    - inversion Hall as [|? ? Hl _]; subst. cbn [joinNewline trimLines filter].
      destruct (textLiteral_single_line l EmptyString EmptyString false Hl) as [H1 H2].
      unfold textLiteralFinish. rewrite H1. cbn [negb]. rewrite H2.
      destruct l; reflexivity.
    - inversion Hall as [|? ? Hl Hrest]; subst.
      change (joinNewline (l :: l2 :: rest)) with (l ++ String nl (joinNewline (l2 :: rest))).
      rewrite forOf_app. cbn [forOf]. rewrite textLiteral_body_newline.
      destruct (textLiteral_line_result l Hl EmptyString EmptyString false) as [H1 H2].
      rewrite H1, H2. cbn [orb append].
      assert (Hr : (if nonEmpty (trimEnd l) then trimEnd l else EmptyString) = trimEnd l).
      { destruct (trimEnd l); reflexivity. }
      rewrite Hr.
      rewrite (textLiteral_later_lines (l2 :: rest) ltac:(discriminate) Hrest).
      reflexivity. }
  split; [exact Hcontent|]. unfold formatJSXTextLiteral. now rewrite Hcontent.
Qed.

(* ================================================================= *)
(** ** formatJSXTextLiteral: no newline, and when it is empty *)

Lemma countChar_nl_blank (c : ascii) : isSpaceOrTab c = true -> Ascii.eqb c nl = false.
Proof.
  unfold isSpaceOrTab. intros H. apply orb_true_iff in H as [H|H];
    apply Ascii.eqb_eq in H; subst c; reflexivity.
Qed.

Lemma textLiteral_no_newline (text : string) :
  forall s,
    countChar nl (result s) = 0 -> countChar nl (whitespace s) = 0 ->
    countChar nl (result (forOf formatJSXTextLiteral_body text s)) = 0
    /\ countChar nl (whitespace (forOf formatJSXTextLiteral_body text s)) = 0.
Proof.
  induction text as [|c text IH]; intros s Hr Hw; [auto|].
  cbn [forOf]. apply IH.
  - unfold formatJSXTextLiteral_body.
    destruct (Ascii.eqb c sp || Ascii.eqb c tab);
      [destruct (negb (isInInitialLineWhitespace s)); exact Hr|].
    destruct (Ascii.eqb c nl) eqn:Ecnl; [exact Hr|].
    cbn [result]. rewrite !countChar_app, Hw.
    assert (Hc : countChar nl (str c) = 0) by (unfold str; cbn [countChar]; now rewrite Ecnl).
    rewrite Hc.
    destruct (seenNonWhitespace s && isInInitialLineWhitespace s);
      [rewrite countChar_app|]; rewrite Hr; reflexivity.
  - unfold formatJSXTextLiteral_body.
    destruct (Ascii.eqb c sp || Ascii.eqb c tab) eqn:Eblank.
    + destruct (negb (isInInitialLineWhitespace s)); [|exact Hw].
      cbn [whitespace]. rewrite countChar_app, Hw. unfold str. cbn [countChar].
      rewrite (countChar_nl_blank c Eblank). reflexivity.
    + destruct (Ascii.eqb c nl); reflexivity.
Qed.

(** X2: the content [formatJSXTextLiteral] quotes never holds a newline,
    whatever the text: every line break of the source is dropped or turned
    into a space. *)
Theorem X2_formatJSXTextLiteral_no_newline (text : string) :
  countChar nl (formatJSXTextLiteral_content text) = 0.
Proof.
  unfold formatJSXTextLiteral_content. cbv zeta.
  destruct (textLiteral_no_newline text
              (mkTextLiteralState EmptyString EmptyString false false)
              eq_refl eq_refl) as [Hr Hw].
  destruct (negb _); [rewrite countChar_app, Hr, Hw; reflexivity | exact Hr].
Qed.

Lemma escapeChar_nonEmpty (c : ascii) : nonEmpty (JSON.escapeChar c) = true.
Proof. destruct c as [[] [] [] [] [] [] [] []]; reflexivity. Qed.

Lemma escapeChar_no_newline (c : ascii) : countChar nl (JSON.escapeChar c) = 0.
Proof. destruct c as [[] [] [] [] [] [] [] []]; reflexivity. Qed.

Lemma stringify_no_newline (s : string) : countChar nl (JSON.stringify s) = 0.
Proof.
  unfold JSON.stringify. cbn [countChar]. change (Ascii.eqb dquote nl) with false.
  rewrite countChar_app. cbn.
  induction s as [|c s IH]; [reflexivity|].
  cbn [JSON.escape]. rewrite countChar_app, escapeChar_no_newline. exact IH.
Qed.

Lemma stringify_empty (s : string) :
  String.eqb (JSON.stringify s) emptyLiteral = negb (nonEmpty s).
Proof.
  destruct s as [|c s]; [reflexivity|].
  unfold JSON.stringify, emptyLiteral. cbn [JSON.escape nonEmpty negb].
  pose proof (escapeChar_nonEmpty c) as Hc.
  destruct (JSON.escapeChar c) as [|a e]; [discriminate|].
  unfold str. cbn [append String.eqb].
  change (Ascii.eqb dquote dquote) with true. cbv iota.
  destruct (Ascii.eqb a dquote); [|reflexivity].
  destruct ((e ++ JSON.escape s) ++ String dquote EmptyString) eqn:E; [|reflexivity].
  exfalso. destruct (e ++ JSON.escape s); discriminate.
Qed.

(** Once a character other than space, tab and newline is read, [result]
    is not empty any more. *)
Lemma textLiteral_seen (text : string) :
  forall s,
    (seenNonWhitespace s = true -> nonEmpty (result s) = true) ->
    let s' := forOf formatJSXTextLiteral_body text s in
    (seenNonWhitespace s' = true -> nonEmpty (result s') = true)
    /\ seenNonWhitespace s' = seenNonWhitespace s || negb (allBlank text)
    /\ (allBlank text = true ->
        result s' = result s
        /\ isInInitialLineWhitespace s'
           = isInInitialLineWhitespace s || (0 <? countChar nl text)).
Proof.
  induction text as [|c text IH]; intros s Hs; cbn zeta.
  - cbn. rewrite !orb_false_r. auto.
  - cbn [forOf allBlank countChar].
    destruct (isSpaceOrTab c) eqn:Eblank.
    + pose proof (countChar_nl_blank c Eblank) as Ecnl. rewrite Ecnl. cbn [orb andb plus].
      rewrite (textLiteral_body_blank s c Eblank).
      destruct (isInInitialLineWhitespace s) eqn:Einit; cbn [negb].
      * specialize (IH s Hs). cbn zeta in IH. rewrite Einit in IH. exact IH.
      * specialize (IH (mkTextLiteralState (result s) (whitespace s ++ str c) false
                          (seenNonWhitespace s)) Hs).
        cbn zeta in IH. cbn [result seenNonWhitespace isInInitialLineWhitespace] in IH.
        exact IH.
    + destruct (Ascii.eqb c nl) eqn:Ecnl; cbn [orb andb].
      * apply Ascii.eqb_eq in Ecnl. subst c. rewrite textLiteral_body_newline.
        specialize (IH (mkTextLiteralState (result s) EmptyString true (seenNonWhitespace s)) Hs).
        cbn zeta in IH. cbn [result seenNonWhitespace isInInitialLineWhitespace] in IH.
        destruct IH as (I1 & I2 & I3). split; [exact I1|]. split; [exact I2|].
        intros Hb. destruct (I3 Hb) as [J1 J2]. split; [exact J1|].
        rewrite J2. cbn. now rewrite orb_true_r.
      * rewrite (textLiteral_body_kept s c Eblank Ecnl).
        match goal with |- context [forOf _ text ?s0] => specialize (IH s0) end.
        cbn zeta in IH. cbn [result seenNonWhitespace isInInitialLineWhitespace] in IH.
        destruct IH as (I1 & I2 & _).
        { intros _. destruct (_ ++ whitespace s); reflexivity. }
        split; [exact I1|]. split; [|discriminate].
        rewrite I2. cbn. now rewrite orb_true_r.
Qed.

(** X3: the literal is the empty literal exactly for a text of nothing but
    spaces, tabs and newlines that is empty or holds a newline.  A JSX text
    token becomes an argument [, literal] of the call unless its text is of
    that kind, when only the newlines and spaces of
    [formatJSXTextReplacement] are written. *)
Theorem X3_blank_text_is_no_argument {collab : Collaborators} (text : string) :
  String.eqb (formatJSXTextLiteral text) emptyLiteral
  = allBlank text && (negb (nonEmpty text) || (0 <? countChar nl text))
  /\ forall st t,
       currentToken (tokens st) = Some t -> value t = text ->
       processChildTextElement st
       = Some (Normal
           (onTokens
              (replaceToken
                 (if allBlank text && (negb (nonEmpty text) || (0 <? countChar nl text))
                  then formatJSXTextReplacement text
                  else ", " ++ formatJSXTextLiteral text ++ formatJSXTextReplacement text))
              st)).
Proof.
  assert (Hempty : String.eqb (formatJSXTextLiteral text) emptyLiteral
                   = allBlank text && (negb (nonEmpty text) || (0 <? countChar nl text))).
  { unfold formatJSXTextLiteral. rewrite stringify_empty.
    unfold formatJSXTextLiteral_content. cbv zeta.
    pose proof (textLiteral_seen text
                  (mkTextLiteralState EmptyString EmptyString false false)) as H.
    cbn zeta in H. cbn [seenNonWhitespace result isInInitialLineWhitespace orb] in H.
    destruct H as (H1 & H2 & H3); [discriminate|].
    destruct (allBlank text) eqn:Eblank; cbn [andb negb] in *.
    - destruct (H3 eq_refl) as [Hr Hi]. rewrite Hi, Hr.
      destruct (0 <? countChar nl text) eqn:Enl; cbn [negb].
      + now rewrite orb_true_r.
      + rewrite orb_false_r. cbn [append].
        apply Nat.ltb_ge in Enl.
        destruct (textLiteral_single_line text EmptyString EmptyString false
                    ltac:(lia)) as [_ Hw].
        rewrite Hr in Hw. cbn [append] in Hw. now rewrite Hw.
    - specialize (H1 H2).
      destruct (result _) as [|a r]; [discriminate|].
      destruct (isInInitialLineWhitespace _); reflexivity. }
  split; [exact Hempty|].
  intros st t Ht Hv. unfold processChildTextElement. rewrite Ht. cbn [deref ret bind].
  rewrite Hv, Hempty.
  destruct (allBlank text && (negb (nonEmpty text) || (0 <? countChar nl text)));
    reflexivity.
Qed.

Lemma X3_blank_text_is_no_argument_witness :
  processChildTextElement (collab := PlainRoot.collaborators)
    (Samples.at_token 3 Samples.whitespaceTag)
  = Some (Normal
      (onTokens (replaceToken (collab := PlainRoot.collaborators) (String nl " "))
         (Samples.at_token 3 Samples.whitespaceTag))).
Proof.
  exact (proj2 (X3_blank_text_is_no_argument (collab := PlainRoot.collaborators)
                  (" " ++ String nl " "))
           (Samples.at_token 3 Samples.whitespaceTag)
           (Samples.tok tt.jsxText (" " ++ String nl " ") 3 3) eq_refl eq_refl).
Defined.

(* ================================================================= *)
(** ** Line breaks are kept where text is rewritten *)

Lemma textReplacement_newlines (text : string) :
  countChar nl (formatJSXTextReplacement text) = countChar nl text.
Proof.
  unfold formatJSXTextReplacement. rewrite textReplacement_counters.
  rewrite countChar_app, countChar_repeat_same.
  rewrite countChar_repeat_other by reflexivity. cbn. lia.
Qed.

(** X4: the code written in place of a JSX text token or of a string
    attribute value has exactly as many newlines as the token's text, so the
    lines after it keep their numbers. *)
Theorem X4_rewritten_text_keeps_line_breaks {collab : Collaborators}
    (st : JSXTransformer) (t : Token) :
  currentToken (tokens st) = Some t ->
  (exists emitted,
      processChildTextElement st = Some (Normal (onTokens (replaceToken emitted) st))
      /\ countChar nl emitted = countChar nl (value t))
  /\ (exists emitted,
      processStringPropValue st = Some (Normal (onTokens (replaceToken emitted) st))
      /\ countChar nl emitted = countChar nl (value t)).
Proof.
  intros Ht. pose proof (textReplacement_newlines (value t)) as Hnl.
  split.
  - unfold processChildTextElement. rewrite Ht. cbn [deref ret bind].
    destruct (String.eqb _ _); eexists; (split; [reflexivity|]).
    + exact Hnl.
    + rewrite !countChar_app. unfold formatJSXTextLiteral.
      rewrite stringify_no_newline, Hnl. reflexivity.
  - unfold processStringPropValue. rewrite Ht. cbn [deref ret bind].
    eexists. split; [reflexivity|].
    rewrite countChar_app. unfold formatJSXStringValueLiteral.
    rewrite stringify_no_newline, Hnl. reflexivity.
Qed.

Lemma X4_rewritten_text_keeps_line_breaks_witness :
  (exists emitted,
      processChildTextElement (collab := PlainRoot.collaborators)
        (Samples.at_token 14 Samples.childrenTag)
      = Some (Normal (onTokens (replaceToken (collab := PlainRoot.collaborators) emitted)
                        (Samples.at_token 14 Samples.childrenTag)))
      /\ countChar nl emitted = 1)
  /\ (exists emitted,
      processStringPropValue (collab := PlainRoot.collaborators)
        (Samples.at_token 14 Samples.childrenTag)
      = Some (Normal (onTokens (replaceToken (collab := PlainRoot.collaborators) emitted)
                        (Samples.at_token 14 Samples.childrenTag)))
      /\ countChar nl emitted = 1).
Proof.
  exact (X4_rewritten_text_keeps_line_breaks (collab := PlainRoot.collaborators)
           (Samples.at_token 14 Samples.childrenTag)
           (Samples.tok tt.jsxText (" " ++ String nl " ") 17 3) eq_refl).
Defined.

(* ================================================================= *)
(** ** formatJSXStringValueLiteral: nothing left to replace *)

Lemma replaceNewlineRuns_head (text : string) :
  headIsWhitespace (replaceNewlineRuns false text) = headIsWhitespace text.
Proof.
  destruct text as [|c rest]; [reflexivity|]. cbn [replaceNewlineRuns andb].
  destruct (Ascii.eqb c nl && headIsWhitespace rest) eqn:E; [|reflexivity].
  apply andb_true_iff in E as [E _]. apply Ascii.eqb_eq in E. subst c. reflexivity.
Qed.

Lemma replaceNewlineRuns_no_run (text : string) :
  forall inRun, hasNewlineRun (replaceNewlineRuns inRun text) = false.
Proof.
  induction text as [|c rest IH]; intros inRun; [reflexivity|].
  cbn [replaceNewlineRuns].
  destruct (inRun && isWhitespace c); [apply IH|].
  destruct (Ascii.eqb c nl && headIsWhitespace rest) eqn:E; cbn [hasNewlineRun].
  - rewrite IH. reflexivity.
  - rewrite IH, replaceNewlineRuns_head, E. reflexivity.
Qed.

Lemma replaceNewlineRuns_fixed (text : string) :
  hasNewlineRun text = false -> replaceNewlineRuns false text = text.
Proof.
  induction text as [|c rest IH]; [reflexivity|].
  cbn [hasNewlineRun replaceNewlineRuns andb]. intros H.
  apply orb_false_iff in H as [H1 H2]. rewrite H1, (IH H2). reflexivity.
Qed.

Lemma replaceNewlineRuns_length (text : string) :
  forall inRun,
    String.length (replaceNewlineRuns inRun text) <= String.length text.
Proof.
  induction text as [|c rest IH]; intros inRun; [reflexivity|].
  cbn [replaceNewlineRuns].
  destruct (inRun && isWhitespace c); [specialize (IH true); simpl; lia|].
  destruct (Ascii.eqb c nl && headIsWhitespace rest); simpl;
    [specialize (IH true) | specialize (IH false)]; lia.
Qed.

(** X5: after the replacement of [formatJSXStringValueLiteral] no newline
    followed by a whitespace character is left, so that formatting its
    result again changes nothing; a value without such a run is quoted as it
    is, and the text that is quoted is never longer than the value. *)
Theorem X5_formatJSXStringValueLiteral_settled (text : string) :
  hasNewlineRun (replaceNewlineRuns false text) = false
  /\ formatJSXStringValueLiteral (replaceNewlineRuns false text)
     = formatJSXStringValueLiteral text
  /\ (hasNewlineRun text = false ->
      formatJSXStringValueLiteral text = JSON.stringify text)
  /\ String.length (replaceNewlineRuns false text) <= String.length text.
Proof.
  split; [apply replaceNewlineRuns_no_run|]. split; [|split].
  - unfold formatJSXStringValueLiteral.
    now rewrite (replaceNewlineRuns_fixed _ (replaceNewlineRuns_no_run text false)).
  - intros H. unfold formatJSXStringValueLiteral. now rewrite replaceNewlineRuns_fixed.
  - apply replaceNewlineRuns_length.
Qed.

Lemma X5_formatJSXStringValueLiteral_settled_witness :
  formatJSXStringValueLiteral ("a-b" ++ String nl "c") = JSON.stringify ("a-b" ++ String nl "c").
Proof.
  apply (proj1 (proj2 (proj2 (X5_formatJSXStringValueLiteral_settled
                                ("a-b" ++ String nl "c"))))).
  reflexivity.
Defined.

(* ================================================================= *)
(** ** getFilenameVarName and getPrefixCode *)

Section FileNameFacts.

Context {collab : Collaborators}.

Lemma getFilenameVarName_frame (st : JSXTransformer) :
  tokens (snd (getFilenameVarName st)) = tokens st
  /\ filePath (snd (getFilenameVarName st)) = filePath st
  /\ lastLineNumber (snd (getFilenameVarName st)) = lastLineNumber st
  /\ lastIndex (snd (getFilenameVarName st)) = lastIndex st.
Proof.
  unfold getFilenameVarName. destruct (truthy (filenameVarName st)); [auto|].
  destruct (claimFreeName (nameManager st) "_jsxFileName"). auto.
Qed.

(** X6: the file-name identifier is claimed once.  When one is set,
    [getFilenameVarName] returns it and changes nothing, the name manager
    included; when none is set it claims one, and as long as that name is
    not the empty string a second call returns the same name without
    claiming again.  The token buffer, the file path and the line counter
    are never touched. *)
Theorem X6_getFilenameVarName_claims_once (st : JSXTransformer) :
  (forall v, truthy (filenameVarName st) = Some v -> getFilenameVarName st = (v, st))
  /\ (fst (getFilenameVarName st) <> EmptyString ->
      getFilenameVarName (snd (getFilenameVarName st)) = getFilenameVarName st)
  /\ (truthy (filenameVarName st) = None ->
      getFilenameVarName st
      = (fst (claimFreeName (nameManager st) "_jsxFileName"),
         mkJSXTransformer (tokens st)
           (snd (claimFreeName (nameManager st) "_jsxFileName")) (filePath st)
           (lastLineNumber st) (lastIndex st)
           (Some (fst (claimFreeName (nameManager st) "_jsxFileName")))))
  /\ tokens (snd (getFilenameVarName st)) = tokens st
  /\ filePath (snd (getFilenameVarName st)) = filePath st
  /\ lastLineNumber (snd (getFilenameVarName st)) = lastLineNumber st
  /\ lastIndex (snd (getFilenameVarName st)) = lastIndex st.
Proof.
  split; [|split; [|split]].
  - intros v Hv. unfold getFilenameVarName. now rewrite Hv.
  - unfold getFilenameVarName at 1 3 4.
    destruct (truthy (filenameVarName st)) as [v|] eqn:E.
    + intros _. cbn [snd]. unfold getFilenameVarName. now rewrite E.
    + destruct (claimFreeName (nameManager st) "_jsxFileName") as [v nm] eqn:Ec.
      cbn [fst snd]. intros Hv. unfold getFilenameVarName. cbn [filenameVarName].
      destruct v as [|a v]; [congruence|]. reflexivity.
  - intros E. unfold getFilenameVarName. rewrite E.
    destruct (claimFreeName (nameManager st) "_jsxFileName"). reflexivity.
  - apply getFilenameVarName_frame.
Qed.

(** X7: [getPrefixCode] is empty as long as no element asked for the
    file-name identifier; after [getFilenameVarName] returned a name [v] it
    is the declaration [const v = "path";] with the file path JSON-quoted,
    or the empty string quoted when there is no path.  The declaration has
    no newline of its own. *)
Theorem X7_getPrefixCode_declares_file_name (st : JSXTransformer) :
  (truthy (filenameVarName st) = None -> getPrefixCode st = EmptyString)
  /\ (fst (getFilenameVarName st) <> EmptyString ->
      getPrefixCode (snd (getFilenameVarName st))
      = "const " ++ fst (getFilenameVarName st) ++ " = "
        ++ JSON.stringify
             (match filePath st with
              | Some p => p
              | None => EmptyString
              end)
        ++ ";")
  /\ (forall v, truthy (filenameVarName st) = Some v ->
      countChar nl (getPrefixCode st) = countChar nl v).
Proof.
  split; [|split].
  - intros E. unfold getPrefixCode. now rewrite E.
  - intros Hv.
    pose proof (getFilenameVarName_stored st) as Hs.
    destruct (getFilenameVarName_frame st) as (_ & Hp & _).
    unfold getPrefixCode. rewrite Hs, Hp.
    destruct (fst (getFilenameVarName st)) as [|a v]; [congruence|]. cbn [truthy].
    destruct (filePath st) as [[|b p]|]; reflexivity.
  - intros v Hv. unfold getPrefixCode. rewrite Hv.
    rewrite !countChar_app, stringify_no_newline. cbn. lia.
Qed.

End FileNameFacts.

Lemma X6_getFilenameVarName_claims_once_witness :
  getFilenameVarName (collab := PlainRoot.collaborators)
    (snd (getFilenameVarName (collab := PlainRoot.collaborators) Samples.emptyTag))
  = getFilenameVarName (collab := PlainRoot.collaborators) Samples.emptyTag.
Proof.
  apply (proj1 (proj2 (X6_getFilenameVarName_claims_once
                         (collab := PlainRoot.collaborators) Samples.emptyTag))).
  discriminate.
Defined.

Lemma X7_getPrefixCode_declares_file_name_witness :
  getPrefixCode
    (snd (getFilenameVarName (collab := PlainRoot.collaborators) Samples.emptyTag))
  = "const _jsxFileName = " ++ JSON.stringify EmptyString ++ ";".
Proof.
  apply (proj1 (proj2 (X7_getPrefixCode_declares_file_name
                         (collab := PlainRoot.collaborators) Samples.emptyTag))).
  discriminate.
Defined.

(* ================================================================= *)
(** ** getLineNumberForIndex: going back, and never going down *)

Lemma lineLoop_monotone (fuel index : nat) :
  forall st,
    let st' := getLineNumberForIndex_loop fuel index st in
    lastLineNumber st <= lastLineNumber st'
    /\ lastIndex st <= lastIndex st'
    /\ lastIndex st' <= Nat.max (lastIndex st) (String.length (code (tokens st)))
    /\ lastIndex st' <= Nat.max (lastIndex st) index
    /\ lastLineNumber st' - lastLineNumber st <= lastIndex st' - lastIndex st.
Proof.
  induction fuel as [|fuel IH]; intros st; cbn zeta.
  - cbn. lia.
  - cbn [getLineNumberForIndex_loop].
    destruct (lastIndex st <? index) eqn:E1; cbn [andb]; [|lia].
    destruct (lastIndex st <? String.length (code (tokens st))) eqn:E2; [|lia].
    apply Nat.ltb_lt in E1, E2.
    match goal with |- context [getLineNumberForIndex_loop fuel index ?s] =>
      specialize (IH s); set (next := s) in * end.
    cbn zeta in IH.
    assert (Hn : lastIndex next = lastIndex st + 1
                 /\ lastLineNumber st <= lastLineNumber next <= lastLineNumber st + 1
                 /\ tokens next = tokens st).
    { subst next. cbn [lastIndex lastLineNumber tokens setLine].
      destruct (String.get (lastIndex st) (code (tokens st))) as [d|];
        [destruct (Ascii.eqb d nl)|]; repeat split; lia. }
    destruct Hn as (Hi & Hl & Ht). rewrite Ht in IH. lia.
Qed.

(** X8: a query at an offset that is not beyond the last one scans nothing:
    it answers the remembered line and leaves the state as it is, so that it
    tells the line of the earlier, larger offset.  Whatever the offset, the
    remembered line and offset never decrease, the offset passes neither
    the query nor the end of the text, and the line grows by at most one for
    every character scanned. *)
Theorem X8_getLineNumberForIndex_never_goes_back (index : nat) (st : JSXTransformer) :
  (index <= lastIndex st ->
   getLineNumberForIndex index st = (lastLineNumber st, st))
  /\ (lineInvariant st -> index <= lastIndex st ->
      fst (getLineNumberForIndex index st) = lineOf (code (tokens st)) (lastIndex st)
      /\ lineOf (code (tokens st)) index <= fst (getLineNumberForIndex index st))
  /\ lastLineNumber st <= fst (getLineNumberForIndex index st)
  /\ lastIndex st <= lastIndex (snd (getLineNumberForIndex index st))
  /\ lastIndex (snd (getLineNumberForIndex index st))
     <= Nat.max (lastIndex st) (Nat.min index (String.length (code (tokens st))))
  /\ fst (getLineNumberForIndex index st) - lastLineNumber st
     <= lastIndex (snd (getLineNumberForIndex index st)) - lastIndex st.
Proof.
  assert (Hstale : index <= lastIndex st ->
                   getLineNumberForIndex index st = (lastLineNumber st, st)).
  { intros H. unfold getLineNumberForIndex.
    replace (index - lastIndex st) with 0 by lia. reflexivity. }
  split; [exact Hstale|]. split.
  - intros Hinv Hle. rewrite (Hstale Hle). cbn [fst]. split; [exact Hinv|].
    rewrite Hinv. unfold lineOf. apply -> Nat.succ_le_mono.
    clear -Hle. revert index Hle. generalize (lastIndex st) as n.
    generalize (code (tokens st)) as s.
    induction s as [|c s IH]; intros n index Hle.
    + destruct n, index; cbn; lia.
    + destruct index as [|index]; [rewrite substring_0_0; cbn; lia|].
      destruct n as [|n]; [lia|].
      change (substring 0 (S index) (String c s)) with (String c (substring 0 index s)).
      change (substring 0 (S n) (String c s)) with (String c (substring 0 n s)).
      cbn [countChar]. specialize (IH n index ltac:(lia)). lia.
  - pose proof (lineLoop_monotone (index - lastIndex st) index st) as H.
    cbn zeta in H. unfold getLineNumberForIndex. cbn [fst snd]. lia.
Qed.

Lemma X8_getLineNumberForIndex_never_goes_back_witness :
  getLineNumberForIndex 3
    (snd (getLineNumberForIndex 20 Samples.childrenTag))
  = (3, snd (getLineNumberForIndex 20 Samples.childrenTag))
  /\ lineOf (code (tokens Samples.childrenTag)) 3 = 2.
Proof.
  split; [|reflexivity].
  apply (proj1 (X8_getLineNumberForIndex_never_goes_back 3
                  (snd (getLineNumberForIndex 20 Samples.childrenTag)))).
  vm_compute. lia.
Defined.

(* ================================================================= *)
(** ** processTagIntro: where the intro ends *)

Lemma findIntroEnd_first (fuel : nat) :
  forall (tp : TokenProcessor) (k e : nat),
    findIntroEnd fuel tp k = Some (Normal e) ->
    forall j, k <= j < e -> introEndsAt tp j = false.
Proof.
  induction fuel as [|fuel IH]; intros tp k e H j Hj; [discriminate|].
  cbn [findIntroEnd] in H. destruct (introEndsAt tp k) eqn:E; cbn [negb] in H.
  - injection H as <-. lia.
  - destruct (Nat.eq_dec j k) as [->|Hne]; [exact E|].
    apply (IH tp (k + 1) e H). lia.
Qed.

Lemma findIntroEnd_enough (fuel : nat) :
  forall (tp : TokenProcessor) (k e : nat),
    introEndsAt tp e = true -> k <= e -> e - k < fuel ->
    exists e', findIntroEnd fuel tp k = Some (Normal e') /\ e' <= e.
Proof.
  induction fuel as [|fuel IH]; intros tp k e He Hk Hfuel; [lia|].
  cbn [findIntroEnd]. destruct (introEndsAt tp k) eqn:E; cbn [negb].
  - exists k. split; [reflexivity | exact Hk].
  - assert (k <> e) by congruence.
    apply (IH tp (k + 1) e He); lia.
Qed.

Lemma findIntroEnd_never (fuel : nat) :
  forall (tp : TokenProcessor) (k : nat),
    (forall j, k <= j -> introEndsAt tp j = false) ->
    findIntroEnd fuel tp k = None.
Proof.
  induction fuel as [|fuel IH]; intros tp k H; [reflexivity|].
  cbn [findIntroEnd]. rewrite (H k (Nat.le_refl k)). cbn [negb].
  apply IH. intros j Hj. apply H. lia.
Qed.

Lemma introEndsAt_beyond (tp : TokenProcessor) (j : nat) :
  List.length (tokenList tp) <= j -> introEndsAt tp j = false.
Proof.
  intros H. unfold introEndsAt. cbn [matchesAtIndex]. unfold tokenAt.
  assert (Hj : nth_error (tokenList tp) j = None) by (apply nth_error_None; exact H).
  rewrite Hj. rewrite !orb_false_r.
  destruct (nth_error (tokenList tp) (j - 1)) as [t|] eqn:E; [|reflexivity].
  destruct (String.eqb (label (type t)) "jsxName"); [|reflexivity]. cbn [andb].
  assert (Hp : nth_error (tokenList tp) (S (j - 1)) = None)
    by (apply nth_error_None; lia).
  rewrite Hp. reflexivity.
Qed.

Section IntroFacts.

Context {collab : Collaborators}.

(** X9: the intro of a tag ends at the first position, from the token after
    the cursor on, where two names meet, or a brace opens, or the tag ends
    with [>] or [/>]; that position lies within the buffer, and the scan
    finds it in as many steps as it is away.  Up to there the tokens are
    handed to [processToken], one after the other. *)
Theorem X9_processTagIntro_first_end
    (fuel : nat) (st : JSXTransformer) (introEnd : nat) :
  (findIntroEnd fuel (tokens st) (currentIndex (tokens st) + 1) = Some (Normal introEnd) ->
   introEndsAt (tokens st) introEnd = true
   /\ (forall j, currentIndex (tokens st) + 1 <= j < introEnd ->
                 introEndsAt (tokens st) j = false)
   /\ currentIndex (tokens st) + 1 <= introEnd <= List.length (tokenList (tokens st)))
  /\ (introEndsAt (tokens st) introEnd = true ->
      currentIndex (tokens st) + 1 <= introEnd ->
      introEnd - currentIndex (tokens st) <= fuel ->
      exists first,
        findIntroEnd fuel (tokens st) (currentIndex (tokens st) + 1) = Some (Normal first)
        /\ first <= introEnd
        /\ (currentIndex (tokens st) + 1 < first ->
            processTagIntro fuel st = processTokensUntil fuel first st)).
Proof.
  split.
  - intros H. pose proof (findIntroEnd_found _ _ _ _ H) as (H1 & H2 & _).
    split; [exact H2|]. split; [exact (findIntroEnd_first _ _ _ _ H)|].
    split; [exact H1|].
    destruct (Nat.le_gt_cases introEnd (List.length (tokenList (tokens st))))
      as [Hle|Hgt]; [exact Hle|].
    rewrite (introEndsAt_beyond (tokens st) introEnd) in H2 by lia. discriminate.
  - intros He Hk Hfuel.
    destruct (findIntroEnd_enough fuel (tokens st) (currentIndex (tokens st) + 1)
                introEnd He Hk ltac:(lia)) as (first & Hfind & Hle).
    exists first. split; [exact Hfind|]. split; [exact Hle|].
    intros Hmulti. unfold processTagIntro. rewrite Hfind. cbn [bind].
    replace (first =? currentIndex (tokens st) + 1) with false
      by (symmetry; apply Nat.eqb_neq; lia).
    reflexivity.
Qed.

(** X10: when no position of the buffer after the cursor ends the intro,
    the first loop of [processTagIntro] never stops: it has no bound of its
    own and no test matches past the last token. *)
Theorem X10_processTagIntro_unbounded_scan (st : JSXTransformer) :
  (forall j, currentIndex (tokens st) + 1 <= j < List.length (tokenList (tokens st)) ->
             introEndsAt (tokens st) j = false) ->
  forall fuel, processTagIntro fuel st = None.
Proof.
  intros H fuel. unfold processTagIntro.
  rewrite (findIntroEnd_never fuel); [reflexivity|].
  intros j Hj.
  destruct (Nat.le_gt_cases (List.length (tokenList (tokens st))) j) as [Hout|Hin].
  - now apply introEndsAt_beyond.
  - apply H. lia.
Qed.

End IntroFacts.

Lemma X9_processTagIntro_first_end_witness :
  exists first,
    findIntroEnd 4 (tokens (Samples.at_token 1 Samples.dottedTag)) 2 = Some (Normal first)
    /\ first <= 4
    /\ (2 < first ->
        processTagIntro (collab := PlainRoot.collaborators) 4
          (Samples.at_token 1 Samples.dottedTag)
        = processTokensUntil (collab := PlainRoot.collaborators) 4 first
            (Samples.at_token 1 Samples.dottedTag)).
Proof.
  apply (proj2 (X9_processTagIntro_first_end (collab := PlainRoot.collaborators)
                  4 (Samples.at_token 1 Samples.dottedTag) 4)).
  - reflexivity.
  - vm_compute. lia.
  - vm_compute. lia.
Defined.

Lemma X10_processTagIntro_unbounded_scan_witness :
  processTagIntro (collab := PlainRoot.collaborators) 1000
    (Samples.at_token 1 Samples.cutTag) = None.
Proof.
  apply (X10_processTagIntro_unbounded_scan (collab := PlainRoot.collaborators)
           (Samples.at_token 1 Samples.cutTag)).
  intros j Hj. vm_compute in Hj.
  assert (j = 2) as -> by lia. reflexivity.
Defined.

(* ================================================================= *)
(** ** Where the cursor stands when props and children are done *)

Section CursorFacts.

Context {collab : Collaborators}.

Lemma processProps_loop_stops (fuel : nat) :
  forall s s',
    processProps_loop fuel s = Some (Normal s') ->
    matches1 (tokens s') tt.jsxName = false /\ matches1 (tokens s') tt.braceL = false.
Proof.
  induction fuel as [|fuel IH]; intros s s' H; [discriminate|].
  cbn [processProps_loop] in H.
  destruct (matches2 (tokens s) tt.jsxName tt.eq).
  - bind_inv H. bind_inv H. now apply IH in H.
  - destruct (matches1 (tokens s) tt.jsxName) eqn:E1; [now apply IH in H|].
    destruct (matches1 (tokens s) tt.braceL) eqn:E2.
    + bind_inv H. now apply IH in H.
    + injection H as <-. auto.
Qed.

(** X11: when [processProps] completes, the cursor is on a token that is
    neither a JSX name nor an opening brace: every attribute in front of it
    was consumed, and what it appended last did not move the cursor. *)
Theorem X11_processProps_consumes_attributes
    (fuel firstTokenStart : nat) (st st' : JSXTransformer) :
  processProps fuel firstTokenStart st = Some (Normal st') ->
  matches1 (tokens st') tt.jsxName = false
  /\ matches1 (tokens st') tt.braceL = false
  /\ (matches1 (tokens st) tt.jsxName = false ->
      matches1 (tokens st) tt.braceL = false ->
      tokenIndex (tokens st') = tokenIndex (tokens st)).
Proof.
  unfold processProps, getLineNumberForIndex.
  destruct (lineLoop_frame (firstTokenStart - lastIndex st) firstTokenStart st)
    as (Ft & _ & _).
  set (s1 := getLineNumberForIndex_loop _ _ _) in *.
  pose proof (getFilenameVarName_tokens s1) as Ht2.
  destruct (getFilenameVarName s1) as [v s2]. cbn [snd] in Ht2.
  rewrite Ht2, Ft.
  destruct (matches1 (tokens st) tt.jsxName) eqn:E1; cbn [negb andb].
  - intros H. bind_inv H. injection H as <-.
    apply processProps_loop_stops in Hstep.
    split; [apply Hstep|]. split; [apply Hstep | discriminate].
  - destruct (matches1 (tokens st) tt.braceL) eqn:E2; cbn [negb].
    + intros H. bind_inv H. injection H as <-.
      apply processProps_loop_stops in Hstep.
      split; [apply Hstep|]. split; [apply Hstep | discriminate].
    + intros [= <-]. unfold matches1 in *.
      cbn [onTokens tokens appendCode tokenIndex]. rewrite Ht2, Ft.
      change (matchesAtIndex (appendCode ?c (tokens st)) ?i ?l)
        with (matchesAtIndex (tokens st) i l).
      auto.
Qed.


End CursorFacts.

Lemma X11_processProps_consumes_attributes_witness :
  let st' :=
    Samples.stateOf
      (processProps (collab := PlainRoot.collaborators) 12 0
         (Samples.at_token 2 Samples.attributesTag))
      Samples.attributesTag in
  matches1 (tokens st') tt.jsxName = false
  /\ matches1 (tokens st') tt.braceL = false
  /\ (matches1 (tokens (Samples.at_token 2 Samples.attributesTag)) tt.jsxName = false ->
      matches1 (tokens (Samples.at_token 2 Samples.attributesTag)) tt.braceL = false ->
      tokenIndex (tokens st') = tokenIndex (tokens (Samples.at_token 2 Samples.attributesTag))).
Proof.
  refine (X11_processProps_consumes_attributes (collab := PlainRoot.collaborators)
            12 0 (Samples.at_token 2 Samples.attributesTag) _ _).
  vm_compute. reflexivity.
Defined.


(* ================================================================= *)
(** ** The closing tag, and the element as a whole *)

Section ElementFacts.

Context {collab : Collaborators}.

Lemma skipToTagEnd_spec (fuel : nat) :
  forall st st',
    skipToTagEnd fuel st = Some (Normal st') ->
    matches1 (tokens st') tt.jsxTagEnd = true
    /\ tokenIndex (tokens st) <= tokenIndex (tokens st')
    /\ st' = Nat.iter (tokenIndex (tokens st') - tokenIndex (tokens st))
               (onTokens (replaceToken EmptyString)) st
    /\ forall i, tokenIndex (tokens st) <= i < tokenIndex (tokens st') ->
                 matchesAtIndex (tokens st) i [label tt.jsxTagEnd] = false.
Proof.
  induction fuel as [|fuel IH]; intros st st' H; [discriminate|].
  cbn [skipToTagEnd] in H.
  destruct (matches1 (tokens st) tt.jsxTagEnd) eqn:E; cbn [negb] in H.
  - injection H as <-. split; [exact E|]. split; [lia|]. split.
    + rewrite Nat.sub_diag. reflexivity.
    + intros i Hi. lia.
  - apply IH in H as (H1 & H2 & H3 & H4).
    rewrite index_replaceToken in *.
    split; [exact H1|]. split; [lia|]. split.
    + replace (tokenIndex (tokens st') - tokenIndex (tokens st))
        with (S (tokenIndex (tokens st') - S (tokenIndex (tokens st)))) by lia.
      rewrite Nat.iter_succ_r. exact H3.
    + intros i Hi. destruct (Nat.eq_dec i (tokenIndex (tokens st))) as [->|Hne].
      * exact E.
      * apply (H4 i). lia.
Qed.

Lemma skipToTagEnd_enough (fuel : nat) :
  forall st k,
    tokenIndex (tokens st) <= k ->
    matchesAtIndex (tokens st) k [label tt.jsxTagEnd] = true ->
    k - tokenIndex (tokens st) < fuel ->
    exists st', skipToTagEnd fuel st = Some (Normal st')
                /\ tokenIndex (tokens st') <= k.
Proof.
  induction fuel as [|fuel IH]; intros st k Hk Hm Hfuel; [lia|].
  cbn [skipToTagEnd].
  destruct (matches1 (tokens st) tt.jsxTagEnd) eqn:E; cbn [negb].
  - exists st. split; [reflexivity | exact Hk].
  - assert (Hne : k <> tokenIndex (tokens st)).
    { intros ->. unfold matches1 in E. congruence. }
    apply (IH (onTokens (replaceToken EmptyString) st) k).
    + rewrite index_replaceToken. lia.
    + exact Hm.
    + rewrite index_replaceToken. lia.
Qed.


Lemma processTokensUntil_reaches (fuel : nat) :
  forall e s s', processTokensUntil fuel e s = Some (Normal s') ->
                 e <= tokenIndex (tokens s').
Proof.
  induction fuel as [|fuel IH]; intros e s s' H; [discriminate|].
  cbn [processTokensUntil] in H. unfold currentIndex in H.
  destruct (tokenIndex (tokens s) <? e) eqn:E.
  - bind_inv H. now apply IH in H.
  - injection H as <-. now apply Nat.ltb_ge in E.
Qed.

Lemma processTagIntro_advances (fuel : nat) (s s' : JSXTransformer) :
  processTagIntro fuel s = Some (Normal s') ->
  tokenIndex (tokens s) + 1 <= tokenIndex (tokens s').
Proof.
  unfold processTagIntro. intros H. bind_inv H. bind_inv H.
  apply findIntroEnd_found in Hstep as (Hle & _).
  apply processTokensUntil_reaches in H. unfold currentIndex in Hle. lia.
Qed.

(** What a completed tag leaves behind. *)
Lemma processJSXTag_element (fuel : nat) (st st' : JSXTransformer) :
  wellBehaved collab ->
  processJSXTag fuel st = Some (Normal st') ->
  continues st st'
  /\ tokenIndex (tokens st) + 4 <= tokenIndex (tokens st')
  /\ (exists last,
        nth_error (tokenList (tokens st)) (tokenIndex (tokens st') - 1) = Some last
        /\ label (type last) = label tt.jsxTagEnd)
  /\ exists inside,
       resultCode (tokens st')
       = (resultCode (tokens st) ++ previousWhitespace (tokens st))
         ++ resolvedReactName ++ ".createElement(" ++ inside ++ ")".
Proof.
  intros behaved Hstep.
  destruct fuel as [|fuel]; [discriminate|].
  pose proof (proj2 (tag_and_children_continue behaved (S fuel)) _ _ Hstep) as Hcont.
  split; [exact Hcont|].
  cbn [processJSXTag] in Hstep.
  bind_inv Hstep. bind_inv Hstep. bind_inv Hstep.
  set (st1 := onTokens (replaceToken (resolvedReactName ++ ".createElement(")) st) in *.
  pose proof (processTagIntro_advances _ _ _ Hstep1) as Hadv.
  pose proof (processTagIntro_continues behaved _ _ _ Hstep1) as Hc12.
  pose proof (processProps_continues behaved _ _ _ _ Hstep2) as Hc23.
  assert (Hc13 : continues st1 s1) by (eapply continues_trans; eassumption).
  assert (Hidx1 : tokenIndex (tokens st1) = S (tokenIndex (tokens st))) by reflexivity.
  assert (Hout1 : resultCode (tokens st1)
                  = (resultCode (tokens st) ++ previousWhitespace (tokens st))
                    ++ resolvedReactName ++ ".createElement(") by reflexivity.
  assert (Hlist1 : tokenList (tokens st1) = tokenList (tokens st)) by reflexivity.
  assert (Hclose : forall sl,
            continues st1 sl ->
            tokenIndex (tokens st) + 3 <= tokenIndex (tokens sl) ->
            matches1 (tokens sl) tt.jsxTagEnd = true ->
            st' = onTokens (replaceToken ")") sl ->
            tokenIndex (tokens st) + 4 <= tokenIndex (tokens st')
            /\ (exists last,
                  nth_error (tokenList (tokens st)) (tokenIndex (tokens st') - 1) = Some last
                  /\ label (type last) = label tt.jsxTagEnd)
            /\ exists inside,
                 resultCode (tokens st')
                 = (resultCode (tokens st) ++ previousWhitespace (tokens st))
                   ++ resolvedReactName ++ ".createElement(" ++ inside ++ ")").
  { intros sl (_ & Hl & _ & out & Hout) Hi Hm ->.
    rewrite index_replaceToken, resultCode_replaceToken. split; [lia|]. split.
    - apply matches1_true in Hm as (last & Hlast & Hlabel).
      exists last. split; [|exact Hlabel].
      unfold currentToken, tokenAt in Hlast. rewrite Hl, Hlist1 in Hlast.
      replace (S (tokenIndex (tokens sl)) - 1) with (tokenIndex (tokens sl)) by lia.
      exact Hlast.
    - exists (out ++ previousWhitespace (tokens sl)).
      rewrite Hout, Hout1, !append_assoc. reflexivity. }
  destruct Hc12 as (_ & _ & Hi12 & _). destruct Hc23 as (_ & _ & Hi23 & _).
  destruct (matches2 (tokens s1) tt.slash tt.jsxTagEnd) eqn:Eself.
  - injection Hstep as Hst'. symmetry in Hst'.
    apply (Hclose (onTokens (replaceToken EmptyString) s1)); [| | |exact Hst'].
    + eapply continues_trans; [exact Hc13 | apply continues_replaceToken].
    + rewrite index_replaceToken. lia.
    + apply matches2_true in Eself as (a & b & _ & _ & Hb & Hlb).
      unfold matches1. cbn [matchesAtIndex onTokens tokens replaceToken tokenIndex].
      change (tokenAt (replaceToken EmptyString (tokens s1)) (S (tokenIndex (tokens s1))))
        with (tokenAt (tokens s1) (S (tokenIndex (tokens s1)))).
      rewrite Hb, Hlb. reflexivity.
  - destruct (matches1 (tokens s1) tt.jsxTagEnd) eqn:Eopen; [|discriminate].
    bind_inv Hstep. bind_inv Hstep. injection Hstep as Hst'. symmetry in Hst'.
    pose proof (proj1 (tag_and_children_continue behaved fuel) _ _ Hstep3) as Hc45.
    pose proof (skipToTagEnd_spec _ _ _ Hstep4) as (Hm & Hi56 & _).
    pose proof (skipToTagEnd_continues _ _ _ Hstep4) as Hc56.
    apply (Hclose s3); [| |exact Hm|exact Hst'].
    + eapply continues_trans; [exact Hc13|].
      eapply continues_trans; [apply continues_replaceToken|].
      eapply continues_trans; eassumption.
    + destruct Hc45 as (_ & _ & Hi45 & _). rewrite index_replaceToken in Hi45. lia.
Qed.


(** X14: [process] does nothing and answers [false] when the cursor is not
    on a tag start.  When it answers [true] the whole element is rewritten:
    the source text, the tokens and the output written before are as they
    were; the new output is the call [F.createElement(...)], [F] being the
    replacement of [React] or [React] itself; the cursor is right behind a
    tag end and at least four tokens further. *)
Theorem X14_process_rewrites_one_element
    (fuel : nat) (st st' : JSXTransformer) (handled : bool) :
  wellBehaved collab ->
  process fuel st = Some (Normal (handled, st')) ->
  handled = matches1 (tokens st) tt.jsxTagStart
  /\ (handled = false -> st' = st)
  /\ (handled = true ->
      continues st st'
      /\ tokenIndex (tokens st) + 4 <= tokenIndex (tokens st')
      /\ (exists last,
            nth_error (tokenList (tokens st)) (tokenIndex (tokens st') - 1) = Some last
            /\ label (type last) = label tt.jsxTagEnd)
      /\ exists inside,
           resultCode (tokens st')
           = (resultCode (tokens st) ++ previousWhitespace (tokens st))
             ++ resolvedReactName ++ ".createElement(" ++ inside ++ ")").
Proof.
  intros behaved. unfold process.
  destruct (matches1 (tokens st) tt.jsxTagStart) eqn:Etag.
  2:{ intros [= <- <-]. split; [reflexivity|]. split; [reflexivity | discriminate]. }
  intros H. bind_inv H. injection H as <- <-.
  split; [reflexivity|]. split; [discriminate|]. intros _.
  now apply (processJSXTag_element fuel).
Qed.

(** X17: a tag start among the children that opens no closing tag is a child
    element: [, ] is appended and the element is rewritten in place by
    [processJSXTag], so that the output grows by [, ] and the nested call;
    the loop then goes on behind the element's tag end. *)
Theorem X17_processChildren_child_element (fuel : nat) (st : JSXTransformer) :
  wellBehaved collab ->
  matches1 (tokens st) tt.jsxTagStart = true ->
  matches2 (tokens st) tt.jsxTagStart tt.slash = false ->
  processChildren (S fuel) st
  = (child <- processJSXTag fuel (onTokens (appendCode ", ") st) ;;
     processChildren fuel child)
  /\ forall child,
       processJSXTag fuel (onTokens (appendCode ", ") st) = Some (Normal child) ->
       processChildren (S fuel) st = processChildren fuel child
       /\ tokenIndex (tokens st) + 4 <= tokenIndex (tokens child)
       /\ exists inside,
            resultCode (tokens child)
            = ((resultCode (tokens st) ++ ", ")
               ++ previousWhitespace (tokens (onTokens (appendCode ", ") st)))
              ++ resolvedReactName ++ ".createElement(" ++ inside ++ ")".
Proof.
  intros behaved Htag Hclose.
  assert (Hstep : processChildren (S fuel) st
                  = (child <- processJSXTag fuel (onTokens (appendCode ", ") st) ;;
                     processChildren fuel child)).
  { cbn [processChildren]. rewrite Hclose, Htag.
    destruct (matches1 (tokens st) tt.braceL) eqn:Eb; [|reflexivity].
    apply matches1_true in Eb as (t & Ht & Hl).
    apply matches1_true in Htag as (t' & Ht' & Hl').
    rewrite Ht in Ht'. injection Ht' as ->. rewrite Hl in Hl'. discriminate. }
  split; [exact Hstep|]. intros child Hchild.
  split; [now rewrite Hstep, Hchild|].
  apply (processJSXTag_element fuel _ _ behaved) in Hchild as (_ & Hi & _ & inside & Hout).
  rewrite index_appendCode in Hi. split; [exact Hi|].
  exists inside. rewrite Hout, resultCode_appendCode. reflexivity.
Qed.

End ElementFacts.


Lemma X14_process_rewrites_one_element_witness :
  let st' :=
    Samples.stateOf
      (processJSXTag (collab := PlainRoot.collaborators) 12 Samples.nestedTag)
      Samples.nestedTag in
  true = matches1 (tokens Samples.nestedTag) tt.jsxTagStart
  /\ (true = false -> st' = Samples.nestedTag)
  /\ (true = true ->
      continues Samples.nestedTag st'
      /\ tokenIndex (tokens Samples.nestedTag) + 4 <= tokenIndex (tokens st')
      /\ (exists last,
            nth_error (tokenList (tokens Samples.nestedTag)) (tokenIndex (tokens st') - 1)
            = Some last
            /\ label (type last) = label tt.jsxTagEnd)
      /\ exists inside,
           resultCode (tokens st')
           = (resultCode (tokens Samples.nestedTag)
              ++ previousWhitespace (Collaborators := PlainRoot.collaborators)
                   (tokens Samples.nestedTag))
             ++ resolvedReactName (collab := PlainRoot.collaborators)
             ++ ".createElement(" ++ inside ++ ")").
Proof.
  refine (X14_process_rewrites_one_element (collab := PlainRoot.collaborators)
            12 Samples.nestedTag _ true plainRoot_wellBehaved _).
  vm_compute. reflexivity.
Defined.

(* ================================================================= *)
(** ** Spread attributes, and the smallest element *)

Section ShapeFacts.

Context {collab : Collaborators}.

(** X15: a brace where an attribute may start is a spread attribute: both
    its braces are replaced by nothing, what is between them is left to
    [processBalancedCode], and a comma follows; what [processBalancedCode]
    raises ends the loop. *)
Theorem X15_processProps_spread_attribute (fuel : nat) (st : JSXTransformer) :
  matches1 (tokens st) tt.jsxName = false ->
  matches1 (tokens st) tt.braceL = true ->
  (forall inner,
      processBalancedCode (onTokens (replaceToken EmptyString) st) = Normal inner ->
      processProps_loop (S fuel) st
      = processProps_loop fuel
          (onTokens (appendCode ",") (onTokens (replaceToken EmptyString) inner))
      /\ resultCode
           (tokens (onTokens (appendCode ",") (onTokens (replaceToken EmptyString) inner)))
         = (resultCode (tokens inner) ++ previousWhitespace (tokens inner)) ++ ","
      /\ resultCode (tokens (onTokens (replaceToken EmptyString) st))
         = resultCode (tokens st) ++ previousWhitespace (tokens st))
  /\ (forall x,
      processBalancedCode (onTokens (replaceToken EmptyString) st) = Throw x ->
      processProps_loop (S fuel) st = Some (Throw x)).
Proof.
  intros Hname Hbrace.
  assert (Hm2 : matches2 (tokens st) tt.jsxName tt.eq = false).
  { destruct (matches2 (tokens st) tt.jsxName tt.eq) eqn:E; [|reflexivity].
    apply matches2_matches1 in E. congruence. }
  split.
  - intros inner Hinner. split; [|split].
    + cbn [processProps_loop]. rewrite Hm2, Hname, Hbrace.
      unfold processBracedExpression. rewrite Hinner. reflexivity.
    + rewrite resultCode_appendCode, resultCode_replaceToken, append_nil_r. reflexivity.
    + rewrite resultCode_replaceToken, append_nil_r. reflexivity.
  - intros x Hx. cbn [processProps_loop]. rewrite Hm2, Hname, Hbrace.
    unfold processBracedExpression. rewrite Hx. reflexivity.
Qed.

Lemma processProps_unfold (fuel start : nat) (s : JSXTransformer) :
  processProps fuel start s
  = let counted := snd (getLineNumberForIndex start s) in
    let filed := snd (getFilenameVarName counted) in
    let devProps :=
      devPropsCode (fst (getFilenameVarName counted)) (fst (getLineNumberForIndex start s)) in
    if negb (matches1 (tokens filed) tt.jsxName) && negb (matches1 (tokens filed) tt.braceL)
    then ret (onTokens (appendCode (", {" ++ devProps ++ "}")) filed)
    else
      st3 <- processProps_loop fuel (onTokens (appendCode ", {") filed) ;;
      ret (onTokens (appendCode (" " ++ devProps ++ "}")) st3).
Proof.
  unfold processProps. destruct (getLineNumberForIndex start s) as [line counted].
  cbn [fst snd]. destruct (getFilenameVarName counted) as [v filed]. reflexivity.
Qed.

(** X16: the smallest element.  A tag start, one name whose first character
    passes the lower-case test, a slash and a tag end become
    [F.createElement('name', {__self: this, __source: {...}})]: the call
    opened in place of [<], the name quoted, the props object with the debug
    props alone, nothing for the slash and [)] for [>].  The root
    transformer is not called, and the cursor ends four tokens on. *)
Theorem X16_processJSXTag_self_closing
    (fuel : nat) (st : JSXTransformer) (first name : Token) :
  currentToken (tokens st) = Some first ->
  tokenAt (tokens st) (tokenIndex (tokens st) + 1) = Some name ->
  startsWithLowerCase (value name) = Some true ->
  matchesAtIndex (tokens st) (tokenIndex (tokens st) + 2)
    [label tt.slash; label tt.jsxTagEnd] = true ->
  let opened := onTokens (replaceToken (resolvedReactName ++ ".createElement(")) st in
  let named := onTokens (replaceToken (String squote (value name ++ str squote))) opened in
  let counted := snd (getLineNumberForIndex (start first) named) in
  let props :=
    onTokens
      (appendCode
         (", {" ++ devPropsCode (fst (getFilenameVarName named))
                     (fst (getLineNumberForIndex (start first) named)) ++ "}"))
      (snd (getFilenameVarName counted)) in
  processJSXTag (S (S fuel)) st
  = Some (Normal (onTokens (replaceToken ")") (onTokens (replaceToken EmptyString) props)))
  /\ tokenIndex (tokens (onTokens (replaceToken ")")
                           (onTokens (replaceToken EmptyString) props)))
     = tokenIndex (tokens st) + 4
  /\ resultCode (tokens props)
     = (((resultCode (tokens st) ++ previousWhitespace (tokens st))
         ++ resolvedReactName ++ ".createElement(")
        ++ previousWhitespace (tokens opened))
       ++ String squote (value name ++ str squote)
       ++ ", {" ++ devPropsCode (fst (getFilenameVarName named))
                     (fst (getLineNumberForIndex (start first) named)) ++ "}".
Proof.
  intros Hfirst Hname Hlower Hclose opened named counted props.
  assert (Hnamed_tokens : tokenList (tokens named) = tokenList (tokens st)
                          /\ tokenIndex (tokens named) = tokenIndex (tokens st) + 2).
  { subst named opened. cbn [onTokens tokens replaceToken tokenList tokenIndex].
    split; [reflexivity | lia]. }
  destruct Hnamed_tokens as [Hlist Hidx].
  assert (Hcounted : tokens counted = tokens named).
  { subst counted. unfold getLineNumberForIndex. cbn [snd]. apply lineLoop_frame. }
  pose proof (getFilenameVarName_tokens counted) as Hfile.
  assert (Hslash : forall tp,
            tokenList tp = tokenList (tokens st) ->
            tokenIndex tp = tokenIndex (tokens st) + 2 ->
            matches2 tp tt.slash tt.jsxTagEnd = true
            /\ matches1 tp tt.jsxName = false /\ matches1 tp tt.braceL = false).
  { intros tp Hl Hi. unfold matches2, matches1. rewrite Hi.
    cbn [matchesAtIndex] in *. unfold tokenAt in *. rewrite Hl.
    destruct (nth_error (tokenList (tokens st)) (tokenIndex (tokens st) + 2)) as [a|];
      [|discriminate].
    apply andb_true_iff in Hclose as [Ha Hb]. apply String.eqb_eq in Ha.
    split; [rewrite Ha; exact Hb|]. rewrite Ha. split; reflexivity. }
  assert (Hintro : processTagIntro (S fuel) opened = Some (Normal named)).
  { rewrite (processTagIntro_single fuel opened name true); [reflexivity| | |exact Hlower].
    - subst opened. unfold currentToken in *.
      cbn [onTokens tokens replaceToken tokenIndex tokenAt tokenList] in *.
      unfold tokenAt in Hname. cbn [tokenList].
      replace (S (tokenIndex (tokens st))) with (tokenIndex (tokens st) + 1) by lia.
      exact Hname.
    - unfold introEndsAt. subst opened. unfold currentIndex.
      cbn [onTokens tokens replaceToken tokenIndex].
      replace (S (tokenIndex (tokens st)) + 1) with (tokenIndex (tokens st) + 2) by lia.
      change (matchesAtIndex (replaceToken ?c (tokens st)) ?i ?l)
        with (matchesAtIndex (tokens st) i l).
      change ["/"; "jsxTagEnd"] with [label tt.slash; label tt.jsxTagEnd].
      rewrite Hclose. now rewrite !orb_true_r. }
  assert (Hprops : processProps (S fuel) (start first) named = Some (Normal props)).
  { rewrite processProps_unfold. cbv zeta. fold counted.
    destruct (Hslash (tokens (snd (getFilenameVarName counted)))) as (_ & Hn & Hb).
    { now rewrite Hfile, Hcounted. }
    { now rewrite Hfile, Hcounted. }
    rewrite Hn, Hb. cbn [negb andb]. subst props.
    assert (Hv : fst (getFilenameVarName counted) = fst (getFilenameVarName named)).
    { apply getFilenameVarName_fst; subst counted;
        unfold getLineNumberForIndex; cbn [snd]; apply lineLoop_frame. }
    now rewrite Hv. }
  split; [|split].
  - cbn [processJSXTag]. rewrite Hfirst. cbn [deref ret bind].
    fold opened. rewrite Hintro. cbn [bind]. rewrite Hprops. cbn [bind].
    destruct (Hslash (tokens props)) as (Hm & _ & _).
    { subst props. cbn [onTokens tokens appendCode tokenList].
      now rewrite Hfile, Hcounted. }
    { subst props. cbn [onTokens tokens appendCode tokenIndex].
      now rewrite Hfile, Hcounted. }
    rewrite Hm. reflexivity.
  - rewrite !index_replaceToken. subst props. rewrite index_appendCode.
    rewrite Hfile, Hcounted. lia.
  - subst props. rewrite resultCode_appendCode, Hfile, Hcounted.
    subst named. rewrite resultCode_replaceToken. subst opened.
    rewrite resultCode_replaceToken. rewrite !append_assoc. reflexivity.
Qed.

End ShapeFacts.

Lemma X15_processProps_spread_attribute_witness :
  processProps_loop (collab := PlainRoot.collaborators) 6
    (Samples.at_token 2 Samples.spreadTag)
  = processProps_loop (collab := PlainRoot.collaborators) 5
      (onTokens (appendCode ",")
         (onTokens (replaceToken (collab := PlainRoot.collaborators) EmptyString)
            (Samples.stateOf
               (Some (processBalancedCode (Collaborators := PlainRoot.collaborators)
                        (onTokens (replaceToken (collab := PlainRoot.collaborators)
                                     EmptyString)
                           (Samples.at_token 2 Samples.spreadTag))))
               Samples.spreadTag))).
Proof.
  refine (proj1 (proj1 (X15_processProps_spread_attribute
                          (collab := PlainRoot.collaborators) 5
                          (Samples.at_token 2 Samples.spreadTag) _ _) _ _)).
  - reflexivity.
  - reflexivity.
  - vm_compute. reflexivity.
Defined.

Lemma X16_processJSXTag_self_closing_witness :
  Samples.output (processJSXTag (collab := PlainRoot.collaborators) 4 Samples.underscoreTag)
  = Some (Normal
      "React.createElement('_Foo', {__self: this, __source: {fileName: _jsxFileName, lineNumber: 1}})").
Proof.
  rewrite (proj1 (X16_processJSXTag_self_closing (collab := PlainRoot.collaborators)
                    2 Samples.underscoreTag
                    (Samples.tok tt.jsxTagStart "<" 0 1)
                    (Samples.tok tt.jsxName "_Foo" 1 4)
                    eq_refl eq_refl eq_refl eq_refl)).
  vm_compute. reflexivity.
Defined.

Lemma X17_processChildren_child_element_witness :
  processChildren (collab := PlainRoot.collaborators) 9
    (Samples.at_token 8 Samples.childrenTag)
  = (child <- processJSXTag (collab := PlainRoot.collaborators) 8
                (onTokens (appendCode ", ") (Samples.at_token 8 Samples.childrenTag)) ;;
     processChildren (collab := PlainRoot.collaborators) 8 child).
Proof.
  refine (proj1 (X17_processChildren_child_element (collab := PlainRoot.collaborators)
                   8 (Samples.at_token 8 Samples.childrenTag)
                   plainRoot_wellBehaved _ _)); reflexivity.
Defined.

(* ================================================================= *)
(** ** getLineNumberForIndex: queries in a row *)

Lemma lineLoop_through (fuelA : nat) :
  forall (st : JSXTransformer) (a b fuel : nat),
    a <= b ->
    Nat.min b (String.length (code (tokens st))) - lastIndex st <= fuel ->
    getLineNumberForIndex_loop fuel b (getLineNumberForIndex_loop fuelA a st)
    = getLineNumberForIndex_loop fuel b st.
Proof.
  induction fuelA as [|fuelA IH]; intros st a b fuel Hab Hfuel; [reflexivity|].
  cbn [getLineNumberForIndex_loop].
  destruct (lastIndex st <? a) eqn:E1; cbn [andb]; [|reflexivity].
  destruct (lastIndex st <? String.length (code (tokens st))) eqn:E2; [|reflexivity].
  match goal with |- context [getLineNumberForIndex_loop fuelA a ?s] =>
    set (next := s) end.
  assert (Hnext : tokens next = tokens st /\ lastIndex next = lastIndex st + 1)
    by (subst next; split; reflexivity).
  destruct Hnext as [Ht Hi].
  pose proof E1 as L1. pose proof E2 as L2. apply Nat.ltb_lt in L1, L2.
  rewrite (IH next a b fuel Hab) by (rewrite Ht, Hi; lia).
  destruct fuel as [|fuel]; [lia|].
  assert (Eb : (lastIndex st <? b) = true) by (apply Nat.ltb_lt; lia).
  assert (Hstep : getLineNumberForIndex_loop (S fuel) b st
                  = getLineNumberForIndex_loop fuel b next)
    by (cbn [getLineNumberForIndex_loop]; rewrite Eb, E2; reflexivity).
  rewrite Hstep.
  rewrite (lineLoop_fuel (S fuel) b next) by (rewrite Ht, Hi; lia).
  rewrite (lineLoop_fuel fuel b next) by (rewrite Ht, Hi; lia).
  reflexivity.
Qed.

(** X18: a query in between changes nothing for the queries after it.
    Asking for an offset [a] and then for an offset [b] not smaller than
    [a] gives the answer and leaves the state that asking for [b] alone
    does. *)
Theorem X18_getLineNumberForIndex_queries_compose (a b : nat) (st : JSXTransformer) :
  a <= b ->
  getLineNumberForIndex b (snd (getLineNumberForIndex a st))
  = getLineNumberForIndex b st.
Proof.
  intros Hab.
  assert (Hstate : snd (getLineNumberForIndex b (snd (getLineNumberForIndex a st)))
                   = snd (getLineNumberForIndex b st)).
  { unfold getLineNumberForIndex. cbn [snd].
    set (sa := getLineNumberForIndex_loop (a - lastIndex st) a st).
    destruct (lineLoop_frame (a - lastIndex st) a st) as (Ht & _ & _). fold sa in Ht.
    pose proof (lineLoop_monotone (a - lastIndex st) a st) as Hm. cbn zeta in Hm.
    fold sa in Hm. destruct Hm as (_ & Hli & _).
    rewrite (lineLoop_fuel (b - lastIndex sa) b sa) by lia.
    rewrite <- (lineLoop_fuel (b - lastIndex st) b sa) by lia.
    subst sa. apply lineLoop_through; [exact Hab | lia]. }
  apply injective_projections; [|exact Hstate].
  change (lastLineNumber (snd (getLineNumberForIndex b (snd (getLineNumberForIndex a st))))
          = lastLineNumber (snd (getLineNumberForIndex b st))).
  now rewrite Hstate.
Qed.

Lemma X18_getLineNumberForIndex_queries_compose_witness :
  getLineNumberForIndex 20 (snd (getLineNumberForIndex 11 Samples.childrenTag))
  = getLineNumberForIndex 20 Samples.childrenTag.
Proof.
  apply (X18_getLineNumberForIndex_queries_compose 11 20 Samples.childrenTag). lia.
Defined.
